(** * Cohort metrics pipeline of DataModel-ClinicalData

    A shallow embedding of the three implementations of the pipeline
    ([analytics_data_model.py], [pandas_DataModel.py], [polars_DataModel.py])
    and of the dataframe primitives they call.

    Conventions of the embedding.
    - A dataframe is the list of its rows, in row order; a column computed
      from it is a list of the same length.
    - A missing value (pandas [NaN]/[NaT], polars [null]) is [None].
    - A timestamp ([datetime64[ns]]) is the integer number of nanoseconds
      since the epoch; a timedelta is a difference of two of them.
    - A weight ([float64]) is an exact integer number of the data set's
      weight resolution: rounding of the subtraction of two weights is not
      part of the model.
    - A quotient of timedeltas is the binary64 number that numpy computes:
      both int64 operands are converted to binary64 and divided, each step
      rounded to nearest, ties to even ([float64]).  The same conversion is
      applied to the keys of a merge when one key column is float64.
    - [read_csv] belongs to the table loader: the pipeline starts from the
      three loaded tables, and the function argument [path_to_data] becomes
      the three tables.
    - The argument [cohort] names a column of the frame; the command line
      offers 'week', 'month' and 'ClinicID'. *)

From Stdlib Require Import ZArith List Bool String Lia.
From Stdlib Require Import QArith Qround Qpower Lqa.
From Stdlib Require Import Sorted Permutation.
Import ListNotations.

Local Open Scope Z_scope.

Set Implicit Arguments.

(* ------------------------------------------------------------------ *)
(** ** The three input tables *)

Module users.
Record t := mk {
    UID : Z;
    Gender : option string;
    Age : option Z;
    ClinicID : option Z;
    Birthday : option Z;
    CreatedDate : option Z;
    IsActive : option bool
}.
End users.

Module weights.
Record t := mk {
    MasterUserID : option Z;
    Weight : option Z;
    CreatedDate : option Z;
    UpdatedDate : option Z;
    IsActive : option bool;
    IsDelete : option bool
}.
End weights.

Module treatments.
Record t := mk {
    MasterUserID : option Z;
    TreatmentTypeID : option Z;
    StartDate : option Z
}.
End treatments.

(** The merged frame after [drop(columns=[MasterUserID_x, MasterUserID_y])]
    and [rename(columns=columns_to_rename)].  The pandas_DataModel and polars
    files abbreviate [Weights_] to [Wts_] and [Treatment_] to [Tmt_]. *)
Record Row := mkRow {
  UID : Z;
  Gender : option string;
  Age : option Z;
  ClinicID : option Z;
  Birthday : option Z;
  UIDCreatedDate : option Z;
  User_IsActive : option bool;
  Weight : option Z;
  Weights_CreatedDate : option Z;
  Weights_UpdatedDate : option Z;
  Weights_IsActive : option bool;
  Weights_IsDelete : option bool;
  TreatmentTypeID : option Z;
  Treatment_StartDate : option Z
}.

(** The frame once the cohort indices and the five metrics are assigned. *)
Record OutRow := mkOut {
  base : Row;
  month : option Z;
  week : option Z;
  weigh_in_rate : option Z;
  patient_starting_weight : option Z;
  treatment_starting_weight : option Z;
  treatment_TBWL : option Z;
  patient_TBWL : option Z
}.

Inductive cohort_t := week_c | month_c | ClinicID_c.

Definition cohort_value (cohort : cohort_t) (r : OutRow) : option Z :=
  match cohort with
  | week_c => week r
  | month_c => month r
  | ClinicID_c => ClinicID (base r)
  end.

(** Errors a run can raise. *)
Inductive exn := ValueError | AttributeError.

Definition result (A : Type) : Type := (exn + A)%type.
Definition ret {A} (a : A) : result A := inr a.
Definition raise {A} (e : exn) : result A := inl e.
Definition bind {A B} (m : result A) (k : A -> result B) : result B :=
  match m with inl e => inl e | inr a => k a end.

Notation "x <- m ;; k" := (bind m (fun x => k))
  (at level 61, m at next level, right associativity).

(* ------------------------------------------------------------------ *)
(** ** Decidable equalities *)

Definition option_Z_eq_dec (a b : option Z) : {a = b} + {a <> b}.
Proof. decide equality; apply Z.eq_dec. Defined.

Definition option_bool_eq_dec (a b : option bool) : {a = b} + {a <> b}.
Proof. decide equality; apply bool_dec. Defined.

Definition option_string_eq_dec (a b : option string) : {a = b} + {a <> b}.
Proof. decide equality; apply string_dec. Defined.

Definition Row_eq_dec (a b : Row) : {a = b} + {a <> b}.
Proof.
  decide equality;
    first [ apply Z.eq_dec | apply option_Z_eq_dec
          | apply option_bool_eq_dec | apply option_string_eq_dec ].
Defined.

Definition OutRow_eq_dec (a b : OutRow) : {a = b} + {a <> b}.
Proof.
  decide equality; first [ apply option_Z_eq_dec | apply Row_eq_dec ].
Defined.

(* ------------------------------------------------------------------ *)
(** ** binary64 numbers

    The value of a binary64 number is a rational; [round] gives the
    binary64 number nearest to a rational, ties to the even significand
    (53 bits).  The exponent is not bounded: the quotients and keys of the
    pipeline stay far from overflow and from the subnormal range. *)

Module float64.

(** Nearest integer, ties to even. *)
Definition round_half_even (x : Q) : Z :=
  let q := Qfloor x in
  match (2 * (x - inject_Z q) ?= 1)%Q with
  | Lt => q
  | Gt => q + 1
  | Eq => if Z.even q then q else q + 1
  end.

(** For [x > 0], the [e] with [2^e <= x < 2^(e+1)]. *)
Definition exponent (x : Q) : Z :=
  let l := Z.log2 (Qnum x) - Z.log2 (Zpos (Qden x)) in
  if Qle_bool (2 ^ l) x then l else l - 1.

(** For [x > 0]: the significand [x / 2^(e-52)] rounded to an integer. *)
Definition nearest (x : Q) : Q :=
  let e := exponent x in
  (inject_Z (round_half_even (x * 2 ^ (52 - e))) * 2 ^ (e - 52))%Q.

Definition round (x : Q) : Q :=
  match (x ?= 0)%Q with
  | Eq => 0%Q
  | Gt => nearest x
  | Lt => (- nearest (- x))%Q
  end.

(** [int64 -> float64] ([astype], and the C cast of numpy's division). *)
Definition of_int (z : Z) : Q := round (inject_Z z).

(** Division of two binary64 numbers. *)
Definition div (a b : Q) : Q := round (a / b).

End float64.

(* ------------------------------------------------------------------ *)
(** ** pandas primitives *)

Module pd.

(** *** [pd.merge(..., left_on='UID', right_on='MasterUserID', how='left')] *)

(** [read_csv] gives a column of integers the dtype int64, and the dtype
    float64 as soon as one cell is empty. *)
Definition is_float64 (col : list (option Z)) : bool :=
  existsb (fun c => match c with None => true | Some _ => false end) col.

(** A key of the right table matches the left key when it is present and
    equal; a missing [MasterUserID] matches no [UID].  The [UID] column is
    int64.  A float64 [MasterUserID] column holds, for each integer of the
    file, the float64 number nearest to it; the merge converts the [UID] to
    float64 as well and compares the two float64 numbers. *)
Definition key_match (float_keys : bool) (uid : Z) (k : option Z) : bool :=
  match k with
  | Some k' =>
      if float_keys
      then Qeq_bool (float64.of_int uid) (float64.of_int k')
      else uid =? k'
  | None => false
  end.

(** Row type of the intermediate frame [uw]. *)
Definition uw_row : Type := (users.t * option weights.t)%type.

(** Left join: every left row, in order, once per matching right row (in the
    right table's order), or once with the right side missing. *)
Definition left_join {L R O : Type} (on : L -> R -> bool)
           (pair : L -> option R -> O) (left : list L) (right : list R)
  : list O :=
  flat_map
    (fun l =>
       match filter (on l) right with
       | [] => [pair l None]
       | ms => map (fun r => pair l (Some r)) ms
       end) left.

Definition joined (x : uw_row) (ot : option treatments.t) : Row :=
  let (u, ow) := x in
  {| UID := users.UID u;
     Gender := users.Gender u;
     Age := users.Age u;
     ClinicID := users.ClinicID u;
     Birthday := users.Birthday u;
     UIDCreatedDate := users.CreatedDate u;
     User_IsActive := users.IsActive u;
     Weight := match ow with Some w => weights.Weight w | None => None end;
     Weights_CreatedDate :=
       match ow with Some w => weights.CreatedDate w | None => None end;
     Weights_UpdatedDate :=
       match ow with Some w => weights.UpdatedDate w | None => None end;
     Weights_IsActive :=
       match ow with Some w => weights.IsActive w | None => None end;
     Weights_IsDelete :=
       match ow with Some w => weights.IsDelete w | None => None end;
     TreatmentTypeID :=
       match ot with Some t => treatments.TreatmentTypeID t | None => None end;
     Treatment_StartDate :=
       match ot with Some t => treatments.StartDate t | None => None end |}.

(** [uw = pd.merge(users, weights, ...)] *)
Definition merge_users_weights (us : list users.t) (ws : list weights.t)
  : list uw_row :=
  let float_keys := is_float64 (map weights.MasterUserID ws) in
  left_join
    (fun u w => key_match float_keys (users.UID u) (weights.MasterUserID w))
    (fun u ow => (u, ow)) us ws.

(** [pd.merge(uw, treatments, ...)], then the drop of the two [MasterUserID]
    columns and the renaming. *)
Definition merge_uw_treatments (uw : list uw_row) (ts : list treatments.t)
  : list Row :=
  let float_keys := is_float64 (map treatments.MasterUserID ts) in
  left_join
    (fun x t => key_match float_keys (users.UID (fst x))
                          (treatments.MasterUserID t))
    joined uw ts.

Definition merge (us : list users.t) (ws : list weights.t)
           (ts : list treatments.t) : list Row :=
  merge_uw_treatments (merge_users_weights us ws) ts.

(** *** [DataFrame.sort_values(by=[...])]

    Ascending, [na_position='last'], lexicographic on the listed columns and
    stable (rows with equal keys keep their order). *)

Definition cmp_na_last (a b : option Z) : comparison :=
  match a, b with
  | Some x, Some y => x ?= y
  | Some _, None => Lt
  | None, Some _ => Gt
  | None, None => Eq
  end.

Fixpoint lex_cmp (cmp : option Z -> option Z -> comparison)
         (k1 k2 : list (option Z)) : comparison :=
  match k1, k2 with
  | a :: k1', b :: k2' =>
      match cmp a b with Eq => lex_cmp cmp k1' k2' | c => c end
  | _, _ => Eq
  end.

Definition leb_of (c : comparison) : bool :=
  match c with Gt => false | _ => true end.

Section Sort.
Variable A : Type.
Variable leb : A -> A -> bool.

Fixpoint insert (x : A) (l : list A) : list A :=
  match l with
  | [] => [x]
  | y :: l' => if leb x y then x :: l else y :: insert x l'
  end.

Definition stable_sort (l : list A) : list A := fold_right insert [] l.
End Sort.

Definition sort_values {A} (by_ : A -> list (option Z)) (df : list A)
  : list A :=
  stable_sort (fun r1 r2 => leb_of (lex_cmp cmp_na_last (by_ r1) (by_ r2))) df.

(** *** Series arithmetic *)

Definition sub (a b : option Z) : option Z :=
  match a, b with Some x, Some y => Some (x - y) | _, _ => None end.

Definition neg (a : option Z) : option Z :=
  match a with Some x => Some (- x) | None => None end.

Fixpoint map2 {A B C} (f : A -> B -> C) (l1 : list A) (l2 : list B) : list C :=
  match l1, l2 with
  | a :: l1', b :: l2' => f a b :: map2 f l1' l2'
  | _, _ => []
  end.

(** [Series.diff(-1)]: [s[i] - s[i+1]], missing on the last row. *)
Fixpoint diff_m1 (s : list (option Z)) : list (option Z) :=
  match s with
  | [] => []
  | a :: s' => sub a (match s' with b :: _ => b | [] => None end) :: diff_m1 s'
  end.

(** [Series.dt]: the accessor of a datetimelike column.  On a frame
    without rows [apply(pd.to_datetime)] hands the frame back as it is,
    the timestamp columns keep the dtype object, and the accessor raises
    [AttributeError]. *)
Definition dt {V} (s : list V) : result (list V) :=
  match s with
  | [] => raise AttributeError
  | _ => ret s
  end.

(** [Series.apply(math.floor)]: [math.floor] raises [ValueError] on [NaN]. *)
Fixpoint apply_floor (s : list (option Q)) : result (list Z) :=
  match s with
  | [] => ret []
  | None :: _ => raise ValueError
  | Some q :: s' => fs <- apply_floor s' ;; ret (Qfloor q :: fs)
  end.

(** *** [groupby(by)[col].transform(agg)]

    The group key of a row is the tuple of its [by] values; a row with a
    missing value in a [by] column is in no group ([dropna=True]) and its
    transformed value is missing. *)

Fixpoint group_key (cols : list (option Z)) : option (list Z) :=
  match cols with
  | [] => Some []
  | None :: _ => None
  | Some v :: cols' =>
      match group_key cols' with Some k => Some (v :: k) | None => None end
  end.

Definition in_group (k : list Z) (ok : option (list Z)) : bool :=
  match ok with
  | Some k' => if list_eq_dec Z.eq_dec k k' then true else false
  | None => false
  end.

(** Values of the rows of group [k], in row order. *)
Definition group_values {V} (k : list Z) (keys : list (option (list Z)))
           (vals : list V) : list V :=
  map snd (filter (fun kv => in_group k (fst kv)) (combine keys vals)).

Definition transform {V W} (agg : list V -> option W)
           (keys : list (option (list Z))) (vals : list V) : list (option W) :=
  map (fun ok => match ok with
                 | Some k => agg (group_values k keys vals)
                 | None => None
                 end) keys.

(** ['count']: number of non-missing values of the group. *)
Definition notna {V} (v : option V) : bool :=
  match v with Some _ => true | None => false end.

Definition count {V} (vals : list (option V)) : option Z :=
  Some (Z.of_nat (List.length (filter notna vals))).

(** ['first'] / ['last']: first / last non-missing value of the group. *)
Fixpoint first {V} (vals : list (option V)) : option V :=
  match vals with
  | [] => None
  | Some v :: _ => Some v
  | None :: vals' => first vals'
  end.

Definition last {V} (vals : list (option V)) : option V := first (rev vals).

(** ['max']: greatest non-missing value of the group. *)
Fixpoint max (vals : list (option Z)) : option Z :=
  match vals with
  | [] => None
  | v :: vals' =>
      match v, max vals' with
      | Some x, Some y => Some (Z.max x y)
      | Some x, None => Some x
      | None, m => m
      end
  end.

(** *** [DataFrame.drop_duplicates()]: keeps the first of equal rows. *)
Section Dedup.
Variable A : Type.
Variable eq_dec : forall a b : A, {a = b} + {a <> b}.

Fixpoint drop_duplicates_from (seen : list A) (df : list A) : list A :=
  match df with
  | [] => []
  | r :: df' =>
      if in_dec eq_dec r seen then drop_duplicates_from seen df'
      else r :: drop_duplicates_from (r :: seen) df'
  end.

Definition drop_duplicates (df : list A) : list A := drop_duplicates_from [] df.
End Dedup.

End pd.

(* ------------------------------------------------------------------ *)
(** ** Columns of the frame *)

(** One day, in nanoseconds. *)
Definition day : Z := 86400000000000.

(** [pd.Timedelta(days=30.44)], in nanoseconds. *)
Definition Timedelta_30_44 : Z := 2630016000000000.

(** [Weights_CreatedDate - Treatment_StartDate], a timedelta column. *)
Definition datediff (r : Row) : option Z :=
  pd.sub (Weights_CreatedDate r) (Treatment_StartDate r).

(** Timedelta divided by a timedelta: the float64 quotient of the two
    numbers of nanoseconds, each converted to float64. *)
Definition td_div (td : option Z) (unit : Z) : option Q :=
  match td with
  | Some d => Some (float64.div (float64.of_int d) (float64.of_int unit))
  | None => None
  end.

(** [.dt.days]: the days component of a timedelta (rounded down). *)
Definition dt_days (td : option Z) : option Z :=
  match td with Some d => Some (d / day) | None => None end.

(** [df[col] = values] *)
Definition assign (set : OutRow -> option Z -> OutRow)
           (df : list OutRow) (values : list (option Z)) : list OutRow :=
  pd.map2 set df values.

Definition unassigned (r : Row) : OutRow :=
  mkOut r None None None None None None None.

Definition set_month (r : OutRow) (v : option Z) : OutRow :=
  mkOut (base r) v (week r) (weigh_in_rate r) (patient_starting_weight r)
        (treatment_starting_weight r) (treatment_TBWL r) (patient_TBWL r).

Definition set_week (r : OutRow) (v : option Z) : OutRow :=
  mkOut (base r) (month r) v (weigh_in_rate r) (patient_starting_weight r)
        (treatment_starting_weight r) (treatment_TBWL r) (patient_TBWL r).

Definition set_weigh_in_rate (r : OutRow) (v : option Z) : OutRow :=
  mkOut (base r) (month r) (week r) v (patient_starting_weight r)
        (treatment_starting_weight r) (treatment_TBWL r) (patient_TBWL r).

Definition set_patient_starting_weight (r : OutRow) (v : option Z) : OutRow :=
  mkOut (base r) (month r) (week r) (weigh_in_rate r) v
        (treatment_starting_weight r) (treatment_TBWL r) (patient_TBWL r).

Definition set_treatment_starting_weight (r : OutRow) (v : option Z) : OutRow :=
  mkOut (base r) (month r) (week r) (weigh_in_rate r)
        (patient_starting_weight r) v (treatment_TBWL r) (patient_TBWL r).

Definition set_treatment_TBWL (r : OutRow) (v : option Z) : OutRow :=
  mkOut (base r) (month r) (week r) (weigh_in_rate r)
        (patient_starting_weight r) (treatment_starting_weight r) v
        (patient_TBWL r).

Definition set_patient_TBWL (r : OutRow) (v : option Z) : OutRow :=
  mkOut (base r) (month r) (week r) (weigh_in_rate r)
        (patient_starting_weight r) (treatment_starting_weight r)
        (treatment_TBWL r) v.

(** The [by] lists of the sort and of the three groupings. *)
Definition sort_by (r : Row) : list (option Z) :=
  [Some (UID r); UIDCreatedDate r; TreatmentTypeID r; Treatment_StartDate r;
   Weights_CreatedDate r; Weights_UpdatedDate r].

Definition by_patient (r : OutRow) : list (option Z) :=
  [Some (UID (base r))].

Definition by_treatment (r : OutRow) : list (option Z) :=
  [Some (UID (base r)); TreatmentTypeID (base r); Treatment_StartDate (base r)].

Definition by_cohort (cohort : cohort_t) (r : OutRow) : list (option Z) :=
  [Some (UID (base r)); TreatmentTypeID (base r); Treatment_StartDate (base r);
   cohort_value cohort r].

(** Column comparisons of the filters: a missing value compares false. *)
Definition str_is (v : option string) (s : string) : bool :=
  match v with Some x => String.eqb x s | None => false end.

Definition ge_ (v : option Z) (n : Z) : bool :=
  match v with Some x => n <=? x | None => false end.

Definition le_ (v : option Z) (n : Z) : bool :=
  match v with Some x => x <=? n | None => false end.

Definition eq_ (v : option Z) (n : Z) : bool :=
  match v with Some x => x =? n | None => false end.

(* ------------------------------------------------------------------ *)
(** ** Statements shared by the two pandas files

    Each definition is one assignment statement of [data_pipeline]; the frame
    [df] is threaded through them. *)

Definition col_Weight (df : list OutRow) : list (option Z) :=
  map (fun r => Weight (base r)) df.

Definition groups (by_ : OutRow -> list (option Z)) (df : list OutRow)
  : list (option (list Z)) :=
  map (fun r => pd.group_key (by_ r)) df.

(** [df['weigh_in_rate'] = df.groupby([UID, TreatmentTypeID,
    Treatment_StartDate, cohort])['Weights_UpdatedDate'].transform('count')] *)
Definition assign_weigh_in_rate (cohort : cohort_t) (df : list OutRow)
  : list OutRow :=
  assign set_weigh_in_rate df
    (pd.transform pd.count (groups (by_cohort cohort) df)
       (map (fun r => Weights_UpdatedDate (base r)) df)).

(** [df['patient_starting_weight'] =
    df.groupby(['UID'])['Weight'].transform('first')] *)
Definition assign_patient_starting_weight (df : list OutRow) : list OutRow :=
  assign set_patient_starting_weight df
    (pd.transform pd.first (groups by_patient df) (col_Weight df)).

(** [df['treatment_starting_weight'] = df.groupby([UID, TreatmentTypeID,
    Treatment_StartDate])['Weight'].transform('first')] *)
Definition assign_treatment_starting_weight (df : list OutRow) : list OutRow :=
  assign set_treatment_starting_weight df
    (pd.transform pd.first (groups by_treatment df) (col_Weight df)).

(** [tew = df.groupby([...])['Weight'].transform('last')];
    [df['treatment_TBWL'] = tew - df['treatment_starting_weight']] *)
Definition assign_treatment_TBWL (df : list OutRow) : list OutRow :=
  let tew := pd.transform pd.last (groups by_treatment df) (col_Weight df) in
  assign set_treatment_TBWL df
    (pd.map2 pd.sub tew (map treatment_starting_weight df)).

(** [df['wgt_diff'] = df.groupby([..., cohort])['Weight']
    .transform('first').diff(-1)] *)
Definition wgt_diff (cohort : cohort_t) (df : list OutRow) : list (option Z) :=
  pd.diff_m1 (pd.transform pd.first (groups (by_cohort cohort) df)
                (col_Weight df)).

(* ------------------------------------------------------------------ *)
(** ** analytics_data_model.py *)

Module analytics_data_model.

Definition filters (df : list OutRow) (gender : string)
           (min_age max_age ClinicID_ : Z) : list OutRow :=
  (* Gender filter *)
  let df :=
    if String.eqb gender "all" then df
    else if String.eqb gender "Male"
         then filter (fun r => str_is (Gender (base r)) "Male") df
    else if String.eqb gender "Female"
         then filter (fun r => str_is (Gender (base r)) "Female") df
    else df in
  (* Age filter *)
  let df := filter (fun r => ge_ (Age (base r)) min_age
                             && le_ (Age (base r)) max_age) df in
  (* Clinic filter *)
  filter (fun r => eq_ (ClinicID (base r)) ClinicID_) df.

(** [merged_df['month'] = (Weights_CreatedDate - Treatment_StartDate)
    / pd.Timedelta(days=30.44)], then [.apply(math.floor) + 1]. *)
Definition assign_month (df : list OutRow) : result (list OutRow) :=
  floors <- pd.apply_floor
              (map (fun r => td_div (datediff (base r)) Timedelta_30_44) df) ;;
  ret (assign set_month df (map (fun m => Some (m + 1)) floors)).

(** [merged_df['week'] = (Weights_CreatedDate - Treatment_StartDate)
    .dt.days // 7 + 1] *)
Definition assign_week (df : list OutRow) : result (list OutRow) :=
  tds <- pd.dt (map (fun r => datediff (base r)) df) ;;
  ret (assign set_week df
         (map (fun td => match dt_days td with
                         | Some d => Some (d / 7 + 1)
                         | None => None
                         end) tds)).

(** [merged_df['patient_TBWL'] = - merged_df.groupby([..., cohort])
    ['wgt_diff'].transform('max')] *)
Definition assign_patient_TBWL (cohort : cohort_t) (df : list OutRow)
  : list OutRow :=
  assign set_patient_TBWL df
    (map pd.neg
       (pd.transform pd.max (groups (by_cohort cohort) df)
                     (wgt_diff cohort df))).

(** [data_pipeline] from the merge to the last metric (the frame handed to
    [filters]). *)
Definition metrics (us : list users.t) (ws : list weights.t)
           (ts : list treatments.t) (cohort : cohort_t)
  : result (list OutRow) :=
  let merged_df := pd.merge us ws ts in
  let merged_df := pd.sort_values sort_by merged_df in
  merged_df <- assign_month (map unassigned merged_df) ;;
  merged_df <- assign_week merged_df ;;
  let merged_df := assign_weigh_in_rate cohort merged_df in
  let merged_df := assign_patient_starting_weight merged_df in
  let merged_df := assign_treatment_starting_weight merged_df in
  let merged_df := assign_treatment_TBWL merged_df in
  let merged_df := assign_patient_TBWL cohort merged_df in
  ret merged_df.

Definition data_pipeline (us : list users.t) (ws : list weights.t)
           (ts : list treatments.t) (cohort : cohort_t) (gender : string)
           (min_age max_age ClinicID_ : Z) : result (list OutRow) :=
  merged_df <- metrics us ws ts cohort ;;
  let merged_df := filters merged_df gender min_age max_age ClinicID_ in
  ret (pd.drop_duplicates OutRow_eq_dec merged_df).

End analytics_data_model.

(* ------------------------------------------------------------------ *)
(** ** pandas_DataModel.py *)

Module pandas_DataModel.

Definition filters (df : list OutRow) (gender : string)
           (min_age max_age ClinicID_ : Z) : list OutRow :=
  (* Gender filter *)
  let df :=
    if String.eqb gender "Male"
    then filter (fun r => str_is (Gender (base r)) "Male") df
    else if String.eqb gender "Female"
         then filter (fun r => str_is (Gender (base r)) "Female") df
    else df in
  (* Age filter *)
  let df := filter (fun r => ge_ (Age (base r)) min_age
                             && le_ (Age (base r)) max_age) df in
  (* Clinic filter *)
  filter (fun r => eq_ (ClinicID (base r)) ClinicID_) df.

(** [datediff.dt.days / x] for the float [x = num / den], on one cell.  The
    days are whole numbers of at most 106752 in absolute value (an int64
    of nanoseconds): on that range the float64 quotient by 30.417 or by 7
    and the exact quotient have the same floor
    ([days_div_is_the_float64_quotient]), and the exact quotient is
    taken. *)
Definition days_div (td : option Z) (num den : positive) : option Q :=
  match dt_days td with
  | Some d => Some (inject_Z d / (Zpos num # den))%Q
  | None => None
  end.

(** [datediff = df['Wts_CreatedDate'] - df['Tmt_StartDate']] *)
Definition col_datediff (df : list OutRow) : list (option Z) :=
  map (fun r => datediff (base r)) df.

(** [df['month'] = datediff.dt.days / 30.417], then [.apply(math.floor)]. *)
Definition assign_month (df : list OutRow) : result (list OutRow) :=
  tds <- pd.dt (col_datediff df) ;;
  floors <- pd.apply_floor (map (fun td => days_div td 30417 1000) tds) ;;
  ret (assign set_month df (map Some floors)).

(** [df['week'] = datediff.dt.days / 7], then [.apply(math.floor)]. *)
Definition assign_week (df : list OutRow) : result (list OutRow) :=
  tds <- pd.dt (col_datediff df) ;;
  floors <- pd.apply_floor (map (fun td => days_div td 7 1) tds) ;;
  ret (assign set_week df (map Some floors)).

(** [df['patient_TBWL'] = df.groupby([..., cohort])['wgt_diff']
    .transform('max')] *)
Definition assign_patient_TBWL (cohort : cohort_t) (df : list OutRow)
  : list OutRow :=
  assign set_patient_TBWL df
    (pd.transform pd.max (groups (by_cohort cohort) df) (wgt_diff cohort df)).

(** [data_pipeline] from the merge to the last metric.  The columns [WIR],
    [PSW] and [TSW] of this file are the fields [weigh_in_rate],
    [patient_starting_weight] and [treatment_starting_weight]. *)
Definition metrics (us : list users.t) (ws : list weights.t)
           (ts : list treatments.t) (cohort : cohort_t)
  : result (list OutRow) :=
  let df := pd.merge us ws ts in
  let df := pd.sort_values sort_by df in
  df <- assign_month (map unassigned df) ;;
  df <- assign_week df ;;
  let df := assign_weigh_in_rate cohort df in
  let df := assign_patient_starting_weight df in
  let df := assign_treatment_starting_weight df in
  let df := assign_treatment_TBWL df in
  let df := assign_patient_TBWL cohort df in
  ret df.

Definition data_pipeline (us : list users.t) (ws : list weights.t)
           (ts : list treatments.t) (cohort : cohort_t) (gender : string)
           (min_age max_age ClinicID_ : Z) : result (list OutRow) :=
  df <- metrics us ws ts cohort ;;
  let df := filters df gender min_age max_age ClinicID_ in
  ret (pd.drop_duplicates OutRow_eq_dec df).

End pandas_DataModel.

(* ------------------------------------------------------------------ *)
(** ** polars primitives

    Semantics of the polars expressions used by [polars_DataModel.py]:
    [count()] counts the non-null values of a window, [first()] and
    [last()] take the first and last value whether null or not, [max()]
    ignores nulls, and a null in an [over] column is a key like any other.
    The order that [sort] gives to rows with equal keys is not specified by
    polars; the model keeps their order.  [read_csv] keeps a column of
    integers with an empty cell as Int64 with a null. *)

Module pl.

(** [left.join(right, left_on='UID', right_on='MasterUserID', how='left')]:
    Int64 keys are compared as integers, and a null key matches no key. *)
Definition key_match (uid : Z) (k : option Z) : bool :=
  match k with Some k' => uid =? k' | None => false end.

Definition join (us : list users.t) (ws : list weights.t)
           (ts : list treatments.t) : list Row :=
  let uw := pd.left_join
              (fun u w => key_match (users.UID u) (weights.MasterUserID w))
              (fun u ow => (u, ow)) us ws in
  pd.left_join
    (fun x t => key_match (users.UID (fst x)) (treatments.MasterUserID t))
    pd.joined uw ts.

(** [pl.duration(days=x)], in microseconds: the number of days is cast to
    an integer, towards zero. *)
Definition duration (days : Q) : Z :=
  Z.quot (Qnum days) (Zpos (Qden days)) * 86400000000.

(** A duration divided by a duration: the Float64 quotient of the two
    numbers of microseconds (the time unit of the parsed timestamps). *)
Definition duration_div (td : option Z) (unit : Z) : option Q :=
  match td with
  | Some d =>
      Some (float64.div (float64.of_int (d / 1000)) (float64.of_int unit))
  | None => None
  end.

(** [DataFrame.sort(by=[...])]: ascending, nulls first. *)
Definition cmp_nulls_first (a b : option Z) : comparison :=
  match a, b with
  | Some x, Some y => x ?= y
  | Some _, None => Gt
  | None, Some _ => Lt
  | None, None => Eq
  end.

Definition sort {A} (by_ : A -> list (option Z)) (df : list A) : list A :=
  pd.stable_sort
    (fun r1 r2 => pd.leb_of (pd.lex_cmp cmp_nulls_first (by_ r1) (by_ r2))) df.

(** [expr.over(by)]: a window per tuple of [by] values; null is a value of
    its own and the rows with a null key form groups like any other. *)
Definition same_key (k k' : list (option Z)) : bool :=
  if list_eq_dec option_Z_eq_dec k k' then true else false.

Definition group_values {V} (k : list (option Z))
           (keys : list (list (option Z))) (vals : list V) : list V :=
  map snd (filter (fun kv => same_key k (fst kv)) (combine keys vals)).

Definition over {V W} (agg : list V -> W) (keys : list (list (option Z)))
           (vals : list V) : list W :=
  map (fun k => agg (group_values k keys vals)) keys.

(** [first()] / [last()]: first / last value of the window, null or not. *)
Definition first {V} (vals : list (option V)) : option V :=
  match vals with v :: _ => v | [] => None end.

Definition last {V} (vals : list (option V)) : option V := first (rev vals).

(** [count()]: number of non-null values; [max()]: greatest non-null value. *)
Definition count {V} (vals : list (option V)) : option Z := pd.count vals.
Definition max (vals : list (option Z)) : option Z := pd.max vals.

(** [expr.floor()] keeps nulls. *)
Definition floor (q : option Q) : option Z :=
  match q with Some x => Some (Qfloor x) | None => None end.

End pl.

(* ------------------------------------------------------------------ *)
(** ** polars_DataModel.py *)

Module polars_DataModel.

Definition filters (df : list OutRow) (gender : string)
           (min_age max_age ClinicID_ : Z) : list OutRow :=
  (* Gender filter *)
  let df :=
    if String.eqb gender "all" then df
    else if String.eqb gender "Male"
         then filter (fun r => str_is (Gender (base r)) "Male") df
    else if String.eqb gender "Female"
         then filter (fun r => str_is (Gender (base r)) "Female") df
    else df in
  (* Age filter *)
  let df := filter (fun r => ge_ (Age (base r)) min_age
                             && le_ (Age (base r)) max_age) df in
  (* Clinic filter *)
  filter (fun r => eq_ (ClinicID (base r)) ClinicID_) df.

(** [days_in_month=pl.lit(30.417)] and [days_in_week=pl.lit(7)] *)
Definition days_in_month : Q := 30417 # 1000.
Definition days_in_week : Q := 7 # 1.

Definition data_pipeline (us : list users.t) (ws : list weights.t)
           (ts : list treatments.t) (cohort : cohort_t) (gender : string)
           (min_age max_age ClinicID_ : Z) : list OutRow :=
  let df := pl.join us ws ts in
  let df := pl.sort sort_by df in
  let df := map unassigned df in
  let datediff := map (fun r => datediff (base r)) df in
  let df := assign set_month df
              (map (fun td => pl.floor (pl.duration_div
                                          td (pl.duration days_in_month)))
                   datediff) in
  let df := assign set_week df
              (map (fun td => pl.floor (pl.duration_div
                                          td (pl.duration days_in_week)))
                   datediff) in
  let by4 := map (by_cohort cohort) df in
  let by3 := map by_treatment df in
  let by1 := map by_patient df in
  (* WIR, PSW, TSW, TEW, tmt_TBWL *)
  let df := assign set_weigh_in_rate df
              (pl.over pl.count by4
                 (map (fun r => Weights_UpdatedDate (base r)) df)) in
  let df := assign set_patient_starting_weight df
              (pl.over pl.first by1 (map (fun r => Weight (base r)) df)) in
  let df := assign set_treatment_starting_weight df
              (pl.over pl.first by3 (map (fun r => Weight (base r)) df)) in
  let TEW := pl.over pl.last by3 (map (fun r => Weight (base r)) df) in
  let df := assign set_treatment_TBWL df
              (pd.map2 pd.sub TEW (map treatment_starting_weight df)) in
  let wgt_diff :=
    pd.diff_m1 (pl.over pl.first by4 (map (fun r => Weight (base r)) df)) in
  let df := assign set_patient_TBWL df (pl.over pl.max by4 wgt_diff) in
  let df := filters df gender min_age max_age ClinicID_ in
  df.

End polars_DataModel.

(* ------------------------------------------------------------------ *)
(** ** Row-level reading of the frame

    What the assignment statements put in a row, as functions of the merged
    row and of the sorted merged frame [S]; the refinement lemmas below show
    that the pipeline computes exactly these. *)

Section RowLevel.

(** The two cohort indices of a merged row, as the file at hand computes
    them, and the sign applied to the grouped maximum of [wgt_diff]. *)
Variable month_of week_of : Row -> option Z.
Variable sign : option Z -> option Z.
Variable cohort : cohort_t.
Variable S : list Row.

Definition cohort_of (b : Row) : option Z :=
  match cohort with
  | week_c => week_of b
  | month_c => month_of b
  | ClinicID_c => ClinicID b
  end.

Definition key_patient (b : Row) : option (list Z) :=
  pd.group_key [Some (UID b)].

Definition key_treatment (b : Row) : option (list Z) :=
  pd.group_key [Some (UID b); TreatmentTypeID b; Treatment_StartDate b].

Definition key_cohort (b : Row) : option (list Z) :=
  pd.group_key [Some (UID b); TreatmentTypeID b; Treatment_StartDate b;
                cohort_of b].

(** Rows of [S] in group [k] of the grouping [key], in row order. *)
Definition group_rows (key : Row -> option (list Z)) (k : list Z) : list Row :=
  filter (fun b => pd.in_group k (key b)) S.

(** The value of [agg] on column [col] of the group of row [b]. *)
Definition broadcast {V W} (key : Row -> option (list Z))
           (agg : list V -> option W) (col : Row -> V) (b : Row) : option W :=
  match key b with
  | Some k => agg (map col (group_rows key k))
  | None => None
  end.

(** Per-row first weight of the row's cohort group, and its forward
    difference with the next row of the frame. *)
Definition cohort_first_weight : list (option Z) :=
  map (broadcast key_cohort pd.first Weight) S.

Definition wgt_diff_col : list (option Z) := pd.diff_m1 cohort_first_weight.

Definition row_metrics (b : Row) : OutRow :=
  {| base := b;
     month := month_of b;
     week := week_of b;
     weigh_in_rate := broadcast key_cohort pd.count Weights_UpdatedDate b;
     patient_starting_weight := broadcast key_patient pd.first Weight b;
     treatment_starting_weight := broadcast key_treatment pd.first Weight b;
     treatment_TBWL :=
       pd.sub (broadcast key_treatment pd.last Weight b)
              (broadcast key_treatment pd.first Weight b);
     patient_TBWL :=
       sign match key_cohort b with
            | Some k =>
                pd.max (pd.group_values k (map key_cohort S) wgt_diff_col)
            | None => None
            end |}.

(** First weight value of cohort group [k]. *)
Definition cohort_group_first_weight (k : list Z) : option Z :=
  pd.first (map Weight (group_rows key_cohort k)).

(** In the episode (uid, ty, st), the cohort group of value [cv'] is the
    next one after the group of value [cv]: it has a row, and no row of the
    episode has a cohort value strictly between the two. *)
Definition next_cohort_group (uid ty st cv cv' : Z) : Prop :=
  cv < cv'
  /\ (exists b, In b S /\ key_cohort b = Some [uid; ty; st; cv'])
  /\ forall b c, In b S -> key_cohort b = Some [uid; ty; st; c] ->
                 c <= cv \/ cv' <= c.

(** Every row of group [k] is directly followed by a row of [k] or of
    [k']. *)
Definition followed_within (k k' : list Z) : Prop :=
  forall i b,
    nth_error S i = Some b -> key_cohort b = Some k ->
    exists b', nth_error S (i + 1) = Some b'
               /\ (key_cohort b' = Some k \/ key_cohort b' = Some k').

End RowLevel.

(** Cohort indices of [analytics_data_model.py] (1-based). *)
Definition month1 (b : Row) : option Z :=
  match td_div (datediff b) Timedelta_30_44 with
  | Some q => Some (Qfloor q + 1)
  | None => None
  end.

(** The month index of a timedelta of [d] nanoseconds, as
    [analytics_data_model.py] computes it: one more than the floor of the
    float64 quotient. *)
Definition float_month (d : Z) : Z :=
  Qfloor (float64.div (float64.of_int d) (float64.of_int Timedelta_30_44))
  + 1.

Definition week1 (b : Row) : option Z :=
  match dt_days (datediff b) with
  | Some d => Some (d / 7 + 1)
  | None => None
  end.

(** Cohort indices of [pandas_DataModel.py] (0-based, whole days). *)
Definition month0 (b : Row) : option Z :=
  match dt_days (datediff b) with
  | Some d => Some (Qfloor (inject_Z d / (30417 # 1000)))
  | None => None
  end.

Definition week0 (b : Row) : option Z :=
  match dt_days (datediff b) with
  | Some d => Some (Qfloor (inject_Z d / (7 # 1)))
  | None => None
  end.

(** The formulas of the specification: the day difference as an exact
    fraction, and its floor after division by the bucket length. *)
Definition datediff_days (td : Z) : Q := (inject_Z td / inject_Z day)%Q.

Definition spec_month_index (td : Z) : Z :=
  Qfloor (datediff_days td / (3044 # 100)).

Definition spec_week_index (td : Z) : Z :=
  Qfloor (datediff_days td / (7 # 1)).

(** The order of [sort_values] on tuples of sort columns, and on rows. *)
Definition key_le (k1 k2 : list (option Z)) : Prop :=
  pd.leb_of (pd.lex_cmp pd.cmp_na_last k1 k2) = true.

Definition row_le (r1 r2 : Row) : Prop := key_le (sort_by r1) (sort_by r2).

(** Chronological order of weight records: by creation time, then by update
    time, missing times last (the last two sort columns). *)
Definition chrono_le (w1 w2 : weights.t) : Prop :=
  key_le [weights.CreatedDate w1; weights.UpdatedDate w1]
         [weights.CreatedDate w2; weights.UpdatedDate w2].

(** The key tests of the two merges: weight record [w] of the table [ws],
    resp. episode [t] of the table [ts], is joined to the user of key
    [uid]. *)
Definition weight_of (ws : list weights.t) (uid : Z) (w : weights.t) : bool :=
  pd.key_match (pd.is_float64 (map weights.MasterUserID ws)) uid
               (weights.MasterUserID w).

Definition episode_of (ts : list treatments.t) (uid : Z) (t : treatments.t)
  : bool :=
  pd.key_match (pd.is_float64 (map treatments.MasterUserID ts)) uid
               (treatments.MasterUserID t).

(** Every key of the three tables is at most 2^53 in absolute value, so
    that its conversion to float64 is exact. *)
Definition exact_keys (us : list users.t) (ws : list weights.t)
           (ts : list treatments.t) : Prop :=
  Forall (fun u => Z.abs (users.UID u) <= 2 ^ 53) us
  /\ Forall (fun w => forall k, weights.MasterUserID w = Some k ->
                                Z.abs k <= 2 ^ 53) ws
  /\ Forall (fun t => forall k, treatments.MasterUserID t = Some k ->
                                Z.abs k <= 2 ^ 53) ts.

(** Number of records of a table that the merge joins to the patient key
    [uid]. *)
Definition records_of {R} (key : R -> option Z) (uid : Z) (table : list R)
  : nat :=
  List.length (filter (fun x => pd.key_match (pd.is_float64 (map key table))
                                             uid (key x)) table).

(** Rows of a frame that belong to patient [uid]. *)
Definition rows_of_patient (uid : Z) (df : list Row) : list Row :=
  filter (fun b => UID b =? uid) df.

(* ------------------------------------------------------------------ *)
(** ** Sample tables *)

Definition day_ (n : Z) : option Z := Some (n * day).

Definition user_ (uid : Z) (gender : string) (age : Z) : users.t :=
  users.mk uid (Some gender) (Some age) (Some 5066) None (day_ 0) (Some true).

Definition weigh_ (uid : Z) (wt : option Z) (d : Z) : weights.t :=
  weights.mk (Some uid) wt (day_ d) (day_ d) (Some true) (Some false).

Definition episode_ (uid ty d : Z) : treatments.t :=
  treatments.mk (Some uid) (Some ty) (day_ d).

(** The five metric columns and the two cohort indices of a frame. *)
Definition shown (r : OutRow) :=
  (Weight (base r), week r, month r, weigh_in_rate r,
   patient_starting_weight r, treatment_starting_weight r,
   treatment_TBWL r, patient_TBWL r).

(** Two patients of clinic 5066 and one treatment episode each, starting
    on day 0. *)
Definition alice : users.t := user_ 1 "Female" 30.
Definition bob : users.t := user_ 2 "Male" 25.
Definition episode_alice : treatments.t := episode_ 1 1 0.
Definition episode_bob : treatments.t := episode_ 2 1 0.

(** Run of [analytics_data_model.py] on one table of weights, with Alice and
    Bob enrolled, weekly cohorts and the default filter arguments. *)
Definition run_analytics (us : list users.t) (ws : list weights.t)
  : result (list OutRow) :=
  analytics_data_model.data_pipeline us ws [episode_alice; episode_bob]
                                     week_c "all" 18 72 5066.

(** Alice loses weight: 70 on day 1 (week 1), 68 on day 9 (week 2). *)
Definition loss_weights : list weights.t :=
  [weigh_ 1 (Some 70) 1; weigh_ 1 (Some 68) 9].

Definition loss_out : list OutRow :=
  Eval vm_compute in
    match run_analytics [alice] loss_weights with
    | inr out => out
    | inl _ => []
    end.

Definition loss_first : OutRow :=
  Eval vm_compute in hd (unassigned (pd.joined (alice, None) None)) loss_out.

(** Alice gains weight and weighs in twice in her first week: 70 on day 1,
    71 on day 2 (week 1), 75 on day 9 (week 2). *)
Definition gain_weights : list weights.t :=
  [weigh_ 1 (Some 70) 1; weigh_ 1 (Some 71) 2; weigh_ 1 (Some 75) 9].

(** The first weight record of Alice has an empty weight cell. *)
Definition unweighed_first : list weights.t :=
  [weigh_ 1 None 1; weigh_ 1 (Some 70) 2; weigh_ 1 (Some 68) 9].

(** Two patients whose keys differ and have the same float64 value, one
    weight record each, and a weight record with an empty [MasterUserID]
    cell. *)
Definition big_alice : users.t := user_ (2 ^ 53) "Female" 30.
Definition big_bob : users.t := user_ (2 ^ 53 + 1) "Male" 25.

Definition big_weights : list weights.t :=
  [weigh_ (2 ^ 53) (Some 70) 1; weigh_ (2 ^ 53 + 1) (Some 80) 1].

Definition unkeyed_weight : weights.t :=
  weights.mk None (Some 90) (day_ 1) (day_ 1) (Some true) (Some false).

(** What a run shows of patient_TBWL, and of the weights of an episode. *)
Definition shown_patient_TBWL (r : OutRow) :=
  (week r, Weight (base r), patient_TBWL r).

Definition shown_treatment_TBWL (r : OutRow) :=
  (Weight (base r), treatment_starting_weight r, treatment_TBWL r).

(** The merged frame after [sort_values], on which every metric is
    computed. *)
Definition sorted_frame (us : list users.t) (ws : list weights.t)
           (ts : list treatments.t) : list Row :=
  pd.sort_values sort_by (pd.merge us ws ts).

(** A row function [g] leaves the merged row in place and carries the cohort
    indices [mo] and [we]. *)
Definition tracks (mo we : Row -> option Z) (g : Row -> OutRow) : Prop :=
  forall b, base (g b) = b /\ month (g b) = mo b /\ week (g b) = we b.

(** What the three tests of [filters] ask of a row. *)
Definition passes (gender : string) (min_age max_age clinic : Z)
           (r : OutRow) : Prop :=
  (gender = "Male"%string -> Gender (base r) = Some "Male"%string)
  /\ (gender = "Female"%string -> Gender (base r) = Some "Female"%string)
  /\ (exists age, Age (base r) = Some age /\ min_age <= age <= max_age)
  /\ ClinicID (base r) = Some clinic.


(* ------------------------------------------------------------------ *)
(** * Properties *)

Unset Implicit Arguments.

(** ** binary64 rounding *)

Section Float.
Import float64.
Local Open Scope Q_scope.

Lemma round_half_even_range x :
  (Qfloor x <= round_half_even x <= Qfloor x + 1)%Z.
Proof.
  unfold round_half_even.
  destruct (2 * (x - inject_Z (Qfloor x)) ?= 1);
    [destruct (Z.even (Qfloor x))| |]; lia.
Qed.

Lemma round_half_even_mono x y :
  x <= y -> (round_half_even x <= round_half_even y)%Z.
Proof.
  intro H. pose proof (Qfloor_resp_le _ _ H) as Hq.
  destruct (Z.eq_dec (Qfloor x) (Qfloor y)) as [E|NE].
  2:{ pose proof (round_half_even_range x). pose proof (round_half_even_range y).
      lia. }
  unfold round_half_even. rewrite <- E.
  destruct (Qcompare_spec (2 * (x - inject_Z (Qfloor x))) 1) as [Hx|Hx|Hx];
    destruct (Qcompare_spec (2 * (y - inject_Z (Qfloor x))) 1) as [Hy|Hy|Hy];
    try (exfalso; lra); try (destruct (Z.even (Qfloor x))); lia.
Qed.

Lemma round_half_even_int x k : x == inject_Z k -> round_half_even x = k.
Proof.
  intro H. unfold round_half_even.
  assert (E : Qfloor x = k) by (rewrite H; apply Qfloor_Z).
  rewrite E.
  destruct (Qcompare_spec (2 * (x - inject_Z k)) 1) as [Hx|Hx|Hx];
    try (exfalso; lra). reflexivity.
Qed.

Lemma pow2_pos e : 0 < 2 ^ e.
Proof. apply Qpower_0_lt. reflexivity. Qed.

Lemma pow2_plus a b : 2 ^ (a + b) == 2 ^ a * 2 ^ b.
Proof. apply Qpower_plus. discriminate. Qed.

Lemma pow2_succ a : 2 ^ (a + 1) == 2 * 2 ^ a.
Proof. rewrite pow2_plus. change (2 ^ 1) with 2. ring. Qed.

Lemma pow2_inject a : (0 <= a)%Z -> inject_Z (2 ^ a) == 2 ^ a.
Proof. intro H. now rewrite Zpower_Qpower. Qed.

Lemma exponent_spec x :
  0 < x -> 2 ^ exponent x <= x /\ x < 2 ^ (exponent x + 1).
Proof.
  intro Hx. unfold exponent.
  destruct x as [n d]. cbn [Qnum Qden].
  assert (Hn : (0 < n)%Z).
  { unfold Qlt in Hx. simpl in Hx. lia. }
  set (a := Z.log2 n). set (b := Z.log2 (Z.pos d)).
  assert (Ha : (0 <= a)%Z) by apply Z.log2_nonneg.
  assert (Hb : (0 <= b)%Z) by apply Z.log2_nonneg.
  destruct (Z.log2_spec n Hn) as [Ha1 Ha2]. fold a in Ha1, Ha2.
  destruct (Z.log2_spec (Z.pos d) (Pos2Z.is_pos d)) as [Hb1 Hb2].
  fold b in Hb1, Hb2.
  assert (HA1 : 2 ^ a <= inject_Z n).
  { rewrite <- pow2_inject by assumption. now rewrite <- Zle_Qle. }
  assert (HA2 : inject_Z n < 2 * 2 ^ a).
  { rewrite <- pow2_succ, <- pow2_inject by lia. rewrite <- Zlt_Qlt.
    now rewrite <- Z.add_1_r in Ha2. }
  assert (HB1 : 2 ^ b <= inject_Z (Z.pos d)).
  { rewrite <- pow2_inject by assumption. now rewrite <- Zle_Qle. }
  assert (HB2 : inject_Z (Z.pos d) < 2 * 2 ^ b).
  { rewrite <- pow2_succ, <- pow2_inject by lia. rewrite <- Zlt_Qlt.
    now rewrite <- Z.add_1_r in Hb2. }
  assert (HX : (n # d) * inject_Z (Z.pos d) == inject_Z n).
  { rewrite (Qmake_Qdiv n d). field. discriminate. }
  pose proof (pow2_pos a) as Pa. pose proof (pow2_pos b) as Pb.
  assert (HL : 2 ^ (a - b) * 2 ^ b == 2 ^ a).
  { rewrite <- pow2_plus. now replace (a - b + b)%Z with a by lia. }
  pose proof (pow2_pos (a - b)) as Pl.
  assert (U : (n # d) < 2 * 2 ^ (a - b)).
  { apply (Qmult_lt_r _ _ (2 ^ b) Pb).
    apply Qle_lt_trans with (inject_Z n); [|lra].
    rewrite <- HX. apply Qmult_le_l; [exact Hx | exact HB1]. }
  assert (L : 2 ^ (a - b) <= 2 * (n # d)).
  { apply (Qmult_le_r _ _ (2 ^ b) Pb). rewrite HL.
    apply Qle_trans with (inject_Z n); [exact HA1|].
    rewrite <- HX.
    setoid_replace (2 * (n # d) * 2 ^ b) with ((n # d) * (2 * 2 ^ b)) by ring.
    apply Qmult_le_l; [exact Hx | lra]. }
  destruct (Qle_bool (2 ^ (a - b)) (n # d)) eqn:E.
  - apply Qle_bool_iff in E. split; [exact E|]. now rewrite pow2_succ.
  - assert (E' : (n # d) < 2 ^ (a - b)).
    { apply Qnot_le_lt. intro H. apply Qle_bool_iff in H. congruence. }
    replace (a - b - 1 + 1)%Z with (a - b)%Z by lia.
    split; [|exact E'].
    assert (HS : 2 * 2 ^ (a - b - 1) == 2 ^ (a - b)).
    { rewrite <- pow2_succ. now replace (a - b - 1 + 1)%Z with (a - b)%Z by lia. }
    lra.
Qed.

Lemma exponent_mono x y : 0 < x -> x <= y -> (exponent x <= exponent y)%Z.
Proof.
  intros Hx Hxy.
  destruct (exponent_spec x Hx) as [L _].
  destruct (exponent_spec y) as [_ U]; [lra|].
  assert (H : 2 ^ exponent x < 2 ^ (exponent y + 1)) by lra.
  apply Qpower_lt_compat_l_inv in H; [lia | reflexivity].
Qed.

(** The scaled significand lies in [2^52, 2^53]. *)
Lemma significand_range x :
  0 < x ->
  (2 ^ 52 <= round_half_even (x * 2 ^ (52 - exponent x)) <= 2 ^ 53)%Z.
Proof.
  intro Hx. destruct (exponent_spec x Hx) as [L U].
  set (e := exponent x) in *.
  pose proof (pow2_pos (52 - e)) as P.
  assert (E1 : 2 ^ e * 2 ^ (52 - e) == inject_Z (2 ^ 52)).
  { rewrite <- pow2_plus. replace (e + (52 - e))%Z with 52%Z by lia.
    reflexivity. }
  assert (E2 : 2 ^ (e + 1) * 2 ^ (52 - e) == inject_Z (2 ^ 53)).
  { rewrite <- pow2_plus. replace (e + 1 + (52 - e))%Z with 53%Z by lia.
    reflexivity. }
  split.
  - apply Z.le_trans with (round_half_even (inject_Z (2 ^ 52))).
    + now rewrite (round_half_even_int _ (2 ^ 52)%Z) by reflexivity.
    + apply round_half_even_mono. rewrite <- E1.
      apply Qmult_le_r; assumption.
  - apply Z.le_trans with (round_half_even (inject_Z (2 ^ 53))).
    + apply round_half_even_mono. rewrite <- E2.
      apply Qmult_le_r; [assumption | lra].
    + now rewrite (round_half_even_int _ (2 ^ 53)%Z) by reflexivity.
Qed.

Lemma nearest_range x :
  0 < x -> 2 ^ exponent x <= nearest x <= 2 ^ (exponent x + 1).
Proof.
  intro Hx. pose proof (significand_range x Hx) as [L U].
  unfold nearest. set (e := exponent x) in *.
  set (m := round_half_even _) in *.
  pose proof (pow2_pos (e - 52)) as P.
  assert (E1 : inject_Z (2 ^ 52) * 2 ^ (e - 52) == 2 ^ e).
  { change (inject_Z (2 ^ 52)) with (2 ^ 52). rewrite <- pow2_plus.
    now replace (52 + (e - 52))%Z with e by lia. }
  assert (E2 : inject_Z (2 ^ 53) * 2 ^ (e - 52) == 2 ^ (e + 1)).
  { change (inject_Z (2 ^ 53)) with (2 ^ 53). rewrite <- pow2_plus.
    now replace (53 + (e - 52))%Z with (e + 1)%Z by lia. }
  rewrite Zle_Qle in L, U.
  split.
  - rewrite <- E1. apply Qmult_le_r; assumption.
  - rewrite <- E2. apply Qmult_le_r; assumption.
Qed.

Lemma nearest_pos x : 0 < x -> 0 < nearest x.
Proof.
  intro Hx. destruct (nearest_range x Hx) as [L _].
  pose proof (pow2_pos (exponent x)). lra.
Qed.

Lemma nearest_mono x y : 0 < x -> x <= y -> nearest x <= nearest y.
Proof.
  intros Hx Hxy. assert (Hy : 0 < y) by lra.
  pose proof (exponent_mono x y Hx Hxy) as He.
  destruct (Z.eq_dec (exponent x) (exponent y)) as [E|NE].
  - unfold nearest. rewrite <- E. set (e := exponent x).
    apply Qmult_le_r; [apply pow2_pos|]. rewrite <- Zle_Qle.
    apply round_half_even_mono. apply Qmult_le_r; [apply pow2_pos | exact Hxy].
  - destruct (nearest_range x Hx) as [_ U].
    destruct (nearest_range y Hy) as [L _].
    apply Qle_trans with (2 ^ (exponent x + 1)); [exact U|].
    apply Qle_trans with (2 ^ exponent y); [|exact L].
    apply Qpower_le_compat_l; [lia | discriminate].
Qed.

Lemma round_mono x y : x <= y -> round x <= round y.
Proof.
  intro H. unfold round.
  destruct (Qcompare_spec x 0) as [Hx|Hx|Hx];
    destruct (Qcompare_spec y 0) as [Hy|Hy|Hy]; try (exfalso; lra).
  - lra.
  - pose proof (nearest_pos y Hy). lra.
  - assert (P : 0 < - x) by lra. pose proof (nearest_pos _ P). lra.
  - assert (P : 0 < - y) by lra.
    assert (Q' : - y <= - x) by lra.
    pose proof (nearest_mono _ _ P Q'). lra.
  - assert (P : 0 < - x) by lra. pose proof (nearest_pos _ P).
    pose proof (nearest_pos y Hy). lra.
  - now apply nearest_mono.
Qed.

Lemma round_comp x y : x == y -> round x == round y.
Proof.
  intro H. apply Qle_antisym; apply round_mono; rewrite H; apply Qle_refl.
Qed.

Lemma nearest_exact m j :
  (0 < m < 2 ^ 53)%Z ->
  nearest (inject_Z m * 2 ^ j) == inject_Z m * 2 ^ j.
Proof.
  intros [Hm1 Hm2]. set (x := inject_Z m * 2 ^ j).
  assert (Hm1' : 0 < inject_Z m) by (now rewrite (Zlt_Qlt 0 m) in Hm1).
  assert (Hx : 0 < x).
  { unfold x. apply Qmult_lt_0_compat; [exact Hm1' | apply pow2_pos]. }
  destruct (exponent_spec x Hx) as [L _].
  unfold nearest. set (e := exponent x) in *.
  assert (He : (e < 53 + j)%Z).
  { assert (H : 2 ^ e < 2 ^ (53 + j)).
    { apply Qle_lt_trans with x; [exact L|]. unfold x.
      rewrite pow2_plus. apply Qmult_lt_r; [apply pow2_pos|].
      change (2 ^ 53) with (inject_Z (2 ^ 53)). now rewrite <- Zlt_Qlt. }
    apply Qpower_lt_compat_l_inv in H; [exact H | reflexivity]. }
  assert (E : x * 2 ^ (52 - e) == inject_Z (m * 2 ^ (j + 52 - e))).
  { unfold x. rewrite inject_Z_mult, pow2_inject by lia.
    rewrite <- Qmult_assoc, <- pow2_plus.
    now replace (j + (52 - e))%Z with (j + 52 - e)%Z by lia. }
  rewrite (round_half_even_int _ _ E).
  rewrite inject_Z_mult, pow2_inject by lia.
  rewrite <- Qmult_assoc, <- pow2_plus.
  now replace (j + 52 - e + (e - 52))%Z with j by lia.
Qed.

Lemma round_pos x : 0 < x -> round x = nearest x.
Proof.
  intro H. unfold round.
  destruct (Qcompare_spec x 0) as [Hx|Hx|Hx]; try (exfalso; lra). reflexivity.
Qed.

Lemma round_neg x : x < 0 -> round x = - nearest (- x).
Proof.
  intro H. unfold round.
  destruct (Qcompare_spec x 0) as [Hx|Hx|Hx]; try (exfalso; lra). reflexivity.
Qed.

Lemma round_zero x : x == 0 -> round x = 0.
Proof.
  intro H. unfold round.
  destruct (Qcompare_spec x 0) as [Hx|Hx|Hx]; try (exfalso; lra). reflexivity.
Qed.

(** A number with a significand of at most 53 bits is a binary64 number. *)
Lemma round_exact m j :
  (Z.abs m < 2 ^ 53)%Z -> round (inject_Z m * 2 ^ j) == inject_Z m * 2 ^ j.
Proof.
  intro Hm. pose proof (pow2_pos j) as P.
  destruct (Z.lt_trichotomy m 0) as [H|[H|H]].
  - assert (N : inject_Z m * 2 ^ j < 0).
    { assert (inject_Z m < 0) by (now rewrite (Zlt_Qlt m 0) in H).
      setoid_replace 0 with (0 * 2 ^ j) by ring.
      apply Qmult_lt_r; assumption. }
    rewrite (round_neg _ N).
    assert (E : - (inject_Z m * 2 ^ j) == inject_Z (- m) * 2 ^ j).
    { rewrite inject_Z_opp. ring. }
    assert (Hn : 0 < - (inject_Z m * 2 ^ j)) by lra.
    assert (E' : nearest (- (inject_Z m * 2 ^ j))
                 == nearest (inject_Z (- m) * 2 ^ j)).
    { apply Qle_antisym; apply nearest_mono.
      - exact Hn.
      - rewrite E. apply Qle_refl.
      - now rewrite <- E.
      - rewrite E. apply Qle_refl. }
    rewrite E', nearest_exact by lia. rewrite inject_Z_opp. ring.
  - subst m. rewrite round_zero by ring. ring.
  - rewrite round_pos.
    + apply nearest_exact. lia.
    + apply Qmult_lt_0_compat; [now rewrite (Zlt_Qlt 0 m) in H | exact P].
Qed.

Lemma of_int_exact z : (Z.abs z <= 2 ^ 53)%Z -> of_int z == inject_Z z.
Proof.
  intro H. unfold of_int.
  destruct (Z.eq_dec (Z.abs z) (2 ^ 53)) as [E|NE].
  - assert (Hz : z = (2 ^ 52 * 2)%Z \/ z = (- 2 ^ 52 * 2)%Z) by lia.
    destruct Hz as [-> | ->].
    + rewrite (round_comp _ (inject_Z (2 ^ 52) * 2 ^ 1)) by reflexivity.
      rewrite round_exact by reflexivity. reflexivity.
    + rewrite (round_comp _ (inject_Z (- 2 ^ 52) * 2 ^ 1)) by reflexivity.
      rewrite round_exact by reflexivity. reflexivity.
  - rewrite (round_comp _ (inject_Z z * 2 ^ 0)) by (simpl; ring).
    rewrite round_exact by lia. simpl; ring.
Qed.

Lemma of_int_mono a b : (a <= b)%Z -> of_int a <= of_int b.
Proof. intro H. apply round_mono. now rewrite <- Zle_Qle. Qed.

End Float.

(** ** Quotients of timedeltas *)

Lemma of_int_pos z : (0 < z)%Z -> (0 < float64.of_int z)%Q.
Proof.
  intro H. apply Qlt_le_trans with (float64.of_int 1).
  - rewrite of_int_exact by (simpl; lia). reflexivity.
  - apply of_int_mono. lia.
Qed.

Lemma div_mono a b c :
  (0 < c)%Q -> (a <= b)%Q -> (float64.div a c <= float64.div b c)%Q.
Proof.
  intros Hc H. apply round_mono. unfold Qdiv.
  apply Qmult_le_compat_r; [exact H|].
  apply Qlt_le_weak. now apply Qinv_lt_0_compat.
Qed.

(** The floor of the float64 quotient grows with the dividend. *)
Lemma td_floor_mono d1 d2 unit :
  0 < unit -> d1 <= d2 ->
  Qfloor (float64.div (float64.of_int d1) (float64.of_int unit))
  <= Qfloor (float64.div (float64.of_int d2) (float64.of_int unit)).
Proof.
  intros Hu H. apply Qfloor_resp_le. apply div_mono.
  - now apply of_int_pos.
  - now apply of_int_mono.
Qed.

Lemma td_floor_between lo hi d unit k :
  0 < unit -> lo <= d <= hi ->
  Qfloor (float64.div (float64.of_int lo) (float64.of_int unit)) = k ->
  Qfloor (float64.div (float64.of_int hi) (float64.of_int unit)) = k ->
  Qfloor (float64.div (float64.of_int d) (float64.of_int unit)) = k.
Proof.
  intros Hu [H1 H2] L U.
  pose proof (td_floor_mono lo d unit Hu H1).
  pose proof (td_floor_mono d hi unit Hu H2). lia.
Qed.

(** Up to 2^53 ns (a little over 104 days) on either side of the episode
    start, the float64 quotient by 30.44 days has the floor of the exact
    quotient. *)
Lemma td_floor_exact d :
  Z.abs d <= 2 ^ 53 ->
  Qfloor (float64.div (float64.of_int d) (float64.of_int Timedelta_30_44))
  = d / Timedelta_30_44.
Proof.
  intro H.
  assert (HT : 0 < Timedelta_30_44) by reflexivity.
  pose proof (Z.div_mod d Timedelta_30_44 ltac:(discriminate)) as E.
  pose proof (Z.mod_pos_bound d Timedelta_30_44 HT) as B.
  set (k := d / Timedelta_30_44) in *.
  set (r := d mod Timedelta_30_44) in *.
  unfold Timedelta_30_44 in E, B.
  change (2 ^ 53) with 9007199254740992 in H.
  assert (K : k = -4 \/ k = -3 \/ k = -2 \/ k = -1
              \/ k = 0 \/ k = 1 \/ k = 2 \/ k = 3) by lia.
  destruct K as [K|[K|[K|[K|[K|[K|[K|K]]]]]]]; rewrite K in *.
  - apply td_floor_between
      with (lo := - 2 ^ 53) (hi := -3 * Timedelta_30_44 - 1);
      [exact HT | unfold Timedelta_30_44; simpl; lia
       | vm_compute; reflexivity | vm_compute; reflexivity].
  - apply td_floor_between
      with (lo := -3 * Timedelta_30_44) (hi := -2 * Timedelta_30_44 - 1);
      [exact HT | unfold Timedelta_30_44; simpl; lia
       | vm_compute; reflexivity | vm_compute; reflexivity].
  - apply td_floor_between
      with (lo := -2 * Timedelta_30_44) (hi := -1 * Timedelta_30_44 - 1);
      [exact HT | unfold Timedelta_30_44; simpl; lia
       | vm_compute; reflexivity | vm_compute; reflexivity].
  - apply td_floor_between
      with (lo := -1 * Timedelta_30_44) (hi := -1);
      [exact HT | unfold Timedelta_30_44; simpl; lia
       | vm_compute; reflexivity | vm_compute; reflexivity].
  - apply td_floor_between
      with (lo := 0) (hi := Timedelta_30_44 - 1);
      [exact HT | unfold Timedelta_30_44; simpl; lia
       | vm_compute; reflexivity | vm_compute; reflexivity].
  - apply td_floor_between
      with (lo := Timedelta_30_44) (hi := 2 * Timedelta_30_44 - 1);
      [exact HT | unfold Timedelta_30_44; simpl; lia
       | vm_compute; reflexivity | vm_compute; reflexivity].
  - apply td_floor_between
      with (lo := 2 * Timedelta_30_44) (hi := 3 * Timedelta_30_44 - 1);
      [exact HT | unfold Timedelta_30_44; simpl; lia
       | vm_compute; reflexivity | vm_compute; reflexivity].
  - apply td_floor_between
      with (lo := 3 * Timedelta_30_44) (hi := 2 ^ 53);
      [exact HT | unfold Timedelta_30_44; simpl; lia
       | vm_compute; reflexivity | vm_compute; reflexivity].
Qed.

(** A whole number of months of 30.44 days is a float64 number, and so is
    its quotient. *)
Lemma td_floor_multiple k :
  Z.abs k <= 3600 ->
  Qfloor (float64.div (float64.of_int (k * Timedelta_30_44))
                      (float64.of_int Timedelta_30_44)) = k.
Proof.
  intro H. unfold float64.div.
  assert (E1 : (float64.of_int (k * Timedelta_30_44)
                == inject_Z (k * Timedelta_30_44))%Q).
  { unfold float64.of_int.
    rewrite (round_comp _ (inject_Z (k * 40130859375) * 2 ^ 16)%Q).
    - rewrite round_exact by (change (2 ^ 53) with 9007199254740992; lia).
      change (2 ^ 16)%Q with (inject_Z 65536).
      rewrite <- inject_Z_mult. unfold Timedelta_30_44.
      now replace (k * 40130859375 * 65536) with (k * 2630016000000000)
        by lia.
    - change (2 ^ 16)%Q with (inject_Z 65536).
      rewrite <- inject_Z_mult. unfold Timedelta_30_44.
      now replace (k * 40130859375 * 65536) with (k * 2630016000000000)
        by lia. }
  assert (E2 : (float64.of_int Timedelta_30_44
                == inject_Z Timedelta_30_44)%Q)
    by (apply of_int_exact; vm_compute; discriminate).
  assert (E3 : (float64.of_int (k * Timedelta_30_44)
                / float64.of_int Timedelta_30_44 == inject_Z k)%Q).
  { rewrite E1, E2, inject_Z_mult. field. discriminate. }
  rewrite (round_comp _ _ E3).
  fold (float64.of_int k).
  rewrite of_int_exact by (change (2 ^ 53) with 9007199254740992; lia).
  apply Qfloor_Z.
Qed.

(** Over the whole range of an int64 of nanoseconds the floor of the
    float64 quotient is that of the exact quotient, or one more. *)
Lemma td_floor_band d :
  Z.abs d <= 2 ^ 63 ->
  d / Timedelta_30_44
  <= Qfloor (float64.div (float64.of_int d) (float64.of_int Timedelta_30_44))
  <= d / Timedelta_30_44 + 1.
Proof.
  intro H.
  assert (HT : 0 < Timedelta_30_44) by reflexivity.
  pose proof (Z.div_mod d Timedelta_30_44 ltac:(discriminate)) as E.
  pose proof (Z.mod_pos_bound d Timedelta_30_44 HT) as B.
  set (k := d / Timedelta_30_44) in *.
  set (r := d mod Timedelta_30_44) in *.
  change (2 ^ 63) with 9223372036854775808 in H.
  assert (K : Z.abs k <= 3599) by (unfold Timedelta_30_44 in E, B; lia).
  pose proof (td_floor_multiple k ltac:(lia)) as L.
  pose proof (td_floor_multiple (k + 1) ltac:(lia)) as U.
  pose proof (td_floor_mono (k * Timedelta_30_44) d Timedelta_30_44 HT
                ltac:(lia)).
  pose proof (td_floor_mono d ((k + 1) * Timedelta_30_44) Timedelta_30_44 HT
                ltac:(lia)).
  lia.
Qed.

(** ** Lists and columns *)

Lemma map2_map {A B C X} (f : A -> B -> C) (g : X -> A) (h : X -> B) l :
  pd.map2 f (map g l) (map h l) = map (fun x => f (g x) (h x)) l.
Proof. induction l as [|x l IH]; simpl; [reflexivity | now rewrite IH]. Qed.


Lemma group_values_map {X V} k (key : X -> option (list Z)) (v : X -> V) l :
  pd.group_values k (map key l) (map v l)
  = map v (filter (fun x => pd.in_group k (key x)) l).
Proof.
  unfold pd.group_values.
  induction l as [|x l IH]; simpl; [reflexivity|].
  destruct (pd.in_group k (key x)); simpl; now rewrite IH.
Qed.

Lemma transform_map {X V W} (agg : list V -> option W)
      (key : X -> option (list Z)) (v : X -> V) l :
  pd.transform agg (map key l) (map v l)
  = map (fun x => match key x with
                  | Some k =>
                      agg (map v (filter (fun y => pd.in_group k (key y)) l))
                  | None => None
                  end) l.
Proof.
  unfold pd.transform. rewrite map_map. apply map_ext. intro x.
  destruct (key x); [now rewrite group_values_map | reflexivity].
Qed.

Lemma transform_keys {X V W} (agg : list V -> option W)
      (key : X -> option (list Z)) (vals : list V) l :
  pd.transform agg (map key l) vals
  = map (fun x => match key x with
                  | Some k => agg (pd.group_values k (map key l) vals)
                  | None => None
                  end) l.
Proof. unfold pd.transform. now rewrite map_map. Qed.

Lemma in_group_true k ok : pd.in_group k ok = true <-> ok = Some k.
Proof.
  unfold pd.in_group. destruct ok as [k'|]; [|split; discriminate].
  destruct (list_eq_dec Z.eq_dec k k'); split; intro H;
    try discriminate; try congruence.
Qed.

Lemma in_group_refl k : pd.in_group k (Some k) = true.
Proof. now apply in_group_true. Qed.

(** ** [apply(math.floor)] *)

Lemma apply_floor_inr {X} (q : X -> option Q) l fl :
  pd.apply_floor (map q l) = inr fl ->
  Forall (fun x => q x <> None) l /\
  map Some fl = map (fun x => match q x with
                              | Some y => Some (Qfloor y)
                              | None => None
                              end) l.
Proof.
  revert fl; induction l as [|x l IH]; simpl; intros fl H.
  - inversion H; subst. split; [constructor | reflexivity].
  - destruct (q x) as [y|] eqn:E; [|discriminate].
    destruct (pd.apply_floor (map q l)) as [e|fs] eqn:E'; simpl in H;
      [discriminate|].
    inversion H; subst. destruct (IH fs eq_refl) as [HF HM].
    split; [constructor; [congruence | assumption]|].
    simpl. now rewrite HM.
Qed.

Lemma apply_floor_raises {X} (q : X -> option Q) l :
  Exists (fun x => q x = None) l ->
  pd.apply_floor (map q l) = inl ValueError.
Proof.
  induction 1 as [x l H | x l H IH]; simpl.
  - now rewrite H.
  - destruct (q x); [|reflexivity]. now rewrite IH.
Qed.


(** ** The assignment statements, row by row *)

Section Stages.

Variable mo we : Row -> option Z.
Variable cohort : cohort_t.
Variable S : list Row.

Lemma groups_cohort g :
  tracks mo we g ->
  groups (by_cohort cohort) (map g S) = map (key_cohort mo we cohort) S.
Proof.
  intro T. unfold groups. rewrite map_map. apply map_ext. intro b.
  destruct (T b) as (Hb & Hm & Hw).
  unfold by_cohort, key_cohort, cohort_of, cohort_value.
  rewrite Hb. destruct cohort; now rewrite ?Hm, ?Hw.
Qed.

Lemma groups_treatment g :
  tracks mo we g -> groups by_treatment (map g S) = map key_treatment S.
Proof.
  intro T. unfold groups. rewrite map_map. apply map_ext. intro b.
  destruct (T b) as (Hb & _). unfold by_treatment, key_treatment.
  now rewrite Hb.
Qed.

Lemma groups_patient g :
  tracks mo we g -> groups by_patient (map g S) = map key_patient S.
Proof.
  intro T. unfold groups. rewrite map_map. apply map_ext. intro b.
  destruct (T b) as (Hb & _). unfold by_patient, key_patient.
  now rewrite Hb.
Qed.

Lemma col_base {V} (col : Row -> V) g :
  tracks mo we g -> map (fun r => col (base r)) (map g S) = map col S.
Proof.
  intro T. rewrite map_map. apply map_ext. intro b.
  destruct (T b) as (Hb & _). now rewrite Hb.
Qed.

Lemma assign_weigh_in_rate_rows g :
  tracks mo we g ->
  assign_weigh_in_rate cohort (map g S)
  = map (fun b => set_weigh_in_rate (g b)
                    (broadcast S (key_cohort mo we cohort) pd.count
                               Weights_UpdatedDate b)) S.
Proof.
  intro T. unfold assign_weigh_in_rate, assign.
  rewrite groups_cohort, col_base by assumption.
  rewrite transform_map, map2_map. reflexivity.
Qed.

Lemma assign_patient_starting_weight_rows g :
  tracks mo we g ->
  assign_patient_starting_weight (map g S)
  = map (fun b => set_patient_starting_weight (g b)
                    (broadcast S key_patient pd.first Weight b)) S.
Proof.
  intro T. unfold assign_patient_starting_weight, assign, col_Weight.
  rewrite groups_patient, col_base by assumption.
  rewrite transform_map, map2_map. reflexivity.
Qed.

Lemma assign_treatment_starting_weight_rows g :
  tracks mo we g ->
  assign_treatment_starting_weight (map g S)
  = map (fun b => set_treatment_starting_weight (g b)
                    (broadcast S key_treatment pd.first Weight b)) S.
Proof.
  intro T. unfold assign_treatment_starting_weight, assign, col_Weight.
  rewrite groups_treatment, col_base by assumption.
  rewrite transform_map, map2_map. reflexivity.
Qed.

Lemma assign_treatment_TBWL_rows g :
  tracks mo we g ->
  assign_treatment_TBWL (map g S)
  = map (fun b => set_treatment_TBWL (g b)
                    (pd.sub (broadcast S key_treatment pd.last Weight b)
                            (treatment_starting_weight (g b)))) S.
Proof.
  intro T. unfold assign_treatment_TBWL, assign, col_Weight.
  rewrite groups_treatment, col_base by assumption.
  rewrite transform_map, (map_map g treatment_starting_weight).
  rewrite map2_map, map2_map. reflexivity.
Qed.

Lemma wgt_diff_rows g :
  tracks mo we g ->
  wgt_diff cohort (map g S) = wgt_diff_col mo we cohort S.
Proof.
  intro T. unfold wgt_diff, wgt_diff_col, cohort_first_weight, col_Weight.
  rewrite groups_cohort, col_base by assumption.
  now rewrite transform_map.
Qed.

Lemma grouped_max_wgt_diff_rows g :
  tracks mo we g ->
  pd.transform pd.max (groups (by_cohort cohort) (map g S))
               (wgt_diff cohort (map g S))
  = map (fun b => match key_cohort mo we cohort b with
                  | Some k =>
                      pd.max (pd.group_values k
                                (map (key_cohort mo we cohort) S)
                                (wgt_diff_col mo we cohort S))
                  | None => None
                  end) S.
Proof.
  intro T. rewrite groups_cohort, wgt_diff_rows by assumption.
  apply transform_keys.
Qed.

End Stages.

(** ** The frame of [analytics_data_model.py], row by row *)

Lemma floors_plus_one {X} (q : X -> option Q) l fl :
  map Some fl = map (fun x => match q x with
                              | Some y => Some (Qfloor y)
                              | None => None
                              end) l ->
  map (fun m => Some (m + 1)) fl
  = map (fun x => match q x with
                  | Some y => Some (Qfloor y + 1)
                  | None => None
                  end) l.
Proof.
  revert fl; induction l as [|x l IH]; intros [|m fl] H; simpl in *;
    try discriminate; [reflexivity|].
  inversion H as [[H1 H2]]. destruct (q x); [|discriminate].
  inversion H1; subst. now rewrite (IH _ H2).
Qed.

Ltac tracked :=
  let b := fresh "b" in intro b; simpl; repeat split; reflexivity.

Lemma dt_inr {V} (s s' : list V) : pd.dt s = inr s' -> s' = s /\ s <> [].
Proof.
  destruct s; simpl; intro H; [discriminate|].
  inversion H. split; [reflexivity | discriminate].
Qed.

Lemma dt_defined {V} (s : list V) : s <> [] -> pd.dt s = inr s.
Proof. destruct s; [congruence | reflexivity]. Qed.

Lemma analytics_metrics_rows us ws ts cohort T :
  analytics_data_model.metrics us ws ts cohort = inr T ->
  T = map (row_metrics month1 week1 pd.neg cohort (sorted_frame us ws ts))
          (sorted_frame us ws ts)
  /\ Forall (fun b => datediff b <> None) (sorted_frame us ws ts).
Proof.
  unfold analytics_data_model.metrics. intros H.
  change (pd.sort_values sort_by (pd.merge us ws ts))
    with (sorted_frame us ws ts) in H.
  set (S := sorted_frame us ws ts) in *.
  unfold analytics_data_model.assign_month in H.
  rewrite map_map in H. simpl in H.
  destruct (pd.apply_floor _) as [e|fl] eqn:E in H; simpl in H;
    [discriminate|].
  apply apply_floor_inr in E. destruct E as [HF HM].
  split.
  2:{ revert HF. apply Forall_impl. intros b Hb Hd. apply Hb.
      unfold td_div. now rewrite Hd. }
  apply floors_plus_one in HM.
  rewrite HM in H. fold month1 in H. unfold assign at 1 in H.
  rewrite map2_map in H.
  unfold analytics_data_model.assign_week in H.
  rewrite map_map in H. simpl in H.
  destruct (pd.dt _) as [e|tds] eqn:D in H; simpl in H; [discriminate|].
  apply dt_inr in D. destruct D as [-> _].
  inversion H as [H']; clear H H'.
  unfold assign at 1.
  rewrite (map_map _ (fun td => match dt_days td with
                               | Some d => Some (d / 7 + 1)
                               | None => None
                               end)).
  rewrite map2_map.
  rewrite (assign_weigh_in_rate_rows month1 week1) by tracked.
  rewrite (assign_patient_starting_weight_rows month1 week1)
    by tracked.
  rewrite (assign_treatment_starting_weight_rows month1 week1)
    by tracked.
  rewrite (assign_treatment_TBWL_rows month1 week1) by tracked.
  unfold analytics_data_model.assign_patient_TBWL.
  rewrite (grouped_max_wgt_diff_rows month1 week1) by tracked.
  unfold assign. rewrite map_map, map2_map. reflexivity.
Qed.


(** ** The frame of [pandas_DataModel.py], row by row *)

Lemma pandas_metrics_rows us ws ts cohort T :
  pandas_DataModel.metrics us ws ts cohort = inr T ->
  T = map (row_metrics month0 week0 (fun v => v) cohort
                       (sorted_frame us ws ts))
          (sorted_frame us ws ts)
  /\ Forall (fun b => datediff b <> None) (sorted_frame us ws ts).
Proof.
  unfold pandas_DataModel.metrics. intros H.
  change (pd.sort_values sort_by (pd.merge us ws ts))
    with (sorted_frame us ws ts) in H.
  set (S := sorted_frame us ws ts) in *.
  unfold pandas_DataModel.assign_month, pandas_DataModel.col_datediff in H.
  rewrite map_map in H. simpl in H.
  destruct (pd.dt _) as [e|tds] eqn:D in H; simpl in H; [discriminate|].
  apply dt_inr in D. destruct D as [-> NE].
  rewrite map_map in H. unfold pandas_DataModel.days_div in H.
  destruct (pd.apply_floor _) as [e|fl] eqn:E in H; simpl in H;
    [discriminate|].
  apply apply_floor_inr in E. destruct E as [HF HM].
  split.
  2:{ revert HF. apply Forall_impl. intros b Hb Hd. apply Hb.
      unfold dt_days. now rewrite Hd. }
  rewrite HM in H. unfold assign at 1 in H.
  rewrite map2_map in H.
  unfold pandas_DataModel.assign_week, pandas_DataModel.col_datediff in H.
  rewrite map_map in H. simpl in H.
  destruct (pd.dt _) as [e|tds] eqn:D in H; simpl in H; [discriminate|].
  apply dt_inr in D. destruct D as [-> _].
  rewrite map_map in H. unfold pandas_DataModel.days_div in H.
  destruct (pd.apply_floor _) as [e|fl'] eqn:E in H; simpl in H;
    [discriminate|].
  apply apply_floor_inr in E. destruct E as [_ HM'].
  rewrite HM' in H. unfold assign at 1 in H.
  rewrite map2_map in H.
  inversion H as [H']; clear H H'.
  assert (TR : forall g : Row -> OutRow,
             (forall b, base (g b) = b) ->
             (forall b, month (g b)
                        = match match dt_days (datediff b) with
                                | Some d => Some (inject_Z d / (30417 # 1000))%Q
                                | None => None
                                end with
                          | Some y => Some (Qfloor y)
                          | None => None
                          end) ->
             (forall b, week (g b)
                        = match match dt_days (datediff b) with
                                | Some d => Some (inject_Z d / (7 # 1))%Q
                                | None => None
                                end with
                          | Some y => Some (Qfloor y)
                          | None => None
                          end) ->
             tracks month0 week0 g).
  { intros g Hb Hm Hw b. rewrite Hb, Hm, Hw. unfold month0, week0.
    destruct (dt_days (datediff b)); repeat split; reflexivity. }
  rewrite (assign_weigh_in_rate_rows month0 week0)
    by (apply TR; reflexivity).
  rewrite (assign_patient_starting_weight_rows month0 week0)
    by (apply TR; reflexivity).
  rewrite (assign_treatment_starting_weight_rows month0 week0)
    by (apply TR; reflexivity).
  rewrite (assign_treatment_TBWL_rows month0 week0)
    by (apply TR; reflexivity).
  unfold pandas_DataModel.assign_patient_TBWL.
  rewrite (grouped_max_wgt_diff_rows month0 week0)
    by (apply TR; reflexivity).
  unfold assign. rewrite map2_map. apply map_ext. intro b.
  unfold row_metrics, month0, week0. simpl.
  destruct (dt_days (datediff b)); reflexivity.
Qed.

(** ** [drop_duplicates] and [filters] *)

Section Dedup_facts.
Variable A : Type.
Variable eq_dec : forall a b : A, {a = b} + {a <> b}.

Lemma drop_duplicates_from_In seen l r :
  In r (pd.drop_duplicates_from eq_dec seen l) <-> In r l /\ ~ In r seen.
Proof.
  revert seen; induction l as [|x l IH]; intro seen; simpl.
  - tauto.
  - destruct (in_dec eq_dec x seen) as [Hs|Hs].
    + rewrite IH. split; [tauto|]. intros [[->|H] Hn]; tauto.
    + simpl. rewrite IH. simpl. split.
      * intros [->|[H Hn]]; tauto.
      * intros [[->|H] Hn]; [tauto|].
        destruct (eq_dec x r); [tauto|]. right. tauto.
Qed.

Lemma drop_duplicates_from_NoDup seen l :
  NoDup (pd.drop_duplicates_from eq_dec seen l).
Proof.
  revert seen; induction l as [|x l IH]; intro seen; simpl.
  - constructor.
  - destruct (in_dec eq_dec x seen); [apply IH|].
    constructor; [|apply IH].
    rewrite drop_duplicates_from_In. simpl. tauto.
Qed.

Lemma drop_duplicates_In l r : In r (pd.drop_duplicates eq_dec l) <-> In r l.
Proof.
  unfold pd.drop_duplicates. rewrite drop_duplicates_from_In. simpl. tauto.
Qed.

Lemma drop_duplicates_NoDup l : NoDup (pd.drop_duplicates eq_dec l).
Proof. apply drop_duplicates_from_NoDup. Qed.

End Dedup_facts.

Lemma analytics_filters_incl df gender min_age max_age clinic r :
  In r (analytics_data_model.filters df gender min_age max_age clinic) ->
  In r df.
Proof.
  unfold analytics_data_model.filters. intro H.
  apply filter_In in H. destruct H as [H _].
  apply filter_In in H. destruct H as [H _].
  destruct (String.eqb gender "all"); [assumption|].
  destruct (String.eqb gender "Male");
    [apply filter_In in H; tauto|].
  destruct (String.eqb gender "Female");
    [apply filter_In in H; tauto | assumption].
Qed.

Lemma pandas_filters_incl df gender min_age max_age clinic r :
  In r (pandas_DataModel.filters df gender min_age max_age clinic) ->
  In r df.
Proof.
  unfold pandas_DataModel.filters. intro H.
  apply filter_In in H. destruct H as [H _].
  apply filter_In in H. destruct H as [H _].
  destruct (String.eqb gender "Male");
    [apply filter_In in H; tauto|].
  destruct (String.eqb gender "Female");
    [apply filter_In in H; tauto | assumption].
Qed.

(** Every row a run returns is a row of the frame of metrics. *)
Lemma analytics_pipeline_rows
      us ws ts cohort gender min_age max_age clinic out :
  analytics_data_model.data_pipeline us ws ts cohort gender min_age max_age
                                     clinic = inr out ->
  exists T, analytics_data_model.metrics us ws ts cohort = inr T
            /\ forall r, In r out -> In r T.
Proof.
  unfold analytics_data_model.data_pipeline. intro H.
  destruct (analytics_data_model.metrics us ws ts cohort) as [e|T];
    simpl in H; [discriminate|].
  exists T. split; [reflexivity|]. inversion H; subst. intros r Hr.
  apply drop_duplicates_In in Hr.
  now apply analytics_filters_incl in Hr.
Qed.

Lemma pandas_pipeline_rows
      us ws ts cohort gender min_age max_age clinic out :
  pandas_DataModel.data_pipeline us ws ts cohort gender min_age max_age
                                 clinic = inr out ->
  exists T, pandas_DataModel.metrics us ws ts cohort = inr T
            /\ forall r, In r out -> In r T.
Proof.
  unfold pandas_DataModel.data_pipeline. intro H.
  destruct (pandas_DataModel.metrics us ws ts cohort) as [e|T];
    simpl in H; [discriminate|].
  exists T. split; [reflexivity|]. inversion H; subst. intros r Hr.
  apply drop_duplicates_In in Hr.
  now apply pandas_filters_incl in Hr.
Qed.

(** The two pandas files return a frame without repeated rows. *)
Lemma pandas_files_drop_duplicates
      us ws ts cohort gender min_age max_age clinic :
  (forall out,
      analytics_data_model.data_pipeline us ws ts cohort gender min_age
                                         max_age clinic = inr out ->
      NoDup out)
  /\ (forall out,
         pandas_DataModel.data_pipeline us ws ts cohort gender min_age
                                        max_age clinic = inr out ->
         NoDup out).
Proof.
  split; intros out H.
  - unfold analytics_data_model.data_pipeline in H.
    destruct (analytics_data_model.metrics us ws ts cohort); simpl in H;
      [discriminate|].
    inversion H; subst. apply drop_duplicates_NoDup.
  - unfold pandas_DataModel.data_pipeline in H.
    destruct (pandas_DataModel.metrics us ws ts cohort); simpl in H;
      [discriminate|].
    inversion H; subst. apply drop_duplicates_NoDup.
Qed.

(** ** The stable sort *)

Section Sort_facts.
Variable A : Type.
Variable leb : A -> A -> bool.
Hypothesis leb_total : forall x y, leb x y = true \/ leb y x = true.
Hypothesis leb_trans :
  forall x y z, leb x y = true -> leb y z = true -> leb x z = true.

Lemma insert_Permutation x l : Permutation (pd.insert leb x l) (x :: l).
Proof.
  induction l as [|y l IH]; simpl; [reflexivity|].
  destruct (leb x y); [reflexivity|].
  rewrite IH. apply perm_swap.
Qed.

Lemma stable_sort_Permutation l : Permutation (pd.stable_sort leb l) l.
Proof.
  induction l as [|x l IH]; simpl; [reflexivity|].
  rewrite insert_Permutation. now constructor.
Qed.

Lemma insert_StronglySorted x l :
  StronglySorted (fun a b => leb a b = true) l ->
  StronglySorted (fun a b => leb a b = true) (pd.insert leb x l).
Proof.
  induction 1 as [|y l Hs IH Hy]; simpl.
  - repeat constructor.
  - destruct (leb x y) eqn:E.
    + constructor; [now constructor|].
      constructor; [assumption|].
      revert Hy. apply Forall_impl. intros z Hz. now apply leb_trans with y.
    + constructor; [assumption|].
      assert (Hyx : leb y x = true)
        by (destruct (leb_total x y); congruence).
      rewrite insert_Permutation. now constructor.
Qed.

Lemma stable_sort_StronglySorted l :
  StronglySorted (fun a b => leb a b = true) (pd.stable_sort leb l).
Proof.
  induction l as [|x l IH]; simpl; [constructor|].
  now apply insert_StronglySorted.
Qed.

End Sort_facts.

(** ** The order of [sort_values] *)

Lemma cmp_na_last_refl a : pd.cmp_na_last a a = Eq.
Proof. destruct a; simpl; [apply Z.compare_refl | reflexivity]. Qed.

Lemma cmp_na_last_eq a b : pd.cmp_na_last a b = Eq -> a = b.
Proof.
  destruct a, b; simpl; try discriminate; [|reflexivity].
  intro H. apply Z.compare_eq in H. now subst.
Qed.

Lemma cmp_na_last_antisym a b :
  pd.cmp_na_last b a = CompOpp (pd.cmp_na_last a b).
Proof. destruct a, b; simpl; try reflexivity. apply Z.compare_antisym. Qed.

Lemma cmp_na_last_lt_trans a b c :
  pd.cmp_na_last a b = Lt -> pd.cmp_na_last b c = Lt ->
  pd.cmp_na_last a c = Lt.
Proof.
  destruct a, b, c; simpl; try discriminate; try reflexivity.
  rewrite !Z.compare_lt_iff. lia.
Qed.

Lemma key_le_total k1 k2 : key_le k1 k2 \/ key_le k2 k1.
Proof.
  unfold key_le. revert k2; induction k1 as [|a k1 IH]; intros [|b k2];
    simpl; auto.
  rewrite (cmp_na_last_antisym a b).
  destruct (pd.cmp_na_last a b); simpl; auto.
Qed.

Lemma key_le_trans k1 k2 k3 :
  List.length k1 = List.length k2 -> List.length k2 = List.length k3 ->
  key_le k1 k2 -> key_le k2 k3 -> key_le k1 k3.
Proof.
  unfold key_le.
  revert k2 k3; induction k1 as [|a k1 IH]; intros [|b k2] [|c k3];
    simpl; try discriminate; auto.
  intros L1 L2.
  destruct (pd.cmp_na_last a b) eqn:E1; simpl; try discriminate;
    destruct (pd.cmp_na_last b c) eqn:E2; simpl; try discriminate.
  - apply cmp_na_last_eq in E1, E2. subst. rewrite cmp_na_last_refl.
    apply IH; congruence.
  - apply cmp_na_last_eq in E1. subst. now rewrite E2.
  - apply cmp_na_last_eq in E2. subst. now rewrite E1.
  - now rewrite (cmp_na_last_lt_trans _ _ _ E1 E2).
Qed.

Lemma key_le_refl k : key_le k k.
Proof.
  unfold key_le. induction k as [|a k IH]; simpl; [reflexivity|].
  now rewrite cmp_na_last_refl.
Qed.

(** Equal leading column: the order is decided by the remaining ones. *)
Lemma key_le_cons a k1 k2 : key_le (a :: k1) (a :: k2) <-> key_le k1 k2.
Proof. unfold key_le. simpl. now rewrite cmp_na_last_refl. Qed.

(** The leading columns of comparable keys are in order. *)
Lemma key_le_head a b k1 k2 :
  key_le (a :: k1) (b :: k2) -> pd.cmp_na_last a b <> Gt.
Proof.
  unfold key_le. simpl. destruct (pd.cmp_na_last a b); simpl; congruence.
Qed.

Lemma row_le_total r1 r2 : row_le r1 r2 \/ row_le r2 r1.
Proof. apply key_le_total. Qed.

Lemma row_le_trans r1 r2 r3 : row_le r1 r2 -> row_le r2 r3 -> row_le r1 r3.
Proof. apply key_le_trans; reflexivity. Qed.

Lemma sorted_frame_Permutation us ws ts :
  Permutation (sorted_frame us ws ts) (pd.merge us ws ts).
Proof. apply stable_sort_Permutation. Qed.

Lemma sorted_frame_sorted us ws ts :
  StronglySorted row_le (sorted_frame us ws ts).
Proof.
  unfold sorted_frame, pd.sort_values.
  apply (@stable_sort_StronglySorted Row
           (fun r1 r2 =>
              pd.leb_of (pd.lex_cmp pd.cmp_na_last (sort_by r1)
                                    (sort_by r2)))).
  - intros x y. apply (row_le_total x y).
  - intros x y z. apply (@row_le_trans x y z).
Qed.

Lemma sorted_frame_In us ws ts b :
  In b (sorted_frame us ws ts) <-> In b (pd.merge us ws ts).
Proof.
  split; apply Permutation_in;
    [|symmetry]; apply sorted_frame_Permutation.
Qed.

(** ** The left joins *)

Lemma left_join_In {L R O} (on : L -> R -> bool) (pair : L -> option R -> O)
      left right o :
  In o (pd.left_join on pair left right) <->
  exists l, In l left /\
            ((exists r, In r right /\ on l r = true /\ o = pair l (Some r))
             \/ (filter (on l) right = [] /\ o = pair l None)).
Proof.
  unfold pd.left_join. rewrite in_flat_map.
  split; intros (l & Hl & H); exists l; (split; [assumption|]).
  - destruct (filter (on l) right) as [|m ms] eqn:E.
    + right. destruct H as [<-|[]]. now split.
    + left. apply in_map_iff in H. destruct H as (r & <- & Hr).
      rewrite <- E in Hr. apply filter_In in Hr. exists r. tauto.
  - destruct H as [(r & Hr & Hon & ->)|(E & ->)].
    + assert (Hf : In r (filter (on l) right)) by (apply filter_In; tauto).
      destruct (filter (on l) right) as [|m ms]; [destruct Hf|].
      apply in_map_iff. now exists r.
    + rewrite E. now left.
Qed.

Lemma left_join_cons {L R O} (on : L -> R -> bool) (pair : L -> option R -> O)
      l left right :
  pd.left_join on pair (l :: left) right
  = pd.left_join on pair [l] right ++ pd.left_join on pair left right.
Proof. unfold pd.left_join. simpl. now rewrite app_nil_r. Qed.

Lemma left_join_app {L R O} (on : L -> R -> bool) (pair : L -> option R -> O)
      l1 l2 right :
  pd.left_join on pair (l1 ++ l2) right
  = pd.left_join on pair l1 right ++ pd.left_join on pair l2 right.
Proof. unfold pd.left_join. apply flat_map_app. Qed.

(** One left row yields one row per match, or one row when there is none. *)
Lemma left_join_one_length {L R O} (on : L -> R -> bool)
      (pair : L -> option R -> O) l right :
  List.length (pd.left_join on pair [l] right)
  = Nat.max (List.length (filter (on l) right)) 1.
Proof.
  unfold pd.left_join. simpl. rewrite app_nil_r.
  destruct (filter (on l) right) as [|m ms]; [reflexivity|].
  simpl. rewrite ?length_map. lia.
Qed.

Lemma merge_cons u us ws ts :
  pd.merge (u :: us) ws ts = pd.merge [u] ws ts ++ pd.merge us ws ts.
Proof.
  unfold pd.merge, pd.merge_users_weights, pd.merge_uw_treatments.
  rewrite left_join_cons. apply left_join_app.
Qed.

Lemma merge_one_UID u ws ts b :
  In b (pd.merge [u] ws ts) -> UID b = users.UID u.
Proof.
  unfold pd.merge, pd.merge_users_weights, pd.merge_uw_treatments.
  intro H. apply left_join_In in H. destruct H as ([u' ow] & Hx & H).
  apply left_join_In in Hx. destruct Hx as (u'' & [<-|[]] & Hx).
  assert (u' = u) by (destruct Hx as [(w & _ & _ & E)|(_ & E)];
                      now inversion E).
  subst u'.
  destruct H as [(t & _ & _ & ->)|(_ & ->)]; reflexivity.
Qed.

Lemma merge_one_length u ws ts :
  List.length (pd.merge [u] ws ts)
  = (Nat.max (records_of weights.MasterUserID (users.UID u) ws) 1
     * Nat.max (records_of treatments.MasterUserID (users.UID u) ts) 1)%nat.
Proof.
  unfold pd.merge, pd.merge_users_weights, pd.merge_uw_treatments, records_of.
  cbv zeta.
  set (on2 := fun (x : pd.uw_row) t =>
                pd.key_match (pd.is_float64 (map treatments.MasterUserID ts))
                             (users.UID (fst x)) (treatments.MasterUserID t)).
  set (M := Nat.max _ 1) at 2.
  assert (Hrow : forall ow,
             List.length (pd.left_join on2 pd.joined [(u, ow)] ts) = M).
  { intro ow. now rewrite left_join_one_length. }
  assert (Hall : forall (l : list pd.uw_row),
             Forall (fun x => fst x = u) l ->
             List.length (pd.left_join on2 pd.joined l ts)
             = (List.length l * M)%nat).
  { induction 1 as [|[u' ow] l Hx _ IH]; [reflexivity|].
    simpl in Hx. subst u'.
    rewrite left_join_cons, length_app, Hrow, IH. simpl. lia. }
  rewrite Hall.
  - now rewrite left_join_one_length.
  - apply Forall_forall. intros [u' ow] Hx.
    apply left_join_In in Hx. destruct Hx as (u'' & [<-|[]] & Hx).
    destruct Hx as [(w & _ & _ & E)|(_ & E)]; now inversion E.
Qed.

(** ** Rows of the merged frame *)

(** A row of the merged frame pairs a user with one of the user's weight
    records (if any) and one of the user's episodes (if any). *)
Lemma merge_In us ws ts b :
  In b (pd.merge us ws ts) <->
  exists u ow ot,
    In u us /\ b = pd.joined (u, ow) ot
    /\ match ow with
       | Some w => In w ws /\ weight_of ws (users.UID u) w = true
       | None => filter (weight_of ws (users.UID u)) ws = []
       end
    /\ match ot with
       | Some t => In t ts /\ episode_of ts (users.UID u) t = true
       | None => filter (episode_of ts (users.UID u)) ts = []
       end.
Proof.
  unfold pd.merge, pd.merge_uw_treatments, pd.merge_users_weights.
  cbv zeta.
  change (fun (u : users.t) (w : weights.t) =>
            pd.key_match (pd.is_float64 (map weights.MasterUserID ws))
                         (users.UID u) (weights.MasterUserID w))
    with (fun u w => weight_of ws (users.UID u) w).
  change (fun (x : pd.uw_row) (t : treatments.t) =>
            pd.key_match (pd.is_float64 (map treatments.MasterUserID ts))
                         (users.UID (fst x)) (treatments.MasterUserID t))
    with (fun (x : pd.uw_row) t => episode_of ts (users.UID (fst x)) t).
  rewrite left_join_In. split.
  - intros ([u ow] & Hx & H). apply left_join_In in Hx.
    destruct Hx as (u' & Hu & Hx).
    assert (E : u' = u /\ match ow with
                          | Some w => In w ws
                                      /\ weight_of ws (users.UID u) w = true
                          | None => filter (weight_of ws (users.UID u)) ws = []
                          end).
    { destruct Hx as [(w & Hw & Hon & E)|(Hn & E)]; inversion E; subst; auto. }
    destruct E as [-> How].
    destruct H as [(t & Ht & Hon & ->)|(Hn & ->)].
    + exists u, ow, (Some t). simpl in Hon. auto.
    + exists u, ow, None. simpl in Hn. auto.
  - intros (u & ow & ot & Hu & -> & Hw & Ht).
    exists (u, ow). split.
    + apply left_join_In. exists u. split; [assumption|].
      destruct ow as [w|].
      * left. exists w. tauto.
      * right. tauto.
    + destruct ot as [t|].
      * left. exists t. simpl. tauto.
      * right. simpl. tauto.
Qed.

(** Keys of at most 2^53 in absolute value match exactly when they are
    equal, whatever the dtype of the key column. *)
Lemma key_match_exact float_keys uid k :
  Z.abs uid <= 2 ^ 53 ->
  (forall k', k = Some k' -> Z.abs k' <= 2 ^ 53) ->
  (pd.key_match float_keys uid k = true <-> k = Some uid).
Proof.
  intros Hu Hk. unfold pd.key_match. destruct k as [k|];
    [|split; discriminate].
  specialize (Hk k eq_refl).
  destruct float_keys.
  - rewrite Qeq_bool_iff, !of_int_exact by assumption.
    rewrite inject_Z_injective. split; congruence.
  - rewrite Z.eqb_eq. split; congruence.
Qed.

(** A key column without an empty cell is int64 and is compared exactly. *)
Lemma key_match_int64 uid k :
  pd.key_match false uid k = true <-> k = Some uid.
Proof.
  unfold pd.key_match. destruct k as [k|]; [|split; discriminate].
  rewrite Z.eqb_eq. split; congruence.
Qed.

Lemma weight_of_exact us ws ts u w :
  exact_keys us ws ts -> In u us -> In w ws ->
  (weight_of ws (users.UID u) w = true
   <-> weights.MasterUserID w = Some (users.UID u)).
Proof.
  intros (Hu & Hw & _) Iu Iw. rewrite Forall_forall in Hu, Hw.
  unfold weight_of. apply key_match_exact; [now apply Hu | now apply Hw].
Qed.

Lemma episode_of_exact us ws ts u t :
  exact_keys us ws ts -> In u us -> In t ts ->
  (episode_of ts (users.UID u) t = true
   <-> treatments.MasterUserID t = Some (users.UID u)).
Proof.
  intros (Hu & _ & Ht) Iu It. rewrite Forall_forall in Hu, Ht.
  unfold episode_of. apply key_match_exact; [now apply Hu | now apply Ht].
Qed.

Lemma rows_of_patient_app uid l1 l2 :
  rows_of_patient uid (l1 ++ l2)
  = rows_of_patient uid l1 ++ rows_of_patient uid l2.
Proof. apply filter_app. Qed.

Lemma rows_of_patient_own u ws ts :
  rows_of_patient (users.UID u) (pd.merge [u] ws ts) = pd.merge [u] ws ts.
Proof.
  unfold rows_of_patient. apply forallb_filter_id. apply forallb_forall.
  intros b Hb. apply merge_one_UID in Hb. now apply Z.eqb_eq.
Qed.

Lemma rows_of_patient_other uid us ws ts :
  ~ In uid (map users.UID us) ->
  rows_of_patient uid (pd.merge us ws ts) = [].
Proof.
  induction us as [|u us IH]; intro Hn; [reflexivity|].
  rewrite merge_cons, rows_of_patient_app, IH by (simpl in Hn; tauto).
  rewrite app_nil_r. unfold rows_of_patient.
  assert (H : forall l, (forall b, In b l -> UID b <> uid) ->
                        filter (fun b => UID b =? uid) l = []).
  { induction l as [|b l IHl]; intro Hl; [reflexivity|]. simpl.
    destruct (Z.eqb_spec (UID b) uid) as [E|_].
    - exfalso. apply (Hl b); [now left | assumption].
    - apply IHl. intros b' Hb'. apply Hl. now right. }
  apply H. intros b Hb E. apply merge_one_UID in Hb.
  apply Hn. left. congruence.
Qed.

Lemma merge_flat_map us ws ts :
  pd.merge us ws ts = flat_map (fun u => pd.merge [u] ws ts) us.
Proof.
  induction us as [|u us IH]; [reflexivity|].
  rewrite merge_cons, IH. reflexivity.
Qed.

Lemma rows_of_patient_length us ws ts u :
  NoDup (map users.UID us) ->
  In u us ->
  List.length (rows_of_patient (users.UID u) (pd.merge us ws ts))
  = List.length (pd.merge [u] ws ts).
Proof.
  intros ND Hu.
  induction us as [|u0 us IH]; [destruct Hu|].
  inversion ND as [|? ? Hn ND']; subst.
  rewrite merge_cons, rows_of_patient_app, length_app.
  destruct Hu as [->|Hu].
  - rewrite rows_of_patient_own, rows_of_patient_other by assumption.
    simpl. lia.
  - rewrite (IH ND' Hu).
    replace (rows_of_patient (users.UID u) (pd.merge [u0] ws ts))
      with (@nil Row); [reflexivity|].
    symmetry.
    rewrite <- (app_nil_r (pd.merge [u0] ws ts)).
    change (pd.merge [u0] ws ts ++ [])
      with (pd.merge [u0] ws ts ++ pd.merge [] ws ts).
    rewrite <- merge_cons.
    apply rows_of_patient_other. simpl. intros [E|[]].
    apply Hn. rewrite E. now apply in_map.
Qed.

Lemma records_of_zero {R} (key : R -> option Z) uid table r :
  records_of key uid table = 0%nat ->
  In r table ->
  pd.key_match (pd.is_float64 (map key table)) uid (key r) = true -> False.
Proof.
  unfold records_of. intros H Hr Hk.
  apply length_zero_iff_nil in H.
  assert (Hf : In r (filter (fun x => pd.key_match
                                        (pd.is_float64 (map key table))
                                        uid (key x)) table))
    by (apply filter_In; auto).
  rewrite H in Hf. destruct Hf.
Qed.

(** With exact keys the records that the merge joins to a user are the
    records that carry the user's key. *)
Lemma records_of_exact {R} (key : R -> option Z) uid table :
  Z.abs uid <= 2 ^ 53 ->
  Forall (fun x => forall k, key x = Some k -> Z.abs k <= 2 ^ 53) table ->
  records_of key uid table
  = List.length (filter (fun x => pd.key_match false uid (key x)) table).
Proof.
  intros Hu Hk. unfold records_of. f_equal.
  apply filter_ext_in. intros x Hx. rewrite Forall_forall in Hk.
  apply eq_true_iff_eq.
  rewrite (key_match_exact _ uid (key x) Hu (Hk x Hx)).
  now rewrite (key_match_exact false uid (key x) Hu (Hk x Hx)).
Qed.

(** X18. For every input, the frame produced by the two left joins is made
    of one block of rows per user, in the order of the users; the block of a
    user to whom the merge joins N weight records and M treatment episodes
    has exactly max(N,1) * max(M,1) rows, hence at least one, with missing
    values on a side that has no record.  With unique patient keys these
    are the rows of the frame that carry the user's key; and when every key
    is at most 2^53 in absolute value, N and M count the records whose
    MasterUserID is the user's UID. *)
Theorem merge_rows_per_user us ws ts :
  pd.merge us ws ts = flat_map (fun u => pd.merge [u] ws ts) us
  /\ (forall u,
         let N := records_of weights.MasterUserID (users.UID u) ws in
         let M := records_of treatments.MasterUserID (users.UID u) ts in
         List.length (pd.merge [u] ws ts) = (Nat.max N 1 * Nat.max M 1)%nat
         /\ (1 <= List.length (pd.merge [u] ws ts))%nat
         /\ Forall (fun b =>
                      UID b = users.UID u
                      /\ (N = 0%nat ->
                          Weight b = None /\ Weights_CreatedDate b = None)
                      /\ (M = 0%nat ->
                          TreatmentTypeID b = None
                          /\ Treatment_StartDate b = None))
                   (pd.merge [u] ws ts))
  /\ (NoDup (map users.UID us) ->
      forall u, In u us ->
        List.length (rows_of_patient (users.UID u) (pd.merge us ws ts))
        = (Nat.max (records_of weights.MasterUserID (users.UID u) ws) 1
           * Nat.max (records_of treatments.MasterUserID (users.UID u) ts) 1)%nat)
  /\ (exact_keys us ws ts ->
      forall u, In u us ->
        records_of weights.MasterUserID (users.UID u) ws
        = List.length
            (filter (fun w => pd.key_match false (users.UID u)
                                           (weights.MasterUserID w)) ws)
        /\ records_of treatments.MasterUserID (users.UID u) ts
           = List.length
               (filter (fun t => pd.key_match false (users.UID u)
                                              (treatments.MasterUserID t))
                       ts)).
Proof.
  split; [apply merge_flat_map|]. split; [|split].
  - intros u N M.
    assert (E : List.length (pd.merge [u] ws ts)
                = (Nat.max N 1 * Nat.max M 1)%nat)
      by apply merge_one_length.
    split; [exact E|]. split; [rewrite E; nia|].
    apply Forall_forall. intros b Hb.
    split; [now apply merge_one_UID with ws ts|].
    apply merge_In in Hb.
    destruct Hb as (u' & ow & ot & [<-|[]] & -> & How & Hot).
    split; intro Hz.
    + destruct ow as [w|]; [|now split].
      exfalso. destruct How as [Hw Hk].
      exact (records_of_zero _ _ _ w Hz Hw Hk).
    + destruct ot as [t|]; [|now split].
      exfalso. destruct Hot as [Ht Hk].
      exact (records_of_zero _ _ _ t Hz Ht Hk).
  - intros ND u Hu.
    rewrite (rows_of_patient_length us ws ts u ND Hu).
    apply merge_one_length.
  - intros (Hu & Hw & Ht) u Iu. rewrite Forall_forall in Hu.
    split; apply records_of_exact; auto.
Qed.

Lemma merge_rows_per_user_witness :
  NoDup (map users.UID [alice; bob])
  /\ In alice [alice; bob]
  /\ List.length
       (rows_of_patient 1
          (pd.merge [alice; bob]
                    [weigh_ 1 (Some 70) 1; weigh_ 1 (Some 68) 9] []))
     = 2%nat.
Proof.
  assert (ND : NoDup (map users.UID [alice; bob])).
  { repeat constructor; simpl; intuition discriminate. }
  assert (HI : In alice [alice; bob]) by (now left).
  split; [exact ND|]. split; [exact HI|].
  exact (proj1 (proj2 (proj2 (merge_rows_per_user
                                [alice; bob]
                                [weigh_ 1 (Some 70) 1; weigh_ 1 (Some 68) 9]
                                [])))
               ND alice HI).
Defined.

(** C6 on the code.  Two users have the keys 2^53 and 2^53 + 1 and one
    weight record each: the claim gives each of them one row.  Once the
    weights table also holds a record with an empty MasterUserID cell, the
    key column is float64, the two keys have the same float64 value, and
    [pd.merge] joins each user to both records: two rows per user, one of
    them with the other patient's weight.  Without that record, and in the
    join of [polars_DataModel.py], each user has one row. *)
Theorem merge_joins_keys_equal_as_float64 :
  map (fun b => (UID b, Weight b))
      (pd.merge [big_alice; big_bob] (big_weights ++ [unkeyed_weight]) [])
  = [(2 ^ 53, Some 70); (2 ^ 53, Some 80);
     (2 ^ 53 + 1, Some 70); (2 ^ 53 + 1, Some 80)]
  /\ map (fun b => (UID b, Weight b))
         (pd.merge [big_alice; big_bob] big_weights [])
     = [(2 ^ 53, Some 70); (2 ^ 53 + 1, Some 80)]
  /\ map (fun b => (UID b, Weight b))
         (pl.join [big_alice; big_bob] (big_weights ++ [unkeyed_weight]) [])
     = [(2 ^ 53, Some 70); (2 ^ 53 + 1, Some 80)].
Proof.
  repeat split; vm_compute; reflexivity.
Qed.

(** Without weight records and without episodes a user still has one row. *)
Example merge_keeps_lonely_user :
  map (fun b => (UID b, Weight b, TreatmentTypeID b)) (pd.merge [bob] [] [])
  = [(2, None, None)].
Proof. reflexivity. Qed.

(** ** The gender argument of [filters] *)

(** C10. For every gender argument outside 'all', 'Male' and 'Female' the
    three [filters] functions apply no gender restriction: they return the
    rows that gender='all' returns, which are the rows passing the age range
    and the clinic tests. *)
Theorem filters_unknown_gender df gender min_age max_age clinic :
  gender <> "all"%string -> gender <> "Male"%string ->
  gender <> "Female"%string ->
  let kept :=
    filter (fun r => eq_ (ClinicID (base r)) clinic)
           (filter (fun r => ge_ (Age (base r)) min_age
                             && le_ (Age (base r)) max_age) df) in
  (analytics_data_model.filters df gender min_age max_age clinic
   = analytics_data_model.filters df "all" min_age max_age clinic
   /\ analytics_data_model.filters df gender min_age max_age clinic = kept)
  /\ (pandas_DataModel.filters df gender min_age max_age clinic
      = pandas_DataModel.filters df "all" min_age max_age clinic
      /\ pandas_DataModel.filters df gender min_age max_age clinic = kept)
  /\ (polars_DataModel.filters df gender min_age max_age clinic
      = polars_DataModel.filters df "all" min_age max_age clinic
      /\ polars_DataModel.filters df gender min_age max_age clinic = kept).
Proof.
  intros Ha Hm Hf kept.
  apply String.eqb_neq in Ha, Hm, Hf.
  unfold analytics_data_model.filters, pandas_DataModel.filters,
    polars_DataModel.filters.
  rewrite Ha, Hm, Hf. simpl. subst kept. repeat split; reflexivity.
Qed.

Lemma filters_unknown_gender_witness :
  ("female" <> "all" /\ "female" <> "Male" /\ "female" <> "Female")%string
  /\ forall df,
      analytics_data_model.filters df "female" 18 72 5066
      = analytics_data_model.filters df "all" 18 72 5066.
Proof.
  assert (Ha : "female"%string <> "all"%string) by discriminate.
  assert (Hm : "female"%string <> "Male"%string) by discriminate.
  assert (Hf : "female"%string <> "Female"%string) by discriminate.
  split; [now repeat split|].
  intro df.
  exact (proj1 (proj1 (@filters_unknown_gender df "female" 18 72 5066
                         Ha Hm Hf))).
Defined.

(** ** Rows with a missing timestamp *)

Lemma datediff_None b :
  Weights_CreatedDate b = None \/ Treatment_StartDate b = None ->
  datediff b = None.
Proof.
  unfold datediff, pd.sub. intros [->| ->]; [reflexivity|].
  now destruct (Weights_CreatedDate b).
Qed.

Lemma analytics_raises us ws ts cohort gender min_age max_age clinic b :
  In b (pd.merge us ws ts) ->
  Weights_CreatedDate b = None \/ Treatment_StartDate b = None ->
  analytics_data_model.data_pipeline us ws ts cohort gender min_age max_age
                                     clinic = inl ValueError.
Proof.
  intros Hb Hn. apply sorted_frame_In in Hb. apply datediff_None in Hn.
  unfold analytics_data_model.data_pipeline, analytics_data_model.metrics,
    analytics_data_model.assign_month.
  change (pd.sort_values sort_by (pd.merge us ws ts))
    with (sorted_frame us ws ts).
  rewrite map_map. simpl.
  rewrite (@apply_floor_raises _
             (fun x => td_div (datediff x) Timedelta_30_44));
    [reflexivity|].
  apply Exists_exists. exists b. split; [assumption|]. now rewrite Hn.
Qed.

Lemma pandas_raises us ws ts cohort gender min_age max_age clinic b :
  In b (pd.merge us ws ts) ->
  Weights_CreatedDate b = None \/ Treatment_StartDate b = None ->
  pandas_DataModel.data_pipeline us ws ts cohort gender min_age max_age
                                 clinic = inl ValueError.
Proof.
  intros Hb Hn. apply sorted_frame_In in Hb. apply datediff_None in Hn.
  unfold pandas_DataModel.data_pipeline, pandas_DataModel.metrics,
    pandas_DataModel.assign_month, pandas_DataModel.col_datediff.
  change (pd.sort_values sort_by (pd.merge us ws ts))
    with (sorted_frame us ws ts).
  rewrite map_map. simpl.
  rewrite dt_defined.
  2:{ intro E. apply map_eq_nil in E. rewrite E in Hb. destruct Hb. }
  simpl. rewrite map_map.
  rewrite (@apply_floor_raises _
             (fun x => pandas_DataModel.days_div (datediff x) 30417 1000));
    [reflexivity|].
  apply Exists_exists. exists b. split; [assumption|].
  unfold pandas_DataModel.days_div. now rewrite Hn.
Qed.







(** C4, as the code has it.  When some row of the merged frame misses the
    weight timestamp or the episode start, [math.floor] meets a NaN while
    the month column is computed and both pandas files raise [ValueError]:
    no frame is returned. *)
Theorem missing_timestamp_raises
        us ws ts cohort gender min_age max_age clinic :
  (exists b, In b (pd.merge us ws ts)
             /\ (Weights_CreatedDate b = None
                 \/ Treatment_StartDate b = None)) ->
  analytics_data_model.data_pipeline us ws ts cohort gender min_age max_age
                                     clinic = inl ValueError
  /\ pandas_DataModel.data_pipeline us ws ts cohort gender min_age max_age
                                    clinic = inl ValueError.
Proof.
  intros (b & Hb & Hn). split.
  - now apply analytics_raises with b.
  - now apply pandas_raises with b.
Qed.

Lemma missing_timestamp_raises_witness :
  (exists b, In b (pd.merge [alice] [] [episode_alice])
             /\ (Weights_CreatedDate b = None \/ Treatment_StartDate b = None))
  /\ analytics_data_model.data_pipeline [alice] [] [episode_alice]
                                        week_c "all" 18 72 5066
     = inl ValueError.
Proof.
  assert (H : exists b, In b (pd.merge [alice] [] [episode_alice])
                        /\ (Weights_CreatedDate b = None
                            \/ Treatment_StartDate b = None)).
  { eexists. split; [left; reflexivity | left; reflexivity]. }
  split; [exact H|].
  exact (proj1 (@missing_timestamp_raises [alice] [] [episode_alice]
                  week_c "all" 18 72 5066 H)).
Defined.

(** ** The cohort indices *)

Lemma Qfloor_div_pos d (p : positive) :
  Qfloor (inject_Z d / inject_Z (Zpos p)) = d / Zpos p.
Proof.
  unfold Qdiv, Qinv, Qmult, inject_Z, Qfloor. simpl.
  now rewrite Z.mul_1_r.
Qed.

(** ** Quotients of whole days

    [pandas_DataModel.py] divides a whole number of days by the float 30.417
    or by 7, in float64, before [math.floor].  Over the whole range of an
    int64 of nanoseconds (at most 106752 days on either side) the floor of
    the float64 quotient is the floor of the exact quotient, which is what
    [days_div] takes. *)

Lemma Qfloor_between y k :
  (inject_Z k <= y)%Q -> (y < inject_Z (k + 1))%Q -> Qfloor y = k.
Proof.
  intros L U.
  pose proof (Qfloor_resp_le _ _ L) as H1. rewrite Qfloor_Z in H1.
  pose proof (Qfloor_le y) as H2.
  assert (H3 : (inject_Z (Qfloor y) < inject_Z (k + 1))%Q)
    by (eapply Qle_lt_trans; eassumption).
  rewrite <- Zlt_Qlt in H3. lia.
Qed.

Lemma days_div_7_float64 d :
  Z.abs d <= 106752 ->
  Qfloor (float64.div (float64.of_int d) (float64.of_int 7))
  = Qfloor (inject_Z d / (7 # 1)).
Proof.
  intro B. change (7 # 1)%Q with (inject_Z 7). rewrite Qfloor_div_pos.
  pose proof (Z.div_mod d 7 ltac:(discriminate)) as E.
  pose proof (Z.mod_pos_bound d 7 eq_refl) as R.
  set (k := d / 7) in *. set (r := d mod 7) in *.
  assert (E1 : (float64.of_int d == inject_Z d)%Q)
    by (apply of_int_exact; change (2 ^ 53) with 9007199254740992; lia).
  assert (E2 : (float64.of_int 7 == inject_Z 7)%Q)
    by (apply of_int_exact; vm_compute; discriminate).
  assert (H1 : (inject_Z 7 * inject_Z k <= inject_Z d)%Q)
    by (rewrite <- inject_Z_mult, <- Zle_Qle; lia).
  assert (H2 : (inject_Z d <= inject_Z 7 * inject_Z k + inject_Z 6)%Q)
    by (rewrite <- inject_Z_mult, <- inject_Z_plus, <- Zle_Qle; lia).
  change (inject_Z 7) with 7%Q in *. change (inject_Z 6) with 6%Q in *.
  unfold float64.div.
  rewrite (round_comp _ (inject_Z d / 7)%Q) by (now rewrite E1, E2).
  apply Qfloor_between.
  - apply Qle_trans with (float64.round (inject_Z k)).
    + fold (float64.of_int k). rewrite of_int_exact
        by (change (2 ^ 53) with 9007199254740992; lia).
      apply Qle_refl.
    + apply round_mono. apply Qle_shift_div_l; lra.
  - apply Qle_lt_trans
      with (float64.round (inject_Z (8 * k + 7) * 2 ^ (-3))%Q).
    + apply round_mono. apply Qle_shift_div_r; [reflexivity|].
      rewrite inject_Z_plus, inject_Z_mult.
      change (2 ^ (-3))%Q with (1 # 8)%Q.
      change (inject_Z 8) with 8%Q. change (inject_Z 7) with 7%Q. lra.
    + rewrite round_exact by (change (2 ^ 53) with 9007199254740992; lia).
      rewrite !inject_Z_plus, inject_Z_mult.
      change (2 ^ (-3))%Q with (1 # 8)%Q.
      change (inject_Z 8) with 8%Q. change (inject_Z 7) with 7%Q.
      change (inject_Z 1) with 1%Q. lra.
Qed.

Lemma days_div_30_417_float64 d :
  Z.abs d <= 106752 ->
  Qfloor (float64.div (float64.of_int d) (float64.round (30417 # 1000)))
  = Qfloor (inject_Z d / (30417 # 1000)).
Proof.
  intro B.
  assert (EF : Qfloor (inject_Z d / (30417 # 1000)) = (d * 1000) / 30417)
    by reflexivity.
  rewrite EF.
  pose proof (Z.div_mod (d * 1000) 30417 ltac:(discriminate)) as E.
  pose proof (Z.mod_pos_bound (d * 1000) 30417 eq_refl) as R.
  set (k := (d * 1000) / 30417) in *. set (j := (d * 1000) mod 30417) in *.
  destruct (Z.eq_dec j 0) as [J|J].
  { (* a whole number of months of 30.417 days *)
    assert (D : d = -91251 \/ d = -60834 \/ d = -30417 \/ d = 0
                \/ d = 30417 \/ d = 60834 \/ d = 91251) by lia.
    assert (K : k = d * 1000 / 30417) by reflexivity.
    clearbody k.
    destruct D as [D|[D|[D|[D|[D|[D|D]]]]]]; rewrite D in *; rewrite K;
      vm_compute; reflexivity. }
  assert (E1 : (float64.of_int d == inject_Z d)%Q)
    by (apply of_int_exact; change (2 ^ 53) with 9007199254740992; lia).
  assert (Ec : (float64.round (30417 # 1000)
                == 1070203045826003 # 35184372088832)%Q)
    by (vm_compute; reflexivity).
  assert (H1 : (inject_Z 30417 * inject_Z k + inject_Z 1
                <= inject_Z 1000 * inject_Z d)%Q)
    by (rewrite <- !inject_Z_mult, <- inject_Z_plus, <- Zle_Qle; lia).
  assert (H2 : (inject_Z 1000 * inject_Z d
                <= inject_Z 30417 * inject_Z k + inject_Z 30416)%Q)
    by (rewrite <- !inject_Z_mult, <- inject_Z_plus, <- Zle_Qle; lia).
  assert (H3 : (inject_Z (-3511) <= inject_Z k <= inject_Z 3511)%Q)
    by (rewrite <- !Zle_Qle; lia).
  change (inject_Z 30417) with 30417%Q in *.
  change (inject_Z 30416) with 30416%Q in *.
  change (inject_Z 1000) with 1000%Q in *.
  change (inject_Z 1) with 1%Q in *.
  change (inject_Z (-3511)) with (-3511)%Q in *.
  change (inject_Z 3511) with 3511%Q in *.
  unfold float64.div.
  rewrite (round_comp
             _ (inject_Z d / (1070203045826003 # 35184372088832))%Q)
    by (now rewrite E1, Ec).
  apply Qfloor_between.
  - apply Qle_trans with (float64.round (inject_Z k)).
    + fold (float64.of_int k). rewrite of_int_exact
        by (change (2 ^ 53) with 9007199254740992; lia).
      apply Qle_refl.
    + apply round_mono. apply Qle_shift_div_l; [reflexivity | lra].
  - apply Qle_lt_trans
      with (float64.round (inject_Z (65536 * k + 65535) * 2 ^ (-16))%Q).
    + apply round_mono. apply Qle_shift_div_r; [reflexivity|].
      rewrite inject_Z_plus, inject_Z_mult.
      change (2 ^ (-16))%Q with (1 # 65536)%Q.
      change (inject_Z 65536) with 65536%Q.
      change (inject_Z 65535) with 65535%Q. lra.
    + rewrite round_exact by (change (2 ^ 53) with 9007199254740992; lia).
      rewrite !inject_Z_plus, inject_Z_mult.
      change (2 ^ (-16))%Q with (1 # 65536)%Q.
      change (inject_Z 65536) with 65536%Q.
      change (inject_Z 65535) with 65535%Q.
      change (inject_Z 1) with 1%Q. lra.
Qed.

(** The month and week indices of [pandas_DataModel.py], with the float64
    quotients the code computes, for a timedelta of [td] nanoseconds within
    the int64 range. *)
Lemma days_div_is_the_float64_quotient b td :
  datediff b = Some td -> Z.abs td <= 2 ^ 63 ->
  month0 b
  = Some (Qfloor (float64.div (float64.of_int (td / day))
                              (float64.round (30417 # 1000))))
  /\ week0 b
     = Some (Qfloor (float64.div (float64.of_int (td / day))
                                 (float64.of_int 7))).
Proof.
  intros H B. unfold month0, week0, dt_days. rewrite H.
  assert (D : Z.abs (td / day) <= 106752).
  { change (2 ^ 63) with 9223372036854775808 in B.
    pose proof (Z.div_mod td day ltac:(discriminate)) as E.
    pose proof (Z.mod_pos_bound td day eq_refl) as R.
    unfold day in *. lia. }
  now rewrite days_div_30_417_float64, days_div_7_float64.
Qed.

Lemma spec_month_index_div d : spec_month_index d = d / Timedelta_30_44.
Proof.
  unfold spec_month_index, datediff_days, day, Timedelta_30_44.
  unfold Qdiv, Qinv, Qmult, inject_Z, Qfloor. simpl.
  rewrite Z.mul_1_r.
  change 263001600000000000 with (2630016000000000 * 100).
  apply Z.div_mul_cancel_r; lia.
Qed.

Lemma spec_week_index_div d : spec_week_index d = d / day / 7.
Proof.
  unfold spec_week_index, datediff_days, day.
  unfold Qdiv, Qinv, Qmult, inject_Z, Qfloor. simpl.
  rewrite !Z.mul_1_r.
  change 604800000000000 with (86400000000000 * 7).
  symmetry. apply Z.div_div; lia.
Qed.

Lemma month1_float b d : datediff b = Some d -> month1 b = Some (float_month d).
Proof. intro H. unfold month1, td_div. now rewrite H. Qed.

Lemma float_month_mono d1 d2 : d1 <= d2 -> float_month d1 <= float_month d2.
Proof.
  intro H. unfold float_month.
  pose proof (td_floor_mono d1 d2 Timedelta_30_44 eq_refl H). lia.
Qed.

Lemma float_month_exact d :
  Z.abs d <= 2 ^ 53 -> float_month d = spec_month_index d + 1.
Proof.
  intro H. unfold float_month.
  now rewrite td_floor_exact, spec_month_index_div.
Qed.

Lemma float_month_band d :
  Z.abs d <= 2 ^ 63 ->
  spec_month_index d + 1 <= float_month d <= spec_month_index d + 2.
Proof.
  intro H. unfold float_month. rewrite spec_month_index_div.
  pose proof (td_floor_band d H). lia.
Qed.

Lemma month1_spec b d :
  datediff b = Some d -> Z.abs d <= 2 ^ 53 ->
  month1 b = Some (spec_month_index d + 1).
Proof.
  intros H B. rewrite (month1_float b d H). now rewrite float_month_exact.
Qed.

Lemma week1_spec b d :
  datediff b = Some d -> week1 b = Some (spec_week_index d + 1).
Proof.
  intro H. unfold week1, dt_days. rewrite H.
  now rewrite spec_week_index_div.
Qed.

Lemma datediff_Some b :
  datediff b <> None ->
  exists wc st, Weights_CreatedDate b = Some wc
                /\ Treatment_StartDate b = Some st
                /\ datediff b = Some (wc - st).
Proof.
  unfold datediff, pd.sub.
  destruct (Weights_CreatedDate b) as [wc|], (Treatment_StartDate b) as [st|];
    try congruence.
  intros _. now exists wc, st.
Qed.

(** Every row of a returned frame is [row_metrics] of a row of the sorted
    merged frame, and that row has both timestamps. *)
Lemma analytics_row us ws ts cohort gender min_age max_age clinic out r :
  analytics_data_model.data_pipeline us ws ts cohort gender min_age max_age
                                     clinic = inr out ->
  In r out ->
  In (base r) (sorted_frame us ws ts)
  /\ r = row_metrics month1 week1 pd.neg cohort (sorted_frame us ws ts) (base r)
  /\ Forall (fun b => datediff b <> None) (sorted_frame us ws ts).
Proof.
  intros H Hr. apply analytics_pipeline_rows in H.
  destruct H as (T & HT & Hin). apply Hin in Hr.
  apply analytics_metrics_rows in HT. destruct HT as [-> HF].
  apply in_map_iff in Hr. destruct Hr as (b & <- & Hb).
  simpl. auto.
Qed.

(** C5, as the code of [analytics_data_model.py] has it.  For every row of
    the output, with [d] the exact difference between the weight timestamp
    and the episode start: week = floor(d / 7 days) + 1, and
    month = floor(d / 30.44 days) + 1 as long as [d] is at most 2^53 ns (a
    little over 104 days) on either side of the start, the same 1-based
    convention on both.  Beyond, the quotient is rounded to a float64
    number before the floor is taken, and the month index is that value or
    one more.  A negative [d] yields an index that is at most 0 (not always
    a negative one), and nothing is clamped: the index is negative as soon
    as [d] is more than one bucket before the start. *)
Theorem cohort_indices_one_based
        us ws ts cohort gender min_age max_age clinic out r :
  analytics_data_model.data_pipeline us ws ts cohort gender min_age max_age
                                     clinic = inr out ->
  In r out ->
  exists wc st m,
    Weights_CreatedDate (base r) = Some wc
    /\ Treatment_StartDate (base r) = Some st
    /\ week r = Some (spec_week_index (wc - st) + 1)
    /\ month r = Some m
    /\ (Z.abs (wc - st) <= 2 ^ 53 -> m = spec_month_index (wc - st) + 1)
    /\ (Z.abs (wc - st) <= 2 ^ 63 ->
        spec_month_index (wc - st) + 1 <= m
        <= spec_month_index (wc - st) + 2)
    /\ (wc - st < 0 -> m <= 0 /\ spec_week_index (wc - st) + 1 <= 0)
    /\ (wc - st < - Timedelta_30_44 -> m < 0)
    /\ (wc - st < - (7 * day) -> spec_week_index (wc - st) + 1 < 0).
Proof.
  intros H Hr.
  destruct (analytics_row _ _ _ _ _ _ _ _ _ _ H Hr) as (Hb & E & HF).
  rewrite Forall_forall in HF.
  destruct (datediff_Some _ (HF _ Hb)) as (wc & st & Hwc & Hst & Hd).
  exists wc, st, (float_month (wc - st)).
  split; [assumption|]. split; [assumption|].
  split; [rewrite E; simpl; now apply week1_spec|].
  split; [rewrite E; simpl; now apply month1_float|].
  split; [apply float_month_exact|].
  split; [apply float_month_band|].
  rewrite spec_week_index_div. unfold day.
  assert (B2 : wc - st < 0 -> (wc - st) / 86400000000000 / 7 < 0).
  { intro. apply Z.div_lt_upper_bound; [lia|].
    assert ((wc - st) / 86400000000000 < 0)
      by (apply Z.div_lt_upper_bound; lia). lia. }
  assert (B4 : wc - st < - (7 * 86400000000000) ->
               (wc - st) / 86400000000000 / 7 < -1).
  { intro. apply Z.div_lt_upper_bound; [lia|].
    assert ((wc - st) / 86400000000000 < -7)
      by (apply Z.div_lt_upper_bound; lia). lia. }
  split; [intro Hn; split; [|apply B2 in Hn; lia]|].
  - assert (M : float_month (wc - st) <= float_month (-1))
      by (apply float_month_mono; lia).
    change (float_month (-1)) with 0 in M. exact M.
  - split; [intro Hn | intro Hn; apply B4 in Hn; lia].
    assert (M : float_month (wc - st)
                <= float_month (- Timedelta_30_44 - 1))
      by (apply float_month_mono; lia).
    assert (V : float_month (- Timedelta_30_44 - 1) = -1)
      by (vm_compute; reflexivity).
    lia.
Qed.

Lemma cohort_indices_one_based_witness :
  run_analytics [alice] loss_weights = inr loss_out
  /\ In loss_first loss_out
  /\ exists wc st m,
      Weights_CreatedDate (base loss_first) = Some wc
      /\ Treatment_StartDate (base loss_first) = Some st
      /\ week loss_first = Some (spec_week_index (wc - st) + 1)
      /\ month loss_first = Some m
      /\ (Z.abs (wc - st) <= 2 ^ 53 -> m = spec_month_index (wc - st) + 1)
      /\ (Z.abs (wc - st) <= 2 ^ 63 ->
          spec_month_index (wc - st) + 1 <= m
          <= spec_month_index (wc - st) + 2)
      /\ (wc - st < 0 -> m <= 0 /\ spec_week_index (wc - st) + 1 <= 0)
      /\ (wc - st < - Timedelta_30_44 -> m < 0)
      /\ (wc - st < - (7 * day) -> spec_week_index (wc - st) + 1 < 0).
Proof.
  assert (H1 : run_analytics [alice] loss_weights = inr loss_out)
    by (vm_compute; reflexivity).
  assert (H2 : In loss_first loss_out) by (left; reflexivity).
  split; [exact H1|]. split; [exact H2|].
  exact (cohort_indices_one_based _ _ _ _ _ _ _ _ _ _ H1 H2).
Defined.

(** A weigh-in one day before the episode start: the day difference is
    negative and both indices are 0. *)
Lemma early_weigh_in_has_index_zero :
  exists out,
    run_analytics [alice] [weigh_ 1 (Some 70) (-1)] = inr out
    /\ map (fun r => (datediff (base r), week r, month r)) out
       = [(Some (- day), Some 0, Some 0)].
Proof.
  eexists. split; vm_compute; reflexivity.
Qed.

(** One nanosecond before the end of the tenth month of 30.44 days the
    float64 quotient is rounded to 10.0, and the month index is 11 where
    the exact quotient gives 10. *)
Example month_rounds_up_before_a_boundary :
  exists out,
    run_analytics
      [alice]
      [weights.mk (Some 1) (Some 70) (Some (10 * Timedelta_30_44 - 1))
                  (Some (10 * Timedelta_30_44 - 1)) (Some true) (Some false)]
    = inr out
    /\ map month out = [Some 11]
    /\ spec_month_index (10 * Timedelta_30_44 - 1) + 1 = 10.
Proof.
  eexists. split; [|split]; vm_compute; reflexivity.
Qed.

(** [pandas_DataModel.py] divides whole days by 30.417 and adds nothing:
    1521 days after the start the month index is 50, where the formula with
    30.44 gives 49. *)
Example pandas_month_index_differs :
  exists out,
    pandas_DataModel.data_pipeline [alice] [weigh_ 1 (Some 70) 1521]
      [episode_alice] month_c "all" 18 72 5066 = inr out
    /\ map month out = [Some 50]
    /\ spec_month_index (1521 * day) = 49.
Proof.
  eexists. split; [|split]; vm_compute; reflexivity.
Qed.

(** ** weigh_in_rate *)

Lemma length_filter_map_filter {X V} (p : X -> bool) (q : V -> bool)
      (f : X -> V) l :
  List.length (filter q (map f (filter p l)))
  = List.length (filter (fun x => p x && q (f x)) l).
Proof.
  induction l as [|x l IH]; simpl; [reflexivity|].
  destruct (p x); simpl; [|assumption].
  destruct (q (f x)); simpl; now rewrite IH.
Qed.

Lemma filter_map_swap {X Y} (p : Y -> bool) (f : X -> Y) l :
  filter p (map f l) = map f (filter (fun x => p (f x)) l).
Proof.
  induction l as [|x l IH]; simpl; [reflexivity|].
  destruct (p (f x)); simpl; now rewrite IH.
Qed.

(** The cohort key read off a row of the frame is the key of its merged
    row. *)
Lemma by_cohort_row_metrics sign cohort S b :
  pd.group_key (by_cohort cohort (row_metrics month1 week1 sign cohort S b))
  = key_cohort month1 week1 cohort b.
Proof. destruct cohort; reflexivity. Qed.

(** C8. For every cohort group (patient, treatment type, episode start,
    cohort value), weigh_in_rate on every row of the group is the number of
    rows of the frame that are in that exact group and have a weight-record
    update timestamp. *)
Theorem weigh_in_rate_counts_updates
        us ws ts cohort gender min_age max_age clinic out r k :
  analytics_data_model.data_pipeline us ws ts cohort gender min_age max_age
                                     clinic = inr out ->
  In r out ->
  pd.group_key (by_cohort cohort r) = Some k ->
  exists T,
    analytics_data_model.metrics us ws ts cohort = inr T
    /\ In r T
    /\ weigh_in_rate r
       = Some (Z.of_nat
                 (List.length
                    (filter (fun r' =>
                               pd.in_group k (pd.group_key (by_cohort cohort r'))
                               && pd.notna (Weights_UpdatedDate (base r')))
                            T))).
Proof.
  intros H Hr Hk.
  destruct (analytics_pipeline_rows _ _ _ _ _ _ _ _ _ H) as (T & HT & Hin).
  exists T. split; [assumption|]. split; [now apply Hin|].
  apply Hin in Hr.
  destruct (analytics_metrics_rows _ _ _ _ _ HT) as [-> _].
  apply in_map_iff in Hr. destruct Hr as (b & <- & Hb).
  rewrite by_cohort_row_metrics in Hk.
  cbn [weigh_in_rate row_metrics]. unfold broadcast. rewrite Hk.
  unfold pd.count, group_rows.
  rewrite length_filter_map_filter, filter_map_swap, length_map.
  reflexivity.
Qed.

Lemma weigh_in_rate_counts_updates_witness :
  run_analytics [alice] loss_weights = inr loss_out
  /\ In loss_first loss_out
  /\ pd.group_key (by_cohort week_c loss_first) = Some [1; 1; 0; 1]
  /\ weigh_in_rate loss_first = Some 1.
Proof.
  assert (H1 : run_analytics [alice] loss_weights = inr loss_out)
    by (vm_compute; reflexivity).
  assert (H2 : In loss_first loss_out) by (left; reflexivity).
  assert (H3 : pd.group_key (by_cohort week_c loss_first) = Some [1; 1; 0; 1])
    by reflexivity.
  split; [exact H1|]. split; [exact H2|]. split; [exact H3|].
  destruct (weigh_in_rate_counts_updates _ _ _ _ _ _ _ _ _ _ _ H1 H2 H3)
    as (T & HT & _ & E).
  rewrite E.
  assert (ET : T = loss_out).
  { assert (E' : analytics_data_model.metrics [alice] loss_weights
                   [episode_alice; episode_bob] week_c = inr loss_out)
      by (vm_compute; reflexivity).
    congruence. }
  rewrite ET. reflexivity.
Defined.

(** ** First and last of a group *)

Lemma first_cons_Some {V} (x : V) l : pd.first (Some x :: l) = Some x.
Proof. reflexivity. Qed.

Lemma first_map_hd {X V} (f : X -> option V) l b x :
  hd_error l = Some b -> f b = Some x -> pd.first (map f l) = Some x.
Proof.
  destruct l as [|b' l]; simpl; [discriminate|].
  intros E Hx. inversion E; subst. now rewrite Hx.
Qed.

Lemma last_map_hd {X V} (f : X -> option V) l b x :
  hd_error (rev l) = Some b -> f b = Some x -> pd.last (map f l) = Some x.
Proof.
  unfold pd.last. rewrite <- map_rev. apply first_map_hd.
Qed.

(** The first row of a sorted frame restricted to some rows comes before
    every row of the restriction. *)
Lemma sorted_filter_hd (p : Row -> bool) S b0 b :
  StronglySorted row_le S ->
  hd_error (filter p S) = Some b0 ->
  In b (filter p S) ->
  row_le b0 b.
Proof.
  intros HS. induction HS as [|a S HS IH Ha]; simpl; [discriminate|].
  destruct (p a) eqn:E; simpl.
  - intros E0 [->|Hb]; inversion E0; subst.
    + apply key_le_refl.
    + apply filter_In in Hb. rewrite Forall_forall in Ha. apply Ha. tauto.
  - assumption.
Qed.

(** [groupby(['UID'])]: the group of a row is the patient's row-set. *)
Lemma group_rows_patient S b :
  group_rows S key_patient [UID b] = rows_of_patient (UID b) S.
Proof.
  unfold group_rows, rows_of_patient. apply filter_ext. intro b'.
  unfold key_patient.
  destruct (Z.eqb_spec (UID b') (UID b)) as [E'|E'].
  - apply in_group_true. simpl. now rewrite E'.
  - apply not_true_is_false. rewrite in_group_true. simpl.
    intro E. inversion E. congruence.
Qed.

(** ** patient_starting_weight *)

Lemma rows_of_patient_In uid S b :
  In b (rows_of_patient uid S) <-> In b S /\ UID b = uid.
Proof. unfold rows_of_patient. rewrite filter_In, Z.eqb_eq. tauto. Qed.

Lemma hd_error_In {X} (l : list X) x : hd_error l = Some x -> In x l.
Proof. destruct l; simpl; [discriminate|]. intro E; inversion E; now left. Qed.

Lemma In_hd_error {X} (l : list X) x : In x l -> exists y, hd_error l = Some y.
Proof. destruct l; simpl; [tauto|]. intros _. now eexists. Qed.

(** The first row of a patient's row-set carries the patient's
    chronologically first weight record. *)
Lemma first_row_of_patient us ws ts uid b0 :
  hd_error (rows_of_patient uid (sorted_frame us ws ts)) = Some b0 ->
  datediff b0 <> None ->
  exists w0,
    In w0 ws /\ weight_of ws uid w0 = true
    /\ Weight b0 = weights.Weight w0
    /\ forall w, In w ws -> weight_of ws uid w = true -> chrono_le w0 w.
Proof.
  intros Hhd Hd.
  pose proof (hd_error_In _ _ Hhd) as Hin.
  apply rows_of_patient_In in Hin. destruct Hin as [Hin Huid].
  apply sorted_frame_In, merge_In in Hin.
  destruct Hin as (u & ow & ot & Hu & -> & How & Hot).
  simpl in Huid. subst uid.
  destruct (datediff_Some _ Hd) as (wc & st & Hwc & Hst & _).
  destruct ow as [w0|]; [|discriminate Hwc].
  destruct ot as [t0|]; [|discriminate Hst].
  destruct How as [Hw0 Hk0].
  exists w0. split; [assumption|]. split; [assumption|].
  split; [reflexivity|].
  intros w Hw Hk.
  assert (Hb' : In (pd.joined (u, Some w) (Some t0))
                   (rows_of_patient (users.UID u) (sorted_frame us ws ts))).
  { apply rows_of_patient_In. split; [|reflexivity].
    apply sorted_frame_In, merge_In. exists u, (Some w), (Some t0).
    split; [assumption|]. split; [reflexivity|]. split; [|assumption].
    split; assumption. }
  pose proof (sorted_filter_hd _ _ _ _ (sorted_frame_sorted us ws ts)
                               Hhd Hb') as Hle.
  unfold row_le, sort_by in Hle. simpl in Hle.
  rewrite !key_le_cons in Hle. exact Hle.
Qed.

(** C3, as the code has it.  On every row of patient P,
    patient_starting_weight is the first weight value present in P's sorted
    row-set.  The first row of that row-set carries P's chronologically
    first weight record (least creation time, then update time, over all
    episodes), so patient_starting_weight is the weight of that record
    whenever the record has a weight value.  P's weight records are those
    that the merge joins to P ([weight_of]). *)
Theorem patient_starting_weight_first_valid
        us ws ts cohort gender min_age max_age clinic out r :
  analytics_data_model.data_pipeline us ws ts cohort gender min_age max_age
                                     clinic = inr out ->
  In r out ->
  patient_starting_weight r
  = pd.first (map Weight (rows_of_patient (UID (base r))
                                          (sorted_frame us ws ts)))
  /\ exists b0 w0,
      hd_error (rows_of_patient (UID (base r)) (sorted_frame us ws ts))
      = Some b0
      /\ In w0 ws /\ weight_of ws (UID (base r)) w0 = true
      /\ Weight b0 = weights.Weight w0
      /\ (forall w, In w ws -> weight_of ws (UID (base r)) w = true ->
                    chrono_le w0 w)
      /\ (forall x, weights.Weight w0 = Some x ->
                    patient_starting_weight r = Some x).
Proof.
  intros H Hr.
  destruct (analytics_row _ _ _ _ _ _ _ _ _ _ H Hr) as (Hb & E & HF).
  assert (EP : patient_starting_weight r
               = pd.first (map Weight (rows_of_patient (UID (base r))
                                         (sorted_frame us ws ts)))).
  { rewrite E at 1. cbn [patient_starting_weight row_metrics].
    unfold broadcast.
    change (key_patient (base r)) with (Some [UID (base r)]).
    cbv beta iota. now rewrite group_rows_patient. }
  split; [exact EP|].
  assert (HinP : In (base r) (rows_of_patient (UID (base r))
                                              (sorted_frame us ws ts)))
    by (apply rows_of_patient_In; auto).
  destruct (In_hd_error _ _ HinP) as (b0 & Hhd).
  assert (Hd0 : datediff b0 <> None).
  { rewrite Forall_forall in HF. apply HF.
    apply hd_error_In, rows_of_patient_In in Hhd. tauto. }
  destruct (first_row_of_patient _ _ _ _ _ Hhd Hd0)
    as (w0 & Hw0 & Hk0 & HW & Hmin).
  exists b0, w0. repeat (split; [assumption|]).
  intros x Hx. rewrite EP.
  apply first_map_hd with b0; [assumption | congruence].
Qed.

Lemma patient_starting_weight_first_valid_witness :
  run_analytics [alice] loss_weights = inr loss_out
  /\ In loss_first loss_out
  /\ (patient_starting_weight loss_first
      = pd.first (map Weight
                      (rows_of_patient (UID (base loss_first))
                         (sorted_frame [alice] loss_weights
                                       [episode_alice; episode_bob])))
      /\ exists b0 w0,
          hd_error (rows_of_patient (UID (base loss_first))
                      (sorted_frame [alice] loss_weights
                                    [episode_alice; episode_bob]))
          = Some b0
          /\ In w0 loss_weights
          /\ weight_of loss_weights (UID (base loss_first)) w0 = true
          /\ Weight b0 = weights.Weight w0
          /\ (forall w, In w loss_weights ->
                        weight_of loss_weights (UID (base loss_first)) w
                        = true ->
                        chrono_le w0 w)
          /\ (forall x, weights.Weight w0 = Some x ->
                        patient_starting_weight loss_first = Some x)).
Proof.
  assert (H1 : run_analytics [alice] loss_weights = inr loss_out)
    by (vm_compute; reflexivity).
  assert (H2 : In loss_first loss_out) by (left; reflexivity).
  split; [exact H1|]. split; [exact H2|].
  exact (patient_starting_weight_first_valid _ _ _ _ _ _ _ _ _ _ H1 H2).
Defined.

(** The chronologically first weight record of Alice has no weight value:
    patient_starting_weight is 70, the weight of her second record. *)
Lemma starting_weight_skips_missing_weight :
  exists out,
    run_analytics [alice] [weigh_ 1 None 1; weigh_ 1 (Some 70) 9] = inr out
    /\ map (fun r => (Weights_CreatedDate (base r), Weight (base r),
                      patient_starting_weight r)) out
       = [(day_ 1, None, Some 70); (day_ 9, Some 70, Some 70)].
Proof.
  eexists. split; vm_compute; reflexivity.
Qed.

(** ** treatment_starting_weight and treatment_TBWL *)

(** X19. In [analytics_data_model.py], for every episode E (patient,
    treatment type, episode start), on every row of E:
    treatment_starting_weight is the first weight value present in E's
    sorted row-set, and treatment_TBWL is the last weight value present in
    it minus treatment_starting_weight, ending minus starting, so that a
    loss comes out negative.  These are the weights of the last and of the
    first row of E whenever those two rows have a weight value. *)
Theorem treatment_TBWL_last_minus_first
        us ws ts cohort gender min_age max_age clinic out r k :
  analytics_data_model.data_pipeline us ws ts cohort gender min_age max_age
                                     clinic = inr out ->
  In r out ->
  pd.group_key (by_treatment r) = Some k ->
  treatment_starting_weight r
  = pd.first (map Weight (group_rows (sorted_frame us ws ts) key_treatment k))
  /\ treatment_TBWL r
     = pd.sub
         (pd.last (map Weight
                       (group_rows (sorted_frame us ws ts) key_treatment k)))
         (treatment_starting_weight r)
  /\ forall b0 b1 x y,
      hd_error (group_rows (sorted_frame us ws ts) key_treatment k) = Some b0 ->
      hd_error (rev (group_rows (sorted_frame us ws ts) key_treatment k))
      = Some b1 ->
      Weight b0 = Some x -> Weight b1 = Some y ->
      treatment_starting_weight r = Some x
      /\ treatment_TBWL r = Some (y - x).
Proof.
  intros H Hr Hk.
  destruct (analytics_row _ _ _ _ _ _ _ _ _ _ H Hr) as (Hb & E & HF).
  assert (Hk' : key_treatment (base r) = Some k) by exact Hk.
  assert (E1 : treatment_starting_weight r
               = pd.first (map Weight (group_rows (sorted_frame us ws ts)
                                                  key_treatment k))).
  { rewrite E at 1. cbn [treatment_starting_weight row_metrics].
    unfold broadcast. now rewrite Hk'. }
  assert (E2 : treatment_TBWL r
               = pd.sub (pd.last (map Weight
                                      (group_rows (sorted_frame us ws ts)
                                                  key_treatment k)))
                        (treatment_starting_weight r)).
  { rewrite E1. rewrite E at 1. cbn [treatment_TBWL row_metrics].
    unfold broadcast. now rewrite Hk'. }
  split; [exact E1|]. split; [exact E2|].
  intros b0 b1 x y H0 H1 Hx Hy.
  assert (E3 : treatment_starting_weight r = Some x)
    by (rewrite E1; now apply first_map_hd with b0).
  split; [exact E3|].
  rewrite E2, E3. now rewrite (last_map_hd _ _ _ _ H1 Hy).
Qed.

Lemma treatment_TBWL_last_minus_first_witness :
  run_analytics [alice] loss_weights = inr loss_out
  /\ In loss_first loss_out
  /\ pd.group_key (by_treatment loss_first) = Some [1; 1; 0]
  /\ treatment_starting_weight loss_first = Some 70
  /\ treatment_TBWL loss_first = Some (68 - 70).
Proof.
  assert (H1 : run_analytics [alice] loss_weights = inr loss_out)
    by (vm_compute; reflexivity).
  assert (H2 : In loss_first loss_out) by (left; reflexivity).
  assert (H3 : pd.group_key (by_treatment loss_first) = Some [1; 1; 0])
    by reflexivity.
  split; [exact H1|]. split; [exact H2|]. split; [exact H3|].
  destruct (treatment_TBWL_last_minus_first _ _ _ _ _ _ _ _ _ _ _ H1 H2 H3)
    as (_ & _ & Hxy).
  apply (Hxy (base loss_first)
             (pd.joined (alice, Some (weigh_ 1 (Some 68) 9))
                        (Some episode_alice)));
    vm_compute; reflexivity.
Defined.

(** C7 on the code.  The first weight record of Alice's episode has an
    empty weight cell, the next ones hold 70 and 68: the weight value of
    the first row of the episode is missing, and so is the claim's
    difference.  [polars_DataModel.py], whose [first()] keeps nulls,
    returns a missing treatment_TBWL; the two pandas files, whose
    ['first'] skips missing values, take 70 as the starting weight and
    return 68 - 70 = -2. *)
Theorem treatment_TBWL_on_a_missing_first_weight :
  (exists out,
      run_analytics [alice] unweighed_first = inr out
      /\ map shown_treatment_TBWL out
         = [(None, Some 70, Some (-2)); (Some 70, Some 70, Some (-2));
            (Some 68, Some 70, Some (-2))])
  /\ (exists out,
         pandas_DataModel.data_pipeline
           [alice] unweighed_first [episode_alice; episode_bob]
           week_c "all" 18 72 5066 = inr out
         /\ map shown_treatment_TBWL out
            = [(None, Some 70, Some (-2)); (Some 70, Some 70, Some (-2));
               (Some 68, Some 70, Some (-2))])
  /\ map shown_treatment_TBWL
         (polars_DataModel.data_pipeline
            [alice] unweighed_first [episode_alice; episode_bob]
            week_c "all" 18 72 5066)
     = [(None, None, None); (Some 70, None, None); (Some 68, None, None)].
Proof.
  repeat split; try (eexists; split); vm_compute; reflexivity.
Qed.

(** ** The last cohort group of an episode *)

(** C2 on the code.  Alice and Bob have one episode and one weigh-in each
    (70 and 80, both in the first week): Alice's only, hence last, cohort
    group gets patient_TBWL = -(70 - 80) = 10, computed against Bob's
    weight, in place of a missing value; the other two files return
    70 - 80.  With two weigh-ins of Alice in one week (70, then 68) and
    nothing after them, patient_TBWL of that last cohort group is 0. *)
Theorem last_cohort_group_not_missing :
  (exists out,
      run_analytics [alice; bob] [weigh_ 1 (Some 70) 1; weigh_ 2 (Some 80) 1]
      = inr out
      /\ map (fun r => (UID (base r), week r, patient_TBWL r)) out
         = [(1, Some 1, Some 10); (2, Some 1, None)])
  /\ (exists out,
         run_analytics [alice] [weigh_ 1 (Some 70) 1; weigh_ 1 (Some 68) 2]
         = inr out
         /\ map (fun r => (UID (base r), week r, patient_TBWL r)) out
            = [(1, Some 1, Some 0); (1, Some 1, Some 0)])
  /\ (exists out,
         pandas_DataModel.data_pipeline
           [alice; bob] [weigh_ 1 (Some 70) 1; weigh_ 2 (Some 80) 1]
           [episode_alice; episode_bob] week_c "all" 18 72 5066 = inr out
         /\ map (fun r => (UID (base r), week r, patient_TBWL r)) out
            = [(1, Some 0, Some (-10)); (2, Some 0, None)])
  /\ map (fun r => (UID (base r), week r, patient_TBWL r))
         (polars_DataModel.data_pipeline
            [alice; bob] [weigh_ 1 (Some 70) 1; weigh_ 2 (Some 80) 1]
            [episode_alice; episode_bob] week_c "all" 18 72 5066)
     = [(1, Some 0, Some (-10)); (2, Some 0, None)].
Proof.
  repeat split; try (eexists; split); vm_compute; reflexivity.
Qed.

(** ** The final deduplication *)

(** C9 on the code.  [polars_DataModel.py] returns the filtered frame as it
    is: with a weight record that occurs twice in the table, the returned
    frame holds the same row twice, where the two pandas files return it
    once. *)
Theorem polars_returns_duplicate_rows :
  (exists r,
      polars_DataModel.data_pipeline
        [alice] [weigh_ 1 (Some 70) 1; weigh_ 1 (Some 70) 1] [episode_alice]
        week_c "all" 18 72 5066 = [r; r])
  /\ ~ NoDup (polars_DataModel.data_pipeline
                [alice] [weigh_ 1 (Some 70) 1; weigh_ 1 (Some 70) 1]
                [episode_alice] week_c "all" 18 72 5066)
  /\ (exists r,
         analytics_data_model.data_pipeline
           [alice] [weigh_ 1 (Some 70) 1; weigh_ 1 (Some 70) 1]
           [episode_alice] week_c "all" 18 72 5066 = inr [r])
  /\ (exists r,
         pandas_DataModel.data_pipeline
           [alice] [weigh_ 1 (Some 70) 1; weigh_ 1 (Some 70) 1]
           [episode_alice] week_c "all" 18 72 5066 = inr [r]).
Proof.
  assert (E : exists r,
             polars_DataModel.data_pipeline
               [alice] [weigh_ 1 (Some 70) 1; weigh_ 1 (Some 70) 1]
               [episode_alice] week_c "all" 18 72 5066 = [r; r])
    by (eexists; vm_compute; reflexivity).
  split; [exact E|]. split.
  - destruct E as [r ->]. intro ND. inversion ND as [|? ? Hn _]; subst.
    apply Hn. now left.
  - split; eexists; vm_compute; reflexivity.
Qed.

(** ** Forward differences and grouped maxima *)

Lemma diff_m1_nth s i :
  nth_error (pd.diff_m1 s) i
  = match nth_error s i with
    | Some a => Some (pd.sub a match nth_error s (S i) with
                               | Some b => b
                               | None => None
                               end)
    | None => None
    end.
Proof.
  revert i; induction s as [|a s IH]; intros [|i]; simpl; try reflexivity.
  - now destruct s.
  - apply IH.
Qed.

Lemma group_values_In {V} k keys (col : list V) v :
  In v (pd.group_values k keys col) <->
  exists i, nth_error keys i = Some (Some k) /\ nth_error col i = Some v.
Proof.
  unfold pd.group_values. revert col.
  induction keys as [|ok keys IH]; intros [|c col]; simpl.
  - split; [tauto|]. intros ([|i] & H & _); discriminate.
  - split; [tauto|]. intros ([|i] & H & _); discriminate.
  - split; [tauto|]. intros ([|i] & _ & H); discriminate.
  - destruct (pd.in_group k ok) eqn:E; simpl.
    + apply in_group_true in E. subst ok. rewrite IH. split.
      * intros [->|(i & H1 & H2)]; [now exists 0%nat | now exists (S i)].
      * intros ([|i] & H1 & H2); simpl in *.
        -- left. congruence.
        -- right. now exists i.
    + rewrite IH. split.
      * intros (i & H1 & H2). now exists (S i).
      * intros ([|i] & H1 & H2); simpl in *.
        -- inversion H1; subst. rewrite in_group_refl in E. discriminate.
        -- now exists i.
Qed.

Lemma max_Some l m :
  pd.max l = Some m ->
  In (Some m) l /\ forall z, In (Some z) l -> z <= m.
Proof.
  revert m; induction l as [|v l IH]; simpl; intros m H; [discriminate|].
  destruct v as [x|].
  - destruct (pd.max l) as [y|] eqn:E.
    + inversion H; subst. destruct (IH y eq_refl) as [Hin Hle]. split.
      * destruct (Z.max_spec x y) as [[_ ->]|[_ ->]]; auto.
      * intros z [Hz|Hz]; [inversion Hz; lia|].
        apply Hle in Hz. lia.
    + inversion H; subst. split; [now left|].
      intros z [Hz|Hz]; [inversion Hz; lia|].
      exfalso. clear -E Hz. induction l as [|v l IHl]; [destruct Hz|].
      simpl in E. destruct v as [x|], (pd.max l); try discriminate.
      destruct Hz as [Hz|Hz]; [discriminate | now apply IHl].
  - destruct (IH m H) as [Hin Hle]. split; [now right|].
    intros z [Hz|Hz]; [discriminate | now apply Hle].
Qed.

Lemma max_defined l z : In (Some z) l -> exists m, pd.max l = Some m.
Proof.
  induction l as [|v l IH]; simpl; [tauto|].
  intros [->|H].
  - destruct (pd.max l); now eexists.
  - destruct (IH H) as [m ->]. destruct v; now eexists.
Qed.

(** Rows in order: an earlier row of a sorted frame is below a later one. *)
Lemma sorted_nth S i j a b :
  StronglySorted row_le S ->
  nth_error S i = Some a -> nth_error S j = Some b -> (i < j)%nat ->
  row_le a b.
Proof.
  intro HS. revert i j.
  induction HS as [|x S HS IH Hx]; intros [|i] [|j]; simpl;
    try discriminate; try lia.
  - intros E Hb _. inversion E; subst.
    rewrite Forall_forall in Hx. apply Hx. eapply nth_error_In; eauto.
  - intros Ha Hb Hlt. apply (IH i j); auto; lia.
Qed.

(** ** patient_TBWL of a cohort group followed by the next one *)

Section Followed.

Variable mo we : Row -> option Z.
Variable cohort : cohort_t.
Variable S : list Row.
Variable k k' : list Z.
Variable x y : Z.

Hypothesis distinct : k <> k'.
Hypothesis followed : followed_within mo we cohort S k k'.
Hypothesis first_k : cohort_group_first_weight mo we cohort S k = Some x.
Hypothesis first_k' : cohort_group_first_weight mo we cohort S k' = Some y.

Lemma cohort_first_weight_nth i b :
  nth_error S i = Some b ->
  nth_error (cohort_first_weight mo we cohort S) i
  = Some (match key_cohort mo we cohort b with
          | Some g => cohort_group_first_weight mo we cohort S g
          | None => None
          end).
Proof.
  intro H. unfold cohort_first_weight. rewrite nth_error_map, H. reflexivity.
Qed.

(** The forward difference on a row of [k]: 0 inside the group, [x - y] on
    a row followed by a row of [k']. *)
Lemma wgt_diff_in_group i b :
  nth_error S i = Some b -> key_cohort mo we cohort b = Some k ->
  exists b',
    nth_error S (i + 1) = Some b'
    /\ ((key_cohort mo we cohort b' = Some k
         /\ nth_error (wgt_diff_col mo we cohort S) i = Some (Some 0))
        \/ (key_cohort mo we cohort b' = Some k'
            /\ nth_error (wgt_diff_col mo we cohort S) i
               = Some (Some (x - y)))).
Proof.
  intros Hi Hk. destruct (followed i b Hi Hk) as (b' & Hi' & Hk').
  exists b'. split; [assumption|].
  unfold wgt_diff_col. rewrite diff_m1_nth.
  rewrite (cohort_first_weight_nth _ _ Hi).
  replace (Datatypes.S i) with (i + 1)%nat by lia.
  rewrite (cohort_first_weight_nth _ _ Hi').
  rewrite Hk, first_k.
  destruct Hk' as [E|E]; [left | right]; (split; [assumption|]);
    rewrite E, ?first_k, ?first_k'; simpl; do 2 f_equal; lia.
Qed.

(** Some row of [k] is followed by a row of [k']. *)
Lemma group_boundary n i b :
  (List.length S - i <= n)%nat ->
  nth_error S i = Some b -> key_cohort mo we cohort b = Some k ->
  exists j bj bj',
    nth_error S j = Some bj /\ key_cohort mo we cohort bj = Some k
    /\ nth_error S (j + 1) = Some bj'
    /\ key_cohort mo we cohort bj' = Some k'.
Proof.
  revert i b; induction n as [|n IH]; intros i b Hn Hi Hk.
  - exfalso. assert (i < List.length S)%nat
      by (apply nth_error_Some; congruence). lia.
  - destruct (followed i b Hi Hk) as (b' & Hi' & [E|E]).
    + apply (IH (i + 1)%nat b'); auto.
      assert (i < List.length S)%nat by (apply nth_error_Some; congruence).
      lia.
    + now exists i, b, b'.
Qed.

Lemma grouped_wgt_diff_values :
  (exists i b, nth_error S i = Some b
               /\ key_cohort mo we cohort b = Some k) ->
  let diffs := pd.group_values k (map (key_cohort mo we cohort) S)
                               (wgt_diff_col mo we cohort S) in
  In (Some (x - y)) diffs
  /\ forall v, In v diffs -> v = Some 0 \/ v = Some (x - y).
Proof.
  intros (i & b & Hi & Hk) diffs. subst diffs. split.
  - destruct (group_boundary _ i b (Nat.le_refl _) Hi Hk)
      as (j & bj & bj' & Hj & Hkj & Hj' & Hkj').
    apply group_values_In. exists j. split.
    + rewrite nth_error_map, Hj. simpl. now rewrite Hkj.
    + destruct (wgt_diff_in_group j bj Hj Hkj) as (b2 & Hb2 & [[E D]|[E D]]);
        [|exact D].
      exfalso. rewrite Hj' in Hb2. inversion Hb2; subst.
      rewrite E in Hkj'. inversion Hkj'. now apply distinct.
  - intros v Hv. apply group_values_In in Hv. destruct Hv as (j & Hkj & Hv).
    rewrite nth_error_map in Hkj.
    destruct (nth_error S j) as [bj|] eqn:Hj; [|discriminate].
    simpl in Hkj. inversion Hkj as [Hkj'].
    destruct (wgt_diff_in_group j bj Hj Hkj') as (b2 & _ & [[_ D]|[_ D]]);
      rewrite D in Hv; inversion Hv; auto.
Qed.

(** The grouped maximum, and its sign. *)
Lemma grouped_wgt_diff_max :
  (exists i b, nth_error S i = Some b
               /\ key_cohort mo we cohort b = Some k) ->
  exists m,
    pd.max (pd.group_values k (map (key_cohort mo we cohort) S)
                            (wgt_diff_col mo we cohort S))
    = Some m
    /\ (m = x - y \/ (m = 0 /\ x - y <= 0)).
Proof.
  intro Hex. destruct (grouped_wgt_diff_values Hex) as [Hin Hall].
  destruct (max_defined _ _ Hin) as [m Hm]. exists m. split; [assumption|].
  destruct (max_Some _ _ Hm) as [Hmin Hle].
  apply Hle in Hin. apply Hall in Hmin.
  destruct Hmin as [E|E]; inversion E; subst; [right; lia | now left].
Qed.

End Followed.

(** ** Cohort groups in the sorted frame *)

Lemma NoDup_map_injective {X Y} (f : X -> Y) l a b :
  NoDup (map f l) -> In a l -> In b l -> f a = f b -> a = b.
Proof.
  induction l as [|c l IH]; simpl; [tauto|].
  intros ND [->|Ha] [->|Hb] E; inversion ND as [|? ? Hn ND']; subst; auto.
  - exfalso. apply Hn. rewrite E. now apply in_map.
  - exfalso. apply Hn. rewrite <- E. now apply in_map.
Qed.

(** With unique patient keys, rows of one patient carry one user. *)
Lemma same_patient_same_user us ws ts b b' :
  NoDup (map users.UID us) ->
  In b (pd.merge us ws ts) -> In b' (pd.merge us ws ts) ->
  UID b = UID b' ->
  UIDCreatedDate b = UIDCreatedDate b' /\ ClinicID b = ClinicID b'.
Proof.
  intros ND Hb Hb' E.
  apply merge_In in Hb, Hb'.
  destruct Hb as (u & ow & ot & Hu & -> & _).
  destruct Hb' as (u' & ow' & ot' & Hu' & -> & _).
  simpl in *.
  assert (u = u') by (apply (NoDup_map_injective users.UID us); auto).
  now subst.
Qed.

Lemma key_cohort_Some mo we cohort b uid ty st cv :
  key_cohort mo we cohort b = Some [uid; ty; st; cv] <->
  UID b = uid /\ TreatmentTypeID b = Some ty
  /\ Treatment_StartDate b = Some st /\ cohort_of mo we cohort b = Some cv.
Proof.
  unfold key_cohort. simpl.
  destruct (TreatmentTypeID b), (Treatment_StartDate b),
    (cohort_of mo we cohort b); split;
    try discriminate; try (intros (_ & H1 & H2 & H3); discriminate).
  - intro H. inversion H. auto.
  - intros (-> & H1 & H2 & H3). congruence.
Qed.

(** The cohort index does not decrease with the weigh-in time. *)
Lemma cohort_of_mono cohort b b' st wc wc' c c' :
  Treatment_StartDate b = Some st -> Treatment_StartDate b' = Some st ->
  Weights_CreatedDate b = Some wc -> Weights_CreatedDate b' = Some wc' ->
  ClinicID b = ClinicID b' ->
  wc <= wc' ->
  cohort_of month1 week1 cohort b = Some c ->
  cohort_of month1 week1 cohort b' = Some c' ->
  c <= c'.
Proof.
  intros Hs Hs' Hw Hw' Hc Hle.
  unfold cohort_of, month1, week1, td_div, dt_days, datediff.
  rewrite Hs, Hs', Hw, Hw'. simpl pd.sub. cbv iota.
  destruct cohort; intros E E'.
  - inversion E; inversion E'; subst.
    apply Z.add_le_mono_r. apply Z.div_le_mono; [lia|].
    apply Z.div_le_mono; [unfold day|]; lia.
  - inversion E; inversion E'; subst.
    apply (float_month_mono (wc - st) (wc' - st)). lia.
  - rewrite Hc in E. rewrite E in E'. inversion E'. lia.
Qed.

Lemma cohort_of_defined cohort b b' st wc wc' c :
  Treatment_StartDate b' = Some st -> Weights_CreatedDate b' = Some wc' ->
  Treatment_StartDate b = Some st -> Weights_CreatedDate b = Some wc ->
  ClinicID b = ClinicID b' ->
  cohort_of month1 week1 cohort b = Some c ->
  exists c', cohort_of month1 week1 cohort b' = Some c'.
Proof.
  intros Hs' Hw' Hs Hw Hc.
  unfold cohort_of, month1, week1, td_div, dt_days, datediff.
  rewrite Hs', Hw'. simpl pd.sub. cbv iota.
  destruct cohort; intro E; try (now eexists).
  rewrite <- Hc, E. now eexists.
Qed.

(** A key between two keys with the same leading column has that leading
    column too. *)
Lemma key_le_sandwich a c k1 k2 k3 :
  key_le (a :: k1) (c :: k2) -> key_le (c :: k2) (a :: k3) ->
  c = a /\ key_le k1 k2 /\ key_le k2 k3.
Proof.
  intros H1 H2.
  assert (E : pd.cmp_na_last a c = Eq).
  { apply key_le_head in H1, H2. rewrite (cmp_na_last_antisym a c) in H2.
    destruct (pd.cmp_na_last a c); simpl in *; congruence. }
  apply cmp_na_last_eq in E. subst c.
  rewrite key_le_cons in H1, H2. auto.
Qed.

(** With unique patient keys and every row dated, the rows of a cohort
    group are directly followed, in the sorted frame, by rows of the same
    group or of the next cohort group of the episode. *)
Lemma next_cohort_group_followed us ws ts cohort uid ty st cv cv' :
  NoDup (map users.UID us) ->
  Forall (fun b => datediff b <> None) (sorted_frame us ws ts) ->
  next_cohort_group month1 week1 cohort (sorted_frame us ws ts)
                    uid ty st cv cv' ->
  followed_within month1 week1 cohort (sorted_frame us ws ts)
                  [uid; ty; st; cv] [uid; ty; st; cv'].
Proof.
  intros ND HF (Hlt & (bm & Hbm & Hkm) & Hgap) i b Hi Hk.
  set (S := sorted_frame us ws ts) in *.
  pose proof (sorted_frame_sorted us ws ts) as HS. fold S in HS.
  rewrite Forall_forall in HF.
  pose proof (nth_error_In _ _ Hi) as Hb.
  apply key_cohort_Some in Hk. destruct Hk as (Hu & Hty & Hst & Hcv).
  apply key_cohort_Some in Hkm. destruct Hkm as (Hum & Htym & Hstm & Hcvm).
  destruct (same_patient_same_user us ws ts b bm ND) as [Huc Hcl];
    try (now apply sorted_frame_In); try congruence.
  destruct (datediff_Some _ (HF _ Hb)) as (wc & st0 & Hwc & Hst0 & _).
  destruct (datediff_Some _ (HF _ Hbm)) as (wcm & stm & Hwcm & Hstm0 & _).
  assert (st0 = st) by congruence. assert (stm = st) by congruence.
  subst st0 stm. clear Hst0 Hstm0.
  (* the row of the next group is dated strictly later *)
  assert (Hwlt : wc < wcm).
  { destruct (Z.lt_ge_cases wc wcm) as [|Hge]; [assumption|].
    assert (cv' <= cv)
      by (apply (cohort_of_mono cohort bm b st wcm wc); auto; lia).
    lia. }
  assert (Hstrict : ~ row_le bm b).
  { unfold row_le, sort_by. rewrite Hu, Hum, Huc, Hty, Htym, Hst, Hstm,
      Hwc, Hwcm.
    rewrite !key_le_cons. unfold key_le. simpl.
    apply Z.compare_gt_iff in Hwlt. rewrite Hwlt. simpl. discriminate. }
  (* hence it sits after row i *)
  destruct (In_nth_error _ _ Hbm) as (j & Hj).
  assert (Hij : (i < j)%nat).
  { destruct (Nat.lt_trichotomy i j) as [|[E|Hgt]]; [assumption| |].
    - subst j. rewrite Hi in Hj. inversion Hj; subst.
      assert (cv = cv') by congruence. lia.
    - exfalso. apply Hstrict. now apply (sorted_nth S j i). }
  assert (Hlen : (i + 1 < List.length S)%nat).
  { assert (j < List.length S)%nat by (apply nth_error_Some; congruence).
    lia. }
  destruct (nth_error S (i + 1)) as [b'|] eqn:Hi';
    [|apply nth_error_Some in Hlen; congruence].
  exists b'. split; [reflexivity|].
  destruct (Nat.eq_dec (i + 1) j) as [E|Hne].
  { subst j. rewrite Hi' in Hj. inversion Hj; subst.
    right. apply key_cohort_Some. auto. }
  (* row i+1 lies between row i and the row of the next group *)
  assert (H1 : row_le b b') by (apply (sorted_nth S i (i + 1)); auto; lia).
  assert (H2 : row_le b' bm) by (apply (sorted_nth S (i + 1) j); auto; lia).
  unfold row_le, sort_by in H1, H2.
  rewrite Hu, Hty, Hst, Hwc in H1.
  rewrite Hum, <- Huc, Htym, Hstm, Hwcm in H2.
  destruct (key_le_sandwich _ _ _ _ _ H1 H2) as (E1 & H1a & H2a).
  destruct (key_le_sandwich _ _ _ _ _ H1a H2a) as (E2 & H1b & H2b).
  destruct (key_le_sandwich _ _ _ _ _ H1b H2b) as (E3 & H1c & H2c).
  destruct (key_le_sandwich _ _ _ _ _ H1c H2c) as (E4 & H1d & H2d).
  inversion E1 as [Hu'].
  apply key_le_head in H1d, H2d.
  destruct (Weights_CreatedDate b') as [wc'|] eqn:Hwc';
    [|simpl in H2d; congruence].
  simpl in H1d, H2d.
  assert (Hin' : In b' S) by (eapply nth_error_In; eauto).
  destruct (same_patient_same_user us ws ts b b' ND) as [_ Hcl'];
    try (now apply sorted_frame_In); try congruence.
  destruct (cohort_of_defined cohort b b' st wc wc' cv) as [c Hc]; auto.
  assert (Hle1 : wc <= wc')
    by (destruct (Z.compare_spec wc wc'); try lia; congruence).
  assert (Hle2 : wc' <= wcm)
    by (destruct (Z.compare_spec wc' wcm); try lia; congruence).
  assert (Hcl2 : ClinicID b' = ClinicID bm) by congruence.
  pose proof (cohort_of_mono cohort b b' st wc wc' cv c
                             Hst E4 Hwc Hwc' Hcl' Hle1 Hcv Hc).
  pose proof (cohort_of_mono cohort b' bm st wc' wcm c cv'
                             E4 Hstm Hwc' Hwcm Hcl2 Hle2 Hc Hcvm).
  assert (Hk' : key_cohort month1 week1 cohort b' = Some [uid; ty; st; c])
    by (apply key_cohort_Some; auto).
  destruct (Hgap b' c Hin' Hk') as [|].
  - left. assert (c = cv) by lia. subst c.
    apply key_cohort_Some. auto.
  - right. assert (c = cv') by lia. subst c.
    apply key_cohort_Some. auto.
Qed.

(** A cohort group that is not the last of its episode has a next one. *)
Lemma non_final_has_next mo we cohort S uid ty st cv n :
  forall cv2 b2,
    (Z.to_nat (cv2 - cv) <= n)%nat ->
    In b2 S -> key_cohort mo we cohort b2 = Some [uid; ty; st; cv2] ->
    cv < cv2 ->
    exists cv', next_cohort_group mo we cohort S uid ty st cv cv'.
Proof.
  induction n as [|n IH]; intros cv2 b2 Hn Hb2 Hk2 Hlt; [lia|].
  set (between := fun b =>
         match key_cohort mo we cohort b with
         | Some [u; t; s; c] =>
             (u =? uid) && (t =? ty) && (s =? st) && (cv <? c) && (c <? cv2)
         | _ => false
         end).
  destruct (existsb between S) eqn:E.
  - apply existsb_exists in E. destruct E as (b & Hb & Hbt).
    unfold between in Hbt.
    destruct (key_cohort mo we cohort b) as [[|u [|t [|s [|c [|? ?]]]]]|] eqn:Hk;
      try discriminate.
    rewrite !andb_true_iff, !Z.eqb_eq, !Z.ltb_lt in Hbt.
    destruct Hbt as ((((-> & ->) & ->) & Hc1) & Hc2).
    apply (IH c b); auto. lia.
  - exists cv2. split; [assumption|]. split; [now exists b2|].
    intros b c Hb Hk.
    destruct (Z.le_gt_cases c cv) as [|H1]; [now left|].
    destruct (Z.le_gt_cases cv2 c) as [|H2]; [now right|].
    exfalso.
    assert (Hbt : between b = true).
    { unfold between. rewrite Hk.
      rewrite !andb_true_iff, !Z.eqb_eq, !Z.ltb_lt. lia. }
    assert (existsb between S = true)
      by (apply existsb_exists; now exists b).
    congruence.
Qed.

(** ** patient_TBWL *)

(** C1 on the code.  Alice has one episode.  When she loses weight, 70 in
    week 1 and 68 in week 2, patient_TBWL of the first cohort is
    -(70 - 68) = -2 in [analytics_data_model.py], which puts a minus sign
    before the grouped maximum, and 70 - 68 = 2 in [pandas_DataModel.py] and
    [polars_DataModel.py], which do not: the three files carry the same
    comment (negative value indicates weight lost) and disagree on the
    sign.  When she gains weight and weighs in twice in her first week, 70
    and 71, then 75 in the second week, the forward differences on the two
    rows of the first cohort are 70 - 70 = 0 and 70 - 75 = -5, their
    maximum is 0, and patient_TBWL of the first cohort is 0 in the three
    files, where the difference with the first weight of the next cohort is
    5 in absolute value. *)
Theorem patient_TBWL_sign_and_gain :
  (exists out,
      run_analytics [alice] loss_weights = inr out
      /\ map shown_patient_TBWL out
         = [(Some 1, Some 70, Some (-2)); (Some 2, Some 68, None)])
  /\ (exists out,
         pandas_DataModel.data_pipeline
           [alice] loss_weights [episode_alice; episode_bob]
           week_c "all" 18 72 5066 = inr out
         /\ map shown_patient_TBWL out
            = [(Some 0, Some 70, Some 2); (Some 1, Some 68, None)])
  /\ map shown_patient_TBWL
         (polars_DataModel.data_pipeline
            [alice] loss_weights [episode_alice; episode_bob]
            week_c "all" 18 72 5066)
     = [(Some 0, Some 70, Some 2); (Some 1, Some 68, None)]
  /\ (exists out,
         run_analytics [alice] gain_weights = inr out
         /\ map shown_patient_TBWL out
            = [(Some 1, Some 70, Some 0); (Some 1, Some 71, Some 0);
               (Some 2, Some 75, None)])
  /\ (exists out,
         pandas_DataModel.data_pipeline
           [alice] gain_weights [episode_alice; episode_bob]
           week_c "all" 18 72 5066 = inr out
         /\ map shown_patient_TBWL out
            = [(Some 0, Some 70, Some 0); (Some 0, Some 71, Some 0);
               (Some 1, Some 75, None)])
  /\ map shown_patient_TBWL
         (polars_DataModel.data_pipeline
            [alice] gain_weights [episode_alice; episode_bob]
            week_c "all" 18 72 5066)
     = [(Some 0, Some 70, Some 0); (Some 0, Some 71, Some 0);
        (Some 1, Some 75, None)].
Proof.
  repeat split; try (eexists; split); vm_compute; reflexivity.
Qed.

(* ------------------------------------------------------------------ *)
(** * Further properties of the code *)

(** ** [filters] *)

Lemma str_is_true v s : str_is v s = true <-> v = Some s.
Proof.
  unfold str_is. destruct v as [x|]; [|split; discriminate].
  rewrite String.eqb_eq. split; congruence.
Qed.

Lemma age_in_range v a b :
  ge_ v a && le_ v b = true <-> exists age, v = Some age /\ a <= age <= b.
Proof.
  unfold ge_, le_. destruct v as [x|]; simpl.
  - rewrite andb_true_iff, !Z.leb_le. split.
    + intro H. exists x. split; [reflexivity | lia].
    + intros (age & E & H). inversion E; subst. lia.
  - split; [discriminate | intros (age & E & _); discriminate].
Qed.

Lemma eq__true v n : eq_ v n = true <-> v = Some n.
Proof.
  unfold eq_. destruct v as [x|]; [|split; discriminate].
  rewrite Z.eqb_eq. split; congruence.
Qed.

Lemma pandas_filters_same df gender min_age max_age clinic :
  pandas_DataModel.filters df gender min_age max_age clinic
  = analytics_data_model.filters df gender min_age max_age clinic.
Proof.
  unfold pandas_DataModel.filters, analytics_data_model.filters.
  destruct (String.eqb_spec gender "all") as [->|_]; reflexivity.
Qed.

Lemma analytics_filters_In df gender min_age max_age clinic r :
  In r (analytics_data_model.filters df gender min_age max_age clinic) <->
  In r df /\ passes gender min_age max_age clinic r.
Proof.
  unfold analytics_data_model.filters, passes.
  rewrite !filter_In, age_in_range, eq__true.
  destruct (String.eqb_spec gender "all") as [->|Ha].
  { split; [|tauto]. intros ((H & Hage) & Hc).
    repeat split; auto; discriminate. }
  destruct (String.eqb_spec gender "Male") as [->|Hm].
  { rewrite filter_In, str_is_true. split.
    - intros (((H & Hg) & Hage) & Hc). repeat split; auto; discriminate.
    - intros (H & Hg & _ & Hage & Hc). auto. }
  destruct (String.eqb_spec gender "Female") as [->|Hf].
  { rewrite filter_In, str_is_true. split.
    - intros (((H & Hg) & Hage) & Hc). repeat split; auto; discriminate.
    - intros (H & _ & Hg & Hage & Hc). auto. }
  split; [|tauto]. intros ((H & Hage) & Hc).
  repeat split; auto; intro; contradiction.
Qed.

(** X1. The three [filters] functions return the same frame for every
    frame and every gender, age and clinic argument, although
    [pandas_DataModel.py] has no branch for 'all'. *)
Theorem filters_of_the_three_files_agree df gender min_age max_age clinic :
  pandas_DataModel.filters df gender min_age max_age clinic
  = analytics_data_model.filters df gender min_age max_age clinic
  /\ polars_DataModel.filters df gender min_age max_age clinic
     = analytics_data_model.filters df gender min_age max_age clinic.
Proof. split; [apply pandas_filters_same | reflexivity]. Qed.

(** X2. In each of the three files a row is kept by [filters] exactly when
    it is a row of the frame, its gender is the requested one when 'Male'
    or 'Female' is requested, its age is present and within
    [min_age, max_age], and its clinic is present and equal to the
    requested one.  Rows with a missing age or clinic are never kept. *)
Theorem filters_keeps_exactly df gender min_age max_age clinic r :
  (In r (analytics_data_model.filters df gender min_age max_age clinic) <->
   In r df /\ passes gender min_age max_age clinic r)
  /\ (In r (pandas_DataModel.filters df gender min_age max_age clinic) <->
      In r df /\ passes gender min_age max_age clinic r)
  /\ (In r (polars_DataModel.filters df gender min_age max_age clinic) <->
      In r df /\ passes gender min_age max_age clinic r).
Proof.
  rewrite pandas_filters_same.
  split; [|split]; apply analytics_filters_In.
Qed.

(** X3. As the comment of [filters] says, equal bounds select one age: with
    min_age = max_age every kept row has exactly that age; and with
    min_age > max_age nothing is kept. *)
Theorem filters_age_window df gender min_age max_age clinic :
  (min_age = max_age ->
   forall r,
     In r (analytics_data_model.filters df gender min_age max_age clinic) ->
     Age (base r) = Some min_age)
  /\ (max_age < min_age ->
      analytics_data_model.filters df gender min_age max_age clinic = []).
Proof.
  split.
  - intros E r Hr. apply analytics_filters_In in Hr.
    destruct Hr as (_ & _ & _ & (age & Ha & Hr) & _).
    rewrite Ha. f_equal. lia.
  - intro Hlt.
    destruct (analytics_data_model.filters df gender min_age max_age clinic)
      as [|r l] eqn:E; [reflexivity|].
    assert (Hr : In r (analytics_data_model.filters df gender min_age
                                                    max_age clinic))
      by (rewrite E; now left).
    apply analytics_filters_In in Hr.
    destruct Hr as (_ & _ & _ & (age & _ & Hr) & _). lia.
Qed.

Lemma filters_age_window_witness :
  (30 = 30
   /\ forall r,
       In r (analytics_data_model.filters loss_out "all" 30 30 5066) ->
       Age (base r) = Some 30)
  /\ (20 < 40 /\ analytics_data_model.filters loss_out "all" 40 20 5066 = []).
Proof.
  split.
  - split; [reflexivity|].
    exact (proj1 (filters_age_window loss_out "all" 30 30 5066) eq_refl).
  - assert (H : 20 < 40) by lia. split; [exact H|].
    exact (proj2 (filters_age_window loss_out "all" 40 20 5066) H).
Defined.

(** ** What [data_pipeline] returns *)









(** X5. The frame returned by either pandas file has no repeated row and
    holds exactly the rows of the frame of metrics that pass the three
    tests of [filters]: the filter and the deduplication remove rows and
    change none. *)
Theorem output_is_the_distinct_filtered_rows
        us ws ts cohort gender min_age max_age clinic :
  (forall out,
      analytics_data_model.data_pipeline us ws ts cohort gender min_age
                                         max_age clinic = inr out ->
      exists T,
        analytics_data_model.metrics us ws ts cohort = inr T
        /\ NoDup out
        /\ forall r, In r out <->
                     In r T /\ passes gender min_age max_age clinic r)
  /\ (forall out,
         pandas_DataModel.data_pipeline us ws ts cohort gender min_age
                                        max_age clinic = inr out ->
         exists T,
           pandas_DataModel.metrics us ws ts cohort = inr T
           /\ NoDup out
           /\ forall r, In r out <->
                        In r T /\ passes gender min_age max_age clinic r).
Proof.
  split; intros out H.
  - unfold analytics_data_model.data_pipeline in H.
    destruct (analytics_data_model.metrics us ws ts cohort) as [e|T];
      simpl in H; [discriminate|].
    exists T. split; [reflexivity|]. inversion H; subst.
    split; [apply drop_duplicates_NoDup|].
    intro r. rewrite drop_duplicates_In. apply analytics_filters_In.
  - unfold pandas_DataModel.data_pipeline in H.
    destruct (pandas_DataModel.metrics us ws ts cohort) as [e|T];
      simpl in H; [discriminate|].
    exists T. split; [reflexivity|]. inversion H; subst.
    split; [apply drop_duplicates_NoDup|].
    intro r. rewrite drop_duplicates_In, pandas_filters_same.
    apply analytics_filters_In.
Qed.

Lemma output_is_the_distinct_filtered_rows_witness :
  run_analytics [alice] loss_weights = inr loss_out
  /\ NoDup loss_out.
Proof.
  assert (H1 : run_analytics [alice] loss_weights = inr loss_out)
    by (vm_compute; reflexivity).
  split; [exact H1|].
  destruct (proj1 (output_is_the_distinct_filtered_rows
                     [alice] loss_weights [episode_alice; episode_bob]
                     week_c "all" 18 72 5066) loss_out H1)
    as (T & _ & ND & _).
  exact ND.
Defined.

Lemma merge_user_columns us ws ts b :
  In b (pd.merge us ws ts) ->
  exists u, In u us /\ UID b = users.UID u /\ Gender b = users.Gender u
            /\ Age b = users.Age u /\ ClinicID b = users.ClinicID u
            /\ UIDCreatedDate b = users.CreatedDate u.
Proof.
  intro H. apply merge_In in H.
  destruct H as (u & ow & ot & Hu & -> & _). exists u. simpl.
  repeat split; auto.
Qed.

(** X6. When no user belongs to the requested clinic, a run of either
    pandas file that returns, returns the empty frame: an empty selection
    is not an error (an empty users table is one). *)
Theorem empty_selection_gives_empty_frame
        us ws ts cohort gender min_age max_age clinic :
  (forall u, In u us -> users.ClinicID u <> Some clinic) ->
  (forall out,
      analytics_data_model.data_pipeline us ws ts cohort gender min_age
                                         max_age clinic = inr out ->
      out = [])
  /\ (forall out,
         pandas_DataModel.data_pipeline us ws ts cohort gender min_age
                                        max_age clinic = inr out ->
         out = []).
Proof.
  intro Hc.
  assert (K : forall T r,
             (forall r', In r' T -> In (base r') (sorted_frame us ws ts)) ->
             In r T -> passes gender min_age max_age clinic r -> False).
  { intros T r HT Hr (_ & _ & _ & Hcl').
    apply HT, sorted_frame_In, merge_user_columns in Hr.
    destruct Hr as (u & Hu & _ & _ & _ & Hcl & _).
    apply (Hc u Hu). congruence. }
  split; intros out H; destruct out as [|r out]; try reflexivity; exfalso.
  - unfold analytics_data_model.data_pipeline in H.
    destruct (analytics_data_model.metrics us ws ts cohort) as [e|T] eqn:HT;
      simpl in H; [discriminate|].
    assert (Hr : In r (pd.drop_duplicates
                         OutRow_eq_dec
                         (analytics_data_model.filters T gender min_age
                                                       max_age clinic)))
      by (inversion H as [E]; rewrite E; now left).
    apply drop_duplicates_In, analytics_filters_In in Hr.
    destruct Hr as [Hr Hp]. apply (K T r); auto.
    apply analytics_metrics_rows in HT. destruct HT as [-> _].
    intros r' Hr'. apply in_map_iff in Hr'.
    now destruct Hr' as (b & <- & Hb).
  - unfold pandas_DataModel.data_pipeline in H.
    destruct (pandas_DataModel.metrics us ws ts cohort) as [e|T] eqn:HT;
      simpl in H; [discriminate|].
    assert (Hr : In r (pd.drop_duplicates
                         OutRow_eq_dec
                         (pandas_DataModel.filters T gender min_age
                                                   max_age clinic)))
      by (inversion H as [E]; rewrite E; now left).
    rewrite drop_duplicates_In, pandas_filters_same in Hr.
    apply analytics_filters_In in Hr.
    destruct Hr as [Hr Hp]. apply (K T r); auto.
    apply pandas_metrics_rows in HT. destruct HT as [-> _].
    intros r' Hr'. apply in_map_iff in Hr'.
    now destruct Hr' as (b & <- & Hb).
Qed.

Lemma empty_selection_gives_empty_frame_witness :
  (forall u, In u [alice] -> users.ClinicID u <> Some 9999)
  /\ analytics_data_model.data_pipeline [alice] loss_weights [episode_alice]
                                        week_c "all" 18 72 9999 = inr [].
Proof.
  assert (Hc : forall u, In u [alice] -> users.ClinicID u <> Some 9999).
  { intros u [<-|[]]. discriminate. }
  split; [exact Hc|].
  assert (H : exists out,
             analytics_data_model.data_pipeline
               [alice] loss_weights [episode_alice] week_c "all" 18 72 9999
             = inr out)
    by (eexists; vm_compute; reflexivity).
  destruct H as [out H].
  rewrite H. f_equal.
  exact (proj1 (empty_selection_gives_empty_frame
                  [alice] loss_weights [episode_alice] week_c "all" 18 72
                  9999 Hc) out H).
Defined.

(** ** The joins *)

Lemma filter_nil_iff {X} (p : X -> bool) l :
  filter p l = [] <-> forall x, In x l -> p x <> true.
Proof.
  split.
  - intros E x Hx Hp.
    assert (Hf : In x (filter p l)) by (apply filter_In; auto).
    rewrite E in Hf. destruct Hf.
  - intro H. destruct (filter p l) as [|x l'] eqn:E; [reflexivity|].
    exfalso.
    assert (Hf : In x (filter p l)) by (rewrite E; now left).
    apply filter_In in Hf. destruct Hf as [Hx Hp]. now apply (H x).
Qed.

(** X7. When every key is at most 2^53 in absolute value, the merged frame
    holds exactly the combinations of a user, one of the user's own weight
    records and one of the user's own episodes, a side being missing
    exactly when the user has no record on it: a weight record is never
    joined to another patient's episode, and every combination is there. *)
Theorem merge_pairs_own_records us ws ts b :
  exact_keys us ws ts ->
  (In b (pd.merge us ws ts) <->
   exists u ow ot,
     In u us /\ b = pd.joined (u, ow) ot
     /\ match ow with
        | Some w => In w ws /\ weights.MasterUserID w = Some (users.UID u)
        | None => forall w, In w ws ->
                            weights.MasterUserID w <> Some (users.UID u)
        end
     /\ match ot with
        | Some t => In t ts /\ treatments.MasterUserID t = Some (users.UID u)
        | None => forall t, In t ts ->
                            treatments.MasterUserID t <> Some (users.UID u)
        end).
Proof.
  intro HK. rewrite merge_In.
  assert (HW : forall u ow, In u us ->
             (match ow with
              | Some w => In w ws /\ weight_of ws (users.UID u) w = true
              | None => filter (weight_of ws (users.UID u)) ws = []
              end
              <-> match ow with
                  | Some w => In w ws
                              /\ weights.MasterUserID w = Some (users.UID u)
                  | None => forall w, In w ws ->
                                      weights.MasterUserID w
                                      <> Some (users.UID u)
                  end)).
  { intros u [w|] Hu.
    - split; intros [Hw Hk]; (split; [assumption|]);
        now apply (weight_of_exact us ws ts u w HK Hu Hw).
    - rewrite filter_nil_iff. split; intros H w Hw Hk; apply (H w Hw);
        now apply (weight_of_exact us ws ts u w HK Hu Hw). }
  assert (HT : forall u ot, In u us ->
             (match ot with
              | Some t => In t ts /\ episode_of ts (users.UID u) t = true
              | None => filter (episode_of ts (users.UID u)) ts = []
              end
              <-> match ot with
                  | Some t => In t ts
                              /\ treatments.MasterUserID t
                                 = Some (users.UID u)
                  | None => forall t, In t ts ->
                                      treatments.MasterUserID t
                                      <> Some (users.UID u)
                  end)).
  { intros u [t|] Hu.
    - split; intros [Ht Hk]; (split; [assumption|]);
        now apply (episode_of_exact us ws ts u t HK Hu Ht).
    - rewrite filter_nil_iff. split; intros H t Ht Hk; apply (H t Ht);
        now apply (episode_of_exact us ws ts u t HK Hu Ht). }
  split; intros (u & ow & ot & Hu & Hb & How & Hot); exists u, ow, ot;
    (split; [assumption|]); (split; [assumption|]); split;
    first [now apply (HW u ow Hu) | now apply (HT u ot Hu)].
Qed.

Lemma exact_keys_sample :
  exact_keys [alice; bob] loss_weights [episode_alice; episode_bob].
Proof.
  repeat split; repeat constructor; simpl;
    try (intros k E; inversion E; subst); simpl; lia.
Qed.

Lemma merge_pairs_own_records_witness :
  exact_keys [alice; bob] loss_weights [episode_alice; episode_bob]
  /\ In (pd.joined (alice, Some (weigh_ 1 (Some 70) 1)) (Some episode_alice))
        (pd.merge [alice; bob] loss_weights [episode_alice; episode_bob]).
Proof.
  split; [exact exact_keys_sample|].
  apply (proj2 (merge_pairs_own_records
                  [alice; bob] loss_weights [episode_alice; episode_bob]
                  _ exact_keys_sample)).
  exists alice, (Some (weigh_ 1 (Some 70) 1)), (Some episode_alice).
  split; [now left|]. split; [reflexivity|].
  split; (split; [now left | reflexivity]).
Defined.

Lemma left_join_filter_right {L R O} (on : L -> R -> bool)
      (pair : L -> option R -> O) (p : R -> bool) left right :
  (forall l r, In l left -> on l r = true -> p r = true) ->
  pd.left_join on pair left (filter p right) = pd.left_join on pair left right.
Proof.
  intro H.
  assert (HF : forall l, In l left ->
                         filter (on l) (filter p right) = filter (on l) right).
  { intros l Hl. induction right as [|r right IH]; simpl; [reflexivity|].
    destruct (on l r) eqn:E.
    - rewrite (H l r Hl E). simpl. rewrite E. now rewrite IH.
    - destruct (p r); simpl; rewrite ?E; exact IH. }
  unfold pd.left_join.
  induction left as [|l left IH]; simpl; [reflexivity|].
  rewrite HF by (now left). f_equal.
  apply IH.
  - intros l' r Hl'. apply H. now right.
  - intros l' Hl'. apply HF. now right.
Qed.

Lemma left_join_ext {L R O} (on on' : L -> R -> bool)
      (pair : L -> option R -> O) left right :
  (forall l r, In l left -> In r right -> on l r = on' l r) ->
  pd.left_join on pair left right = pd.left_join on' pair left right.
Proof.
  intro H. unfold pd.left_join.
  induction left as [|l left IH]; simpl; [reflexivity|].
  assert (E : filter (on l) right = filter (on' l) right).
  { apply filter_ext_in. intros r Hr. apply H; [now left | assumption]. }
  rewrite E. f_equal.
  apply IH. intros l' r Hl'. apply H. now right.
Qed.

(** With exact keys the test of a merge is the equality of the keys,
    whatever the dtype of the key column. *)
Lemma key_match_exact_eqb float_keys uid k :
  Z.abs uid <= 2 ^ 53 ->
  (forall k', k = Some k' -> Z.abs k' <= 2 ^ 53) ->
  pd.key_match float_keys uid k = pd.key_match false uid k.
Proof.
  intros Hu Hk. apply eq_true_iff_eq.
  rewrite (key_match_exact float_keys uid k Hu Hk).
  now rewrite (key_match_exact false uid k Hu Hk).
Qed.

(** X8. When every key is at most 2^53 in absolute value, records that
    belong to no user of the users table (a missing or unknown
    MasterUserID) do not reach the merged frame: removing them from the
    weights and treatments tables beforehand gives the same frame. *)
Theorem merge_ignores_orphan_records us ws ts :
  exact_keys us ws ts ->
  let known := fun k => existsb (fun u => pd.key_match false (users.UID u) k)
                                us in
  pd.merge us (filter (fun w => known (weights.MasterUserID w)) ws)
              (filter (fun t => known (treatments.MasterUserID t)) ts)
  = pd.merge us ws ts.
Proof.
  intros (Hu & Hw & Ht) known.
  rewrite Forall_forall in Hu, Hw, Ht.
  unfold pd.merge, pd.merge_uw_treatments, pd.merge_users_weights.
  cbv zeta.
  set (ws' := filter (fun w => known (weights.MasterUserID w)) ws).
  set (ts' := filter (fun t => known (treatments.MasterUserID t)) ts).
  assert (E1 : pd.left_join
                 (fun u w => pd.key_match
                               (pd.is_float64 (map weights.MasterUserID ws'))
                               (users.UID u) (weights.MasterUserID w))
                 (fun u ow => (u, ow)) us ws'
               = pd.left_join
                   (fun u w => pd.key_match
                                 (pd.is_float64 (map weights.MasterUserID ws))
                                 (users.UID u) (weights.MasterUserID w))
                   (fun u ow => (u, ow)) us ws).
  { rewrite (left_join_ext _
               (fun u w => pd.key_match false (users.UID u)
                                        (weights.MasterUserID w))).
    2:{ intros u w Iu Iw. apply filter_In in Iw. destruct Iw as [Iw _].
        apply key_match_exact_eqb; [now apply Hu | now apply Hw]. }
    rewrite (left_join_ext
               (fun u w => pd.key_match
                             (pd.is_float64 (map weights.MasterUserID ws))
                             (users.UID u) (weights.MasterUserID w))
               (fun u w => pd.key_match false (users.UID u)
                                        (weights.MasterUserID w))).
    2:{ intros u w Iu Iw.
        apply key_match_exact_eqb; [now apply Hu | now apply Hw]. }
    apply left_join_filter_right.
    intros u w Iu Hon. unfold known. apply existsb_exists. now exists u. }
  rewrite E1.
  set (uw := pd.left_join _ _ us ws).
  assert (HU : forall x, In x uw -> In (fst x) us).
  { intros [u ow] Hx. apply left_join_In in Hx.
    destruct Hx as (u' & Iu & Hx).
    destruct Hx as [(w & _ & _ & E)|(_ & E)]; inversion E; now subst. }
  rewrite (left_join_ext _
             (fun (x : pd.uw_row) t =>
                pd.key_match false (users.UID (fst x))
                             (treatments.MasterUserID t))).
  2:{ intros x t Ix It. apply filter_In in It. destruct It as [It _].
      apply key_match_exact_eqb; [apply Hu; now apply HU | now apply Ht]. }
  rewrite (left_join_ext
             (fun (x : pd.uw_row) t =>
                pd.key_match (pd.is_float64 (map treatments.MasterUserID ts))
                             (users.UID (fst x)) (treatments.MasterUserID t))
             (fun (x : pd.uw_row) t =>
                pd.key_match false (users.UID (fst x))
                             (treatments.MasterUserID t))).
  2:{ intros x t Ix It.
      apply key_match_exact_eqb; [apply Hu; now apply HU | now apply Ht]. }
  apply left_join_filter_right.
  intros x t Ix Hon. unfold known. apply existsb_exists.
  exists (fst x). split; [now apply HU | exact Hon].
Qed.

Lemma merge_ignores_orphan_records_witness :
  exact_keys [alice] (weigh_ 7 (Some 90) 1 :: loss_weights) [episode_alice]
  /\ pd.merge [alice] loss_weights [episode_alice]
     = pd.merge [alice] (weigh_ 7 (Some 90) 1 :: loss_weights)
                [episode_alice].
Proof.
  assert (K : exact_keys [alice] (weigh_ 7 (Some 90) 1 :: loss_weights)
                         [episode_alice]).
  { repeat split; repeat constructor; simpl;
      try (intros k E; inversion E; subst); simpl; lia. }
  split; [exact K|].
  exact (merge_ignores_orphan_records
           [alice] (weigh_ 7 (Some 90) 1 :: loss_weights) [episode_alice] K).
Defined.

(** ** The sorted frame *)

(** X9. In both pandas files the rows of the frame of metrics are the rows
    of the merged frame, as many and each as often, put in the order of
    the six sort columns (ascending, missing values last): computing the
    metrics adds columns and neither drops, repeats nor alters a merged
    row. *)
Theorem metrics_frame_is_the_sorted_merge us ws ts cohort :
  (forall T,
      analytics_data_model.metrics us ws ts cohort = inr T ->
      Permutation (map base T) (pd.merge us ws ts)
      /\ StronglySorted row_le (map base T)
      /\ List.length T = List.length (pd.merge us ws ts))
  /\ (forall T,
         pandas_DataModel.metrics us ws ts cohort = inr T ->
         Permutation (map base T) (pd.merge us ws ts)
         /\ StronglySorted row_le (map base T)
         /\ List.length T = List.length (pd.merge us ws ts)).
Proof.
  assert (H : forall (g : Row -> OutRow),
             (forall b, base (g b) = b) ->
             let T := map g (sorted_frame us ws ts) in
             Permutation (map base T) (pd.merge us ws ts)
             /\ StronglySorted row_le (map base T)
             /\ List.length T = List.length (pd.merge us ws ts)).
  { intros g Hg T. subst T. rewrite map_map.
    rewrite (map_ext _ (fun b => b) Hg), map_id, length_map.
    split; [apply sorted_frame_Permutation|].
    split; [apply sorted_frame_sorted|].
    apply Permutation_length, sorted_frame_Permutation. }
  split; intros T HT.
  - apply analytics_metrics_rows in HT. destruct HT as [-> _].
    now apply H.
  - apply pandas_metrics_rows in HT. destruct HT as [-> _].
    now apply H.
Qed.

Lemma metrics_frame_is_the_sorted_merge_witness :
  analytics_data_model.metrics [alice] loss_weights
                               [episode_alice; episode_bob] week_c
  = inr loss_out
  /\ List.length loss_out
     = List.length (pd.merge [alice] loss_weights
                             [episode_alice; episode_bob]).
Proof.
  assert (H : analytics_data_model.metrics [alice] loss_weights
                [episode_alice; episode_bob] week_c = inr loss_out)
    by (vm_compute; reflexivity).
  split; [exact H|].
  exact (proj2 (proj2 (proj1 (metrics_frame_is_the_sorted_merge
                                [alice] loss_weights
                                [episode_alice; episode_bob] week_c)
                             loss_out H))).
Defined.

(** ** The metrics on the rows of a group *)

(** X10. Each metric is one value per group: in the returned frame,
    patient_starting_weight is the same on all rows of a patient,
    treatment_starting_weight and treatment_TBWL are the same on all rows
    of an episode, and weigh_in_rate and patient_TBWL are the same on all
    rows of a cohort group. *)
Theorem metrics_constant_on_groups
        us ws ts cohort gender min_age max_age clinic out r1 r2 :
  analytics_data_model.data_pipeline us ws ts cohort gender min_age max_age
                                     clinic = inr out ->
  In r1 out -> In r2 out ->
  (UID (base r1) = UID (base r2) ->
   patient_starting_weight r1 = patient_starting_weight r2)
  /\ (pd.group_key (by_treatment r1) = pd.group_key (by_treatment r2) ->
      treatment_starting_weight r1 = treatment_starting_weight r2
      /\ treatment_TBWL r1 = treatment_TBWL r2)
  /\ (pd.group_key (by_cohort cohort r1) = pd.group_key (by_cohort cohort r2) ->
      weigh_in_rate r1 = weigh_in_rate r2
      /\ patient_TBWL r1 = patient_TBWL r2).
Proof.
  intros H H1 H2.
  destruct (analytics_row _ _ _ _ _ _ _ _ _ _ H H1) as (_ & E1 & _).
  destruct (analytics_row _ _ _ _ _ _ _ _ _ _ H H2) as (_ & E2 & _).
  set (S := sorted_frame us ws ts) in *.
  split; [|split].
  - intro Hu. rewrite E1, E2. cbn [patient_starting_weight row_metrics].
    unfold broadcast, key_patient. simpl pd.group_key. now rewrite Hu.
  - intro Hk.
    change (key_treatment (base r1) = key_treatment (base r2)) in Hk.
    rewrite E1, E2.
    cbn [treatment_starting_weight treatment_TBWL row_metrics].
    unfold broadcast. rewrite Hk. now split.
  - intro Hk.
    rewrite E1, E2 in Hk. rewrite !by_cohort_row_metrics in Hk.
    rewrite E1, E2. cbn [weigh_in_rate patient_TBWL row_metrics].
    unfold broadcast. rewrite Hk. now split.
Qed.

Lemma metrics_constant_on_groups_witness :
  run_analytics [alice] loss_weights = inr loss_out
  /\ In loss_first loss_out
  /\ (forall r2, In r2 loss_out ->
                 UID (base loss_first) = UID (base r2) ->
                 patient_starting_weight loss_first
                 = patient_starting_weight r2).
Proof.
  assert (H1 : run_analytics [alice] loss_weights = inr loss_out)
    by (vm_compute; reflexivity).
  assert (H2 : In loss_first loss_out) by (left; reflexivity).
  split; [exact H1|]. split; [exact H2|].
  intros r2 Hr2.
  exact (proj1 (metrics_constant_on_groups
                  _ _ _ _ _ _ _ _ _ _ _ H1 H2 Hr2)).
Defined.

(** X11. A row whose episode has no treatment type is in no episode and in
    no cohort group: its weigh_in_rate, treatment_starting_weight,
    treatment_TBWL and patient_TBWL are missing, while its
    patient_starting_weight is still the first weight value present in the
    patient's rows. *)
Theorem row_without_treatment_type
        us ws ts cohort gender min_age max_age clinic out r :
  analytics_data_model.data_pipeline us ws ts cohort gender min_age max_age
                                     clinic = inr out ->
  In r out ->
  TreatmentTypeID (base r) = None ->
  weigh_in_rate r = None
  /\ treatment_starting_weight r = None
  /\ treatment_TBWL r = None
  /\ patient_TBWL r = None
  /\ patient_starting_weight r
     = pd.first (map Weight (rows_of_patient (UID (base r))
                                             (sorted_frame us ws ts))).
Proof.
  intros H Hr Hty.
  destruct (analytics_row _ _ _ _ _ _ _ _ _ _ H Hr) as (_ & E & _).
  set (S := sorted_frame us ws ts) in *.
  assert (K3 : key_treatment (base r) = None)
    by (unfold key_treatment; simpl; now rewrite Hty).
  assert (K4 : key_cohort month1 week1 cohort (base r) = None)
    by (unfold key_cohort; simpl; now rewrite Hty).
  rewrite E at 1 2 3 4 5.
  cbn [weigh_in_rate treatment_starting_weight treatment_TBWL patient_TBWL
       patient_starting_weight row_metrics].
  unfold broadcast. rewrite K3, K4.
  repeat split.
  change (key_patient (base r)) with (Some [UID (base r)]). cbv beta iota.
  now rewrite group_rows_patient.
Qed.

Lemma row_without_treatment_type_witness :
  exists out r,
    analytics_data_model.data_pipeline
      [alice] loss_weights [treatments.mk (Some 1) None (day_ 0)]
      week_c "all" 18 72 5066 = inr out
    /\ In r out
    /\ TreatmentTypeID (base r) = None
    /\ weigh_in_rate r = None
    /\ patient_starting_weight r = Some 70.
Proof.
  assert (H : exists out,
             analytics_data_model.data_pipeline
               [alice] loss_weights [treatments.mk (Some 1) None (day_ 0)]
               week_c "all" 18 72 5066 = inr out)
    by (eexists; vm_compute; reflexivity).
  destruct H as [out H]. 
  assert (Hr : exists r, In r out /\ TreatmentTypeID (base r) = None
                         /\ patient_starting_weight r = Some 70).
  { assert (E : analytics_data_model.data_pipeline
                  [alice] loss_weights [treatments.mk (Some 1) None (day_ 0)]
                  week_c "all" 18 72 5066 = inr out) by exact H.
    vm_compute in E. inversion E as [E']. eexists.
    split; [left; reflexivity|]. split; reflexivity. }
  destruct Hr as (r & Hr & Hty & Hp).
  exists out, r. split; [exact H|]. split; [exact Hr|].
  split; [exact Hty|]. split; [|exact Hp].
  exact (proj1 (row_without_treatment_type _ _ _ _ _ _ _ _ _ _ H Hr Hty)).
Defined.

Lemma filter_length_le {X} (p : X -> bool) l :
  (List.length (filter p l) <= List.length l)%nat.
Proof.
  induction l as [|x l IH]; simpl; [lia|]. destruct (p x); simpl; lia.
Qed.

Lemma filter_length_pos {X} (p : X -> bool) l x :
  In x l -> p x = true -> (1 <= List.length (filter p l))%nat.
Proof.
  intros Hx Hp.
  assert (H : In x (filter p l)) by (apply filter_In; auto).
  destruct (filter p l); [destruct H | simpl; lia].
Qed.

(** X12. On a row of a cohort group weigh_in_rate is never missing: it is
    a number between 0 and the number of rows of the group, and at least 1
    when the row itself has a weight-record update timestamp. *)
Theorem weigh_in_rate_bounds
        us ws ts cohort gender min_age max_age clinic out r k :
  analytics_data_model.data_pipeline us ws ts cohort gender min_age max_age
                                     clinic = inr out ->
  In r out ->
  pd.group_key (by_cohort cohort r) = Some k ->
  exists n,
    weigh_in_rate r = Some n
    /\ 0 <= n
       <= Z.of_nat (List.length
                      (group_rows (sorted_frame us ws ts)
                                  (key_cohort month1 week1 cohort) k))
    /\ (Weights_UpdatedDate (base r) <> None -> 1 <= n).
Proof.
  intros H Hr Hk.
  destruct (analytics_row _ _ _ _ _ _ _ _ _ _ H Hr) as (Hb & E & _).
  set (S := sorted_frame us ws ts) in *.
  assert (Hk' : key_cohort month1 week1 cohort (base r) = Some k).
  { rewrite <- (by_cohort_row_metrics pd.neg cohort S (base r)).
    now rewrite <- E. }
  assert (EW : weigh_in_rate r
               = pd.count (map Weights_UpdatedDate
                               (group_rows S (key_cohort month1 week1 cohort)
                                           k))).
  { rewrite E at 1. cbn [weigh_in_rate row_metrics].
    unfold broadcast. now rewrite Hk'. }
  rewrite EW. unfold pd.count.
  eexists. split; [reflexivity|]. split.
  - split; [lia|]. apply inj_le.
    etransitivity; [apply filter_length_le|]. now rewrite length_map.
  - intro Hu.
    assert (1 <= List.length
                   (filter pd.notna
                           (map Weights_UpdatedDate
                                (group_rows S (key_cohort month1 week1 cohort)
                                            k))))%nat; [|lia].
    apply filter_length_pos with (Weights_UpdatedDate (base r)).
    + apply in_map. unfold group_rows. apply filter_In.
      split; [assumption|]. now apply in_group_true.
    + destruct (Weights_UpdatedDate (base r)); [reflexivity | congruence].
Qed.

Lemma weigh_in_rate_bounds_witness :
  run_analytics [alice] loss_weights = inr loss_out
  /\ In loss_first loss_out
  /\ pd.group_key (by_cohort week_c loss_first) = Some [1; 1; 0; 1]
  /\ exists n, weigh_in_rate loss_first = Some n /\ 0 <= n.
Proof.
  assert (H1 : run_analytics [alice] loss_weights = inr loss_out)
    by (vm_compute; reflexivity).
  assert (H2 : In loss_first loss_out) by (left; reflexivity).
  assert (H3 : pd.group_key (by_cohort week_c loss_first) = Some [1; 1; 0; 1])
    by reflexivity.
  split; [exact H1|]. split; [exact H2|]. split; [exact H3|].
  destruct (weigh_in_rate_bounds _ _ _ _ _ _ _ _ _ _ _ H1 H2 H3)
    as (n & E & Hn & _).
  exists n. split; [exact E | lia].
Defined.

(** ** The cohort indices *)

Lemma div_eq_iff d m q :
  0 < m -> (d / m = q <-> q * m <= d < (q + 1) * m).
Proof.
  intro Hm. split.
  - intros <-. pose proof (Z.mul_div_le d m Hm).
    pose proof (Z.mul_succ_div_gt d m Hm). lia.
  - intros [H1 H2]. symmetry. apply (Z.div_unique d m q (d - q * m)); lia.
Qed.

(** X13. [analytics_data_model.py] numbers the cohorts from 1: with [d]
    the time from the episode start to the weigh-in, the week index is k
    exactly when (k-1) * 7 days <= d < k * 7 days; and, as long as [d] is
    at most 2^53 ns (a little over 104 days) on either side of the start,
    the month index is k exactly when (k-1) * 30.44 days <= d
    < k * 30.44 days.  Beyond, the float64 quotient can be rounded up to
    the next integer, and a month index k only tells that
    (k-2) * 30.44 days <= d < k * 30.44 days. *)
Theorem cohort_index_buckets
        us ws ts cohort gender min_age max_age clinic out r :
  analytics_data_model.data_pipeline us ws ts cohort gender min_age max_age
                                     clinic = inr out ->
  In r out ->
  exists wc st,
    Weights_CreatedDate (base r) = Some wc
    /\ Treatment_StartDate (base r) = Some st
    /\ (forall k, week r = Some k
                  <-> (k - 1) * (7 * day) <= wc - st < k * (7 * day))
    /\ (Z.abs (wc - st) <= 2 ^ 53 ->
        forall k, month r = Some k
                  <-> (k - 1) * Timedelta_30_44 <= wc - st
                      < k * Timedelta_30_44)
    /\ (Z.abs (wc - st) <= 2 ^ 63 ->
        forall k, month r = Some k ->
                  (k - 2) * Timedelta_30_44 <= wc - st
                  < k * Timedelta_30_44).
Proof.
  intros H Hr.
  destruct (analytics_row _ _ _ _ _ _ _ _ _ _ H Hr) as (Hb & E & HF).
  rewrite Forall_forall in HF.
  destruct (datediff_Some _ (HF _ Hb)) as (wc & st & Hwc & Hst & Hd).
  exists wc, st. split; [assumption|]. split; [assumption|].
  split; [intro k | split; [intros B k | intros B k]].
  - rewrite E. cbn [week row_metrics]. rewrite (week1_spec _ _ Hd).
    rewrite spec_week_index_div, Z.div_div by (unfold day; lia).
    replace (day * 7) with (7 * day) by lia.
    pose proof (div_eq_iff (wc - st) (7 * day) (k - 1)) as D.
    replace (k - 1 + 1) with k in D by lia.
    rewrite <- D by (unfold day; lia).
    generalize ((wc - st) / (7 * day)). intro q.
    split; [intro Hk; inversion Hk; lia | intro Hk; f_equal; lia].
  - rewrite E. cbn [month row_metrics]. rewrite (month1_spec _ _ Hd B).
    rewrite spec_month_index_div.
    pose proof (div_eq_iff (wc - st) Timedelta_30_44 (k - 1)) as D.
    replace (k - 1 + 1) with k in D by lia.
    rewrite <- D by (unfold Timedelta_30_44; lia).
    generalize ((wc - st) / Timedelta_30_44). intro q.
    split; [intro Hk; inversion Hk; lia | intro Hk; f_equal; lia].
  - rewrite E. cbn [month row_metrics]. rewrite (month1_float _ _ Hd).
    intro Hk. inversion Hk as [Hm]. clear Hk.
    pose proof (float_month_band (wc - st) B) as [L U].
    rewrite spec_month_index_div in L, U. rewrite Hm in L, U.
    pose proof (Z.mul_div_le (wc - st) Timedelta_30_44 eq_refl).
    pose proof (Z.mul_succ_div_gt (wc - st) Timedelta_30_44 eq_refl).
    unfold Timedelta_30_44 in *. lia.
Qed.

Lemma cohort_index_buckets_witness :
  run_analytics [alice] loss_weights = inr loss_out
  /\ In loss_first loss_out
  /\ exists wc st,
      Weights_CreatedDate (base loss_first) = Some wc
      /\ Treatment_StartDate (base loss_first) = Some st
      /\ (forall k, week loss_first = Some k
                    <-> (k - 1) * (7 * day) <= wc - st < k * (7 * day))
      /\ (Z.abs (wc - st) <= 2 ^ 53 ->
          forall k, month loss_first = Some k
                    <-> (k - 1) * Timedelta_30_44 <= wc - st
                        < k * Timedelta_30_44)
      /\ (Z.abs (wc - st) <= 2 ^ 63 ->
          forall k, month loss_first = Some k ->
                    (k - 2) * Timedelta_30_44 <= wc - st
                    < k * Timedelta_30_44).
Proof.
  assert (H1 : run_analytics [alice] loss_weights = inr loss_out)
    by (vm_compute; reflexivity).
  assert (H2 : In loss_first loss_out) by (left; reflexivity).
  split; [exact H1|]. split; [exact H2|].
  exact (cohort_index_buckets _ _ _ _ _ _ _ _ _ _ H1 H2).
Defined.

(** ** Starting and ending weights of an episode *)

Lemma StronglySorted_filter (p : Row -> bool) S :
  StronglySorted row_le S -> StronglySorted row_le (filter p S).
Proof.
  induction 1 as [|a S HS IH Ha]; simpl; [constructor|].
  destruct (p a); [|assumption].
  constructor; [assumption|].
  rewrite Forall_forall in *. intros x Hx. apply Ha.
  apply filter_In in Hx. tauto.
Qed.

Lemma sorted_last l z x :
  StronglySorted row_le l -> hd_error (rev l) = Some z -> In x l ->
  row_le x z.
Proof.
  induction 1 as [|a l HS IH Ha]; simpl; [discriminate|].
  intros Hz Hx.
  destruct l as [|a' l'].
  - simpl in Hz. inversion Hz; subst. destruct Hx as [->|[]].
    apply key_le_refl.
  - assert (Hz' : hd_error (rev (a' :: l')) = Some z).
    { destruct (rev (a' :: l')) as [|y ys] eqn:E.
      - apply (f_equal (@List.length Row)) in E.
        rewrite length_rev in E. discriminate.
      - exact Hz. }
    destruct Hx as [->|Hx]; [|now apply IH].
    rewrite Forall_forall in Ha. apply Ha.
    apply in_rev. now apply hd_error_In.
Qed.

Lemma key_treatment_Some b uid ty st :
  key_treatment b = Some [uid; ty; st] <->
  UID b = uid /\ TreatmentTypeID b = Some ty /\ Treatment_StartDate b = Some st.
Proof.
  unfold key_treatment. simpl.
  destruct (TreatmentTypeID b), (Treatment_StartDate b); split;
    try discriminate; try (intros (_ & H1 & H2); discriminate).
  - intro H. inversion H. auto.
  - intros (-> & H1 & H2). congruence.
Qed.

(** The first and the last row of an episode carry a chronologically first
    and a chronologically last weight record of the patient. *)
Lemma extremal_rows_of_episode us ws ts uid ty st b0 b1 :
  Forall (fun b => datediff b <> None) (sorted_frame us ws ts) ->
  hd_error (group_rows (sorted_frame us ws ts) key_treatment [uid; ty; st])
  = Some b0 ->
  hd_error (rev (group_rows (sorted_frame us ws ts) key_treatment
                            [uid; ty; st])) = Some b1 ->
  exists w0 w1,
    In w0 ws /\ weight_of ws uid w0 = true
    /\ In w1 ws /\ weight_of ws uid w1 = true
    /\ Weight b0 = weights.Weight w0 /\ Weight b1 = weights.Weight w1
    /\ forall w, In w ws -> weight_of ws uid w = true ->
                 chrono_le w0 w /\ chrono_le w w1.
Proof.
  intros HF H0 H1. rewrite Forall_forall in HF.
  set (S := sorted_frame us ws ts) in *.
  set (E := group_rows S key_treatment [uid; ty; st]) in *.
  assert (HE : forall b, In b E <->
                         In b S /\ key_treatment b = Some [uid; ty; st]).
  { intro b. unfold E, group_rows. now rewrite filter_In, in_group_true. }
  assert (HSE : StronglySorted row_le E)
    by (apply StronglySorted_filter, sorted_frame_sorted).
  assert (Hrow : forall b, In b E ->
             exists u w t,
               In u us /\ users.UID u = uid /\ In w ws
               /\ weight_of ws uid w = true
               /\ In t ts /\ episode_of ts uid t = true
               /\ treatments.TreatmentTypeID t = Some ty
               /\ treatments.StartDate t = Some st
               /\ b = pd.joined (u, Some w) (Some t)).
  { intros b Hb. apply HE in Hb. destruct Hb as [Hb Hk].
    pose proof (HF b Hb) as Hd.
    apply key_treatment_Some in Hk. destruct Hk as (Hu & Hty & Hst).
    apply sorted_frame_In, merge_In in Hb.
    destruct Hb as (u & ow & ot & Hin & -> & How & Hot). simpl in *.
    destruct (datediff_Some _ Hd) as (wc & s & Hwc & Hs & _).
    destruct ow as [w|]; [|discriminate Hwc].
    destruct ot as [t|]; [|discriminate Hs].
    destruct How as [Hw Hkw]. destruct Hot as [Ht Hkt].
    rewrite Hu in Hkw, Hkt.
    exists u, w, t. repeat split; auto. }
  assert (Hpair : forall u w t,
             In u us -> users.UID u = uid -> In w ws ->
             weight_of ws uid w = true -> In t ts ->
             episode_of ts uid t = true ->
             treatments.TreatmentTypeID t = Some ty ->
             treatments.StartDate t = Some st ->
             In (pd.joined (u, Some w) (Some t)) E).
  { intros u w t Hu Huid Hw Hkw Ht Hkt Hty Hst. apply HE. split.
    - apply sorted_frame_In, merge_In. exists u, (Some w), (Some t).
      rewrite Huid. repeat split; auto.
    - apply key_treatment_Some. simpl. auto. }
  destruct (Hrow b0 (hd_error_In _ _ H0))
    as (u0 & w0 & t0 & Hu0 & Huid0 & Hw0 & Hk0 & Ht0 & Hkt0 & Hty0 & Hst0 & ->).
  assert (Hin1 : In b1 E) by (apply in_rev; now apply hd_error_In).
  destruct (Hrow b1 Hin1)
    as (u1 & w1 & t1 & Hu1 & Huid1 & Hw1 & Hk1 & Ht1 & Hkt1 & Hty1 & Hst1 & ->).
  exists w0, w1. repeat (split; [assumption || reflexivity|]).
  intros w Hw Hk. split.
  - pose proof (sorted_filter_hd _ _ _ _ (sorted_frame_sorted us ws ts) H0
                  (Hpair u0 w t0 Hu0 Huid0 Hw Hk Ht0 Hkt0 Hty0 Hst0)) as Hle.
    unfold row_le, sort_by in Hle. simpl in Hle.
    rewrite !key_le_cons in Hle. exact Hle.
  - pose proof (sorted_last E _ _ HSE H1
                  (Hpair u1 w t1 Hu1 Huid1 Hw Hk Ht1 Hkt1 Hty1 Hst1)) as Hle.
    unfold row_le, sort_by in Hle. simpl in Hle.
    rewrite !key_le_cons in Hle. exact Hle.
Qed.

(** X14. Every episode of a patient is joined with all of the patient's
    weight records, so the episode start plays no role in the starting and
    ending weights: when the chronologically first weight record(s) of the
    patient have the weight x and the chronologically last have the weight
    y, then on every row with a treatment type treatment_starting_weight
    equals patient_starting_weight, both are x, and treatment_TBWL is
    y - x, whichever episode the row belongs to.  The patient's weight
    records are those that the merge joins to the patient ([weight_of]). *)
Theorem starting_weights_ignore_the_episode
        us ws ts cohort gender min_age max_age clinic out r ty x y :
  analytics_data_model.data_pipeline us ws ts cohort gender min_age max_age
                                     clinic = inr out ->
  In r out ->
  TreatmentTypeID (base r) = Some ty ->
  (forall w, In w ws -> weight_of ws (UID (base r)) w = true ->
             (forall w', In w' ws -> weight_of ws (UID (base r)) w' = true ->
                         chrono_le w w') ->
             weights.Weight w = Some x) ->
  (forall w, In w ws -> weight_of ws (UID (base r)) w = true ->
             (forall w', In w' ws -> weight_of ws (UID (base r)) w' = true ->
                         chrono_le w' w) ->
             weights.Weight w = Some y) ->
  patient_starting_weight r = Some x
  /\ treatment_starting_weight r = Some x
  /\ treatment_TBWL r = Some (y - x).
Proof.
  intros H Hr Hty Hfirst Hlast.
  destruct (analytics_row _ _ _ _ _ _ _ _ _ _ H Hr) as (Hb & E & HF).
  set (S := sorted_frame us ws ts) in *.
  set (uid := UID (base r)) in *.
  pose proof HF as HF'. rewrite Forall_forall in HF'.
  destruct (datediff_Some _ (HF' _ Hb)) as (wc & st & _ & Hst & _).
  assert (Hk : key_treatment (base r) = Some [uid; ty; st])
    by (apply key_treatment_Some; auto).
  (* the episode *)
  set (Ep := group_rows S key_treatment [uid; ty; st]).
  assert (HinE : In (base r) Ep).
  { unfold Ep, group_rows. apply filter_In. split; [assumption|].
    now apply in_group_true. }
  destruct (In_hd_error _ _ HinE) as (b0 & H0).
  assert (HinR : In (base r) (rev Ep)) by (now apply in_rev in HinE).
  destruct (In_hd_error _ _ HinR) as (b1 & H1).
  destruct (extremal_rows_of_episode us ws ts uid ty st b0 b1 HF H0 H1)
    as (w0 & w1 & Hw0 & Hk0 & Hw1 & Hk1 & E0 & E1 & Hext).
  assert (X0 : Weight b0 = Some x).
  { rewrite E0. apply Hfirst; auto. intros w' Hw' Hk'.
    now apply Hext. }
  assert (Y1 : Weight b1 = Some y).
  { rewrite E1. apply Hlast; auto. intros w' Hw' Hk'.
    now apply Hext. }
  assert (ET : treatment_starting_weight r = Some x).
  { rewrite E. cbn [treatment_starting_weight row_metrics].
    unfold broadcast. rewrite Hk. now apply first_map_hd with b0. }
  assert (EL : broadcast S key_treatment pd.last Weight (base r) = Some y).
  { unfold broadcast. rewrite Hk. now apply last_map_hd with b1. }
  (* the patient *)
  assert (HinP : In (base r) (rows_of_patient uid S))
    by (apply rows_of_patient_In; auto).
  destruct (In_hd_error _ _ HinP) as (p0 & Hp0).
  assert (Hd0 : datediff p0 <> None).
  { apply HF'. apply hd_error_In, rows_of_patient_In in Hp0. tauto. }
  destruct (first_row_of_patient _ _ _ _ _ Hp0 Hd0)
    as (v0 & Hv0 & Hkv0 & EW & Hmin).
  assert (XP : Weight p0 = Some x) by (rewrite EW; now apply Hfirst).
  split; [|split].
  - rewrite E. cbn [patient_starting_weight row_metrics]. unfold broadcast.
    change (key_patient (base r)) with (Some [uid]). cbv beta iota.
    unfold uid. rewrite group_rows_patient.
    now apply first_map_hd with p0.
  - exact ET.
  - rewrite E. cbn [treatment_TBWL row_metrics]. rewrite EL.
    rewrite E in ET. cbn [treatment_starting_weight row_metrics] in ET.
    now rewrite ET.
Qed.

Lemma starting_weights_ignore_the_episode_witness :
  run_analytics [alice] loss_weights = inr loss_out
  /\ In loss_first loss_out
  /\ TreatmentTypeID (base loss_first) = Some 1
  /\ patient_starting_weight loss_first = Some 70
  /\ treatment_starting_weight loss_first = Some 70
  /\ treatment_TBWL loss_first = Some (68 - 70).
Proof.
  assert (H1 : run_analytics [alice] loss_weights = inr loss_out)
    by (vm_compute; reflexivity).
  assert (H2 : In loss_first loss_out) by (left; reflexivity).
  assert (H3 : TreatmentTypeID (base loss_first) = Some 1) by reflexivity.
  split; [exact H1|]. split; [exact H2|]. split; [exact H3|].
  apply (starting_weights_ignore_the_episode _ _ _ _ _ _ _ _ _ _ 1 70 68
           H1 H2 H3).
  - intros w [<-|[<-|[]]] _ Hmin; [reflexivity|].
    exfalso.
    assert (Hc : chrono_le (weigh_ 1 (Some 68) 9) (weigh_ 1 (Some 70) 1))
      by (apply Hmin; [left; reflexivity | reflexivity]).
    vm_compute in Hc. discriminate.
  - intros w [<-|[<-|[]]] _ Hmax; [|reflexivity].
    exfalso.
    assert (Hc : chrono_le (weigh_ 1 (Some 68) 9) (weigh_ 1 (Some 70) 1))
      by (apply Hmax; [right; left; reflexivity | reflexivity]).
    vm_compute in Hc. discriminate.
Defined.

(** Two episodes of Alice, starting on day 0 and on day 30, and weigh-ins on
    days 1, 9 and 40: the second episode, too, starts at 70 and ends at
    66. *)
Example second_episode_starts_at_first_weight :
  exists out,
    analytics_data_model.data_pipeline
      [alice]
      [weigh_ 1 (Some 70) 1; weigh_ 1 (Some 68) 9; weigh_ 1 (Some 66) 40]
      [episode_ 1 1 0; episode_ 1 2 30] week_c "all" 18 72 5066 = inr out
    /\ map (fun r => (TreatmentTypeID (base r), Weight (base r),
                      treatment_starting_weight r, treatment_TBWL r)) out
       = [(Some 1, Some 70, Some 70, Some (-4));
          (Some 1, Some 68, Some 70, Some (-4));
          (Some 1, Some 66, Some 70, Some (-4));
          (Some 2, Some 70, Some 70, Some (-4));
          (Some 2, Some 68, Some 70, Some (-4));
          (Some 2, Some 66, Some 70, Some (-4))].
Proof. eexists. split; vm_compute; reflexivity. Qed.

(** ** The order of the frame inside an episode *)

Section Episode_order.

Variable us : list users.t.
Variable ws : list weights.t.
Variable ts : list treatments.t.
Variable cohort : cohort_t.

Hypothesis unique_keys : NoDup (map users.UID us).
Hypothesis dated :
  Forall (fun b => datediff b <> None) (sorted_frame us ws ts).

(** Two rows of one episode, in frame order: same user columns, weigh-in
    times in order. *)
Lemma episode_rows_in_time_order i j bi bj uid ty st :
  nth_error (sorted_frame us ws ts) i = Some bi ->
  nth_error (sorted_frame us ws ts) j = Some bj ->
  (i < j)%nat ->
  key_treatment bi = Some [uid; ty; st] ->
  key_treatment bj = Some [uid; ty; st] ->
  ClinicID bi = ClinicID bj
  /\ exists wi wj, Weights_CreatedDate bi = Some wi
                   /\ Weights_CreatedDate bj = Some wj /\ wi <= wj.
Proof.
  intros Hi Hj Hlt Hki Hkj.
  pose proof (nth_error_In _ _ Hi) as Ini.
  pose proof (nth_error_In _ _ Hj) as Inj.
  apply key_treatment_Some in Hki, Hkj.
  destruct Hki as (Hui & Htyi & Hsti). destruct Hkj as (Huj & Htyj & Hstj).
  destruct (same_patient_same_user us ws ts bi bj unique_keys) as [Huc Hcl];
    try (now apply sorted_frame_In); try congruence.
  split; [assumption|].
  pose proof dated as HF. rewrite Forall_forall in HF.
  destruct (datediff_Some _ (HF _ Ini)) as (wi & si & Hwi & _ & _).
  destruct (datediff_Some _ (HF _ Inj)) as (wj & sj & Hwj & _ & _).
  exists wi, wj. split; [assumption|]. split; [assumption|].
  pose proof (sorted_nth _ i j bi bj (sorted_frame_sorted us ws ts)
                         Hi Hj Hlt) as Hle.
  unfold row_le, sort_by in Hle.
  rewrite Hui, Huj, Huc, Htyi, Htyj, Hsti, Hstj, Hwi, Hwj in Hle.
  rewrite !key_le_cons in Hle. apply key_le_head in Hle. simpl in Hle.
  destruct (Z.compare_spec wi wj); try lia; congruence.
Qed.

Lemma key_cohort_treatment b uid ty st c :
  key_cohort month1 week1 cohort b = Some [uid; ty; st; c] ->
  key_treatment b = Some [uid; ty; st].
Proof.
  intro H. apply key_cohort_Some in H. apply key_treatment_Some. tauto.
Qed.

(** Inside an episode the cohort index does not decrease along the
    frame. *)
Lemma episode_cohorts_in_order i j bi bj uid ty st ci cj :
  nth_error (sorted_frame us ws ts) i = Some bi ->
  nth_error (sorted_frame us ws ts) j = Some bj ->
  (i < j)%nat ->
  key_cohort month1 week1 cohort bi = Some [uid; ty; st; ci] ->
  key_cohort month1 week1 cohort bj = Some [uid; ty; st; cj] ->
  ci <= cj.
Proof.
  intros Hi Hj Hlt Hki Hkj.
  destruct (episode_rows_in_time_order i j bi bj uid ty st Hi Hj Hlt
              (key_cohort_treatment _ _ _ _ _ Hki)
              (key_cohort_treatment _ _ _ _ _ Hkj))
    as (Hcl & wi & wj & Hwi & Hwj & Hle).
  apply key_cohort_Some in Hki, Hkj.
  destruct Hki as (_ & _ & Hsti & Hci). destruct Hkj as (_ & _ & Hstj & Hcj).
  exact (cohort_of_mono cohort bi bj st wi wj ci cj
                        Hsti Hstj Hwi Hwj Hcl Hle Hci Hcj).
Qed.

(** A row between two rows of one episode belongs to that episode. *)
Lemma episode_contiguous i j l bi bj bl uid ty st :
  nth_error (sorted_frame us ws ts) i = Some bi ->
  nth_error (sorted_frame us ws ts) j = Some bj ->
  nth_error (sorted_frame us ws ts) l = Some bl ->
  (i < j < l)%nat ->
  key_treatment bi = Some [uid; ty; st] ->
  key_treatment bl = Some [uid; ty; st] ->
  key_treatment bj = Some [uid; ty; st].
Proof.
  intros Hi Hj Hl [Hij Hjl] Hki Hkl.
  pose proof (nth_error_In _ _ Hi) as Ini.
  pose proof (nth_error_In _ _ Hl) as Inl.
  apply key_treatment_Some in Hki, Hkl.
  destruct Hki as (Hui & Htyi & Hsti). destruct Hkl as (Hul & Htyl & Hstl).
  destruct (same_patient_same_user us ws ts bi bl unique_keys) as [Huc _];
    try (now apply sorted_frame_In); try congruence.
  pose proof (sorted_nth _ i j bi bj (sorted_frame_sorted us ws ts)
                         Hi Hj Hij) as H1.
  pose proof (sorted_nth _ j l bj bl (sorted_frame_sorted us ws ts)
                         Hj Hl Hjl) as H2.
  unfold row_le, sort_by in H1, H2.
  rewrite Hui, Htyi, Hsti in H1. rewrite Hul, <- Huc, Htyl, Hstl in H2.
  destruct (key_le_sandwich _ _ _ _ _ H1 H2) as (E1 & H1a & H2a).
  destruct (key_le_sandwich _ _ _ _ _ H1a H2a) as (E2 & H1b & H2b).
  destruct (key_le_sandwich _ _ _ _ _ H1b H2b) as (E3 & H1c & H2c).
  destruct (key_le_sandwich _ _ _ _ _ H1c H2c) as (E4 & _ & _).
  apply key_treatment_Some. inversion E1. auto.
Qed.

(** A row between two rows of one cohort group belongs to that group. *)
Lemma cohort_group_contiguous i j l bi bj bl uid ty st c :
  nth_error (sorted_frame us ws ts) i = Some bi ->
  nth_error (sorted_frame us ws ts) j = Some bj ->
  nth_error (sorted_frame us ws ts) l = Some bl ->
  (i < j < l)%nat ->
  key_cohort month1 week1 cohort bi = Some [uid; ty; st; c] ->
  key_cohort month1 week1 cohort bl = Some [uid; ty; st; c] ->
  key_cohort month1 week1 cohort bj = Some [uid; ty; st; c].
Proof.
  intros Hi Hj Hl Hijl Hki Hkl.
  pose proof (episode_contiguous i j l bi bj bl uid ty st Hi Hj Hl Hijl
                (key_cohort_treatment _ _ _ _ _ Hki)
                (key_cohort_treatment _ _ _ _ _ Hkl)) as Hkj.
  destruct Hijl as [Hij Hjl].
  destruct (episode_rows_in_time_order i j bi bj uid ty st Hi Hj Hij
              (key_cohort_treatment _ _ _ _ _ Hki) Hkj)
    as (Hcl & wi & wj & Hwi & Hwj & Hle).
  pose proof Hki as Hki'. apply key_cohort_Some in Hki'.
  destruct Hki' as (_ & _ & Hsti & Hci).
  apply key_treatment_Some in Hkj. destruct Hkj as (Huj & Htyj & Hstj).
  destruct (cohort_of_defined cohort bi bj st wi wj c) as [cj Hcj]; auto.
  assert (Hkj : key_cohort month1 week1 cohort bj = Some [uid; ty; st; cj])
    by (apply key_cohort_Some; auto).
  pose proof (episode_cohorts_in_order i j bi bj uid ty st c cj
                                       Hi Hj Hij Hki Hkj).
  pose proof (episode_cohorts_in_order j l bj bl uid ty st cj c
                                       Hj Hl Hjl Hkj Hkl).
  replace c with cj by lia. exact Hkj.
Qed.

End Episode_order.

Lemma key_treatment_shape b k :
  key_treatment b = Some k -> exists uid ty st, k = [uid; ty; st].
Proof.
  unfold key_treatment. simpl.
  destruct (TreatmentTypeID b), (Treatment_StartDate b); try discriminate.
  intro H. inversion H. now eexists _, _, _.
Qed.

Lemma key_cohort_shape mo we cohort b k :
  key_cohort mo we cohort b = Some k -> exists uid ty st c, k = [uid; ty; st; c].
Proof.
  unfold key_cohort. simpl.
  destruct (TreatmentTypeID b), (Treatment_StartDate b),
    (cohort_of mo we cohort b); try discriminate.
  intro H. inversion H. now eexists _, _, _, _.
Qed.

Lemma cohort_value_row_metrics sign cohort S b :
  cohort_value cohort (row_metrics month1 week1 sign cohort S b)
  = cohort_of month1 week1 cohort b.
Proof. destruct cohort; reflexivity. Qed.

Lemma nth_error_map_inv {X Y} (f : X -> Y) l i y :
  nth_error (map f l) i = Some y ->
  exists x, nth_error l i = Some x /\ y = f x.
Proof.
  rewrite nth_error_map. destruct (nth_error l i) as [x|]; simpl;
    [|discriminate].
  intro H. inversion H. now exists x.
Qed.

(** X15. With unique patient keys, the frame of metrics lists the rows of
    an episode by non-decreasing cohort index, and the rows of one cohort
    group are contiguous in it: a row between two rows of a cohort group
    belongs to that group.  This is what lets the difference between
    neighbouring rows compare a cohort with the next one. *)
Theorem frame_lists_cohorts_in_order us ws ts cohort T :
  analytics_data_model.metrics us ws ts cohort = inr T ->
  NoDup (map users.UID us) ->
  (forall i j ri rj k ci cj,
      nth_error T i = Some ri -> nth_error T j = Some rj -> (i < j)%nat ->
      pd.group_key (by_treatment ri) = Some k ->
      pd.group_key (by_treatment rj) = Some k ->
      cohort_value cohort ri = Some ci -> cohort_value cohort rj = Some cj ->
      ci <= cj)
  /\ (forall i j l ri rj rl k,
         nth_error T i = Some ri -> nth_error T j = Some rj ->
         nth_error T l = Some rl -> (i < j < l)%nat ->
         pd.group_key (by_cohort cohort ri) = Some k ->
         pd.group_key (by_cohort cohort rl) = Some k ->
         pd.group_key (by_cohort cohort rj) = Some k).
Proof.
  intros HT ND.
  apply analytics_metrics_rows in HT. destruct HT as [-> HF].
  set (S := sorted_frame us ws ts) in *.
  split.
  - intros i j ri rj k ci cj Hi Hj Hlt Hki Hkj Hci Hcj.
    apply nth_error_map_inv in Hi, Hj.
    destruct Hi as (bi & Hi & ->). destruct Hj as (bj & Hj & ->).
    change (key_treatment bi = Some k) in Hki.
    change (key_treatment bj = Some k) in Hkj.
    rewrite cohort_value_row_metrics in Hci, Hcj.
    destruct (key_treatment_shape _ _ Hki) as (uid & ty & st & ->).
    apply key_treatment_Some in Hki, Hkj.
    apply (episode_cohorts_in_order us ws ts cohort ND HF i j bi bj
                                    uid ty st ci cj); auto;
      apply key_cohort_Some; tauto.
  - intros i j l ri rj rl k Hi Hj Hl Hijl Hki Hkl.
    apply nth_error_map_inv in Hi, Hj, Hl.
    destruct Hi as (bi & Hi & ->). destruct Hj as (bj & Hj & ->).
    destruct Hl as (bl & Hl & ->).
    rewrite by_cohort_row_metrics in *.
    destruct (key_cohort_shape _ _ _ _ _ Hki) as (uid & ty & st & c & ->).
    exact (cohort_group_contiguous us ws ts cohort ND HF i j l bi bj bl
                                   uid ty st c Hi Hj Hl Hijl Hki Hkl).
Qed.

Lemma frame_lists_cohorts_in_order_witness :
  analytics_data_model.metrics [alice] loss_weights
                               [episode_alice; episode_bob] week_c
  = inr loss_out
  /\ NoDup (map users.UID [alice])
  /\ (forall i j ri rj k ci cj,
         nth_error loss_out i = Some ri -> nth_error loss_out j = Some rj ->
         (i < j)%nat ->
         pd.group_key (by_treatment ri) = Some k ->
         pd.group_key (by_treatment rj) = Some k ->
         cohort_value week_c ri = Some ci ->
         cohort_value week_c rj = Some cj ->
         ci <= cj).
Proof.
  assert (H1 : analytics_data_model.metrics [alice] loss_weights
                 [episode_alice; episode_bob] week_c = inr loss_out)
    by (vm_compute; reflexivity).
  assert (H2 : NoDup (map users.UID [alice]))
    by (repeat constructor; simpl; tauto).
  split; [exact H1|]. split; [exact H2|].
  exact (proj1 (frame_lists_cohorts_in_order _ _ _ _ _ H1 H2)).
Defined.

(** ** The value of patient_TBWL *)

Lemma filter_two_positions {X} (p : X -> bool) l :
  (2 <= List.length (filter p l))%nat ->
  exists i j bi bj,
    (i < j)%nat /\ nth_error l i = Some bi /\ nth_error l j = Some bj
    /\ p bi = true /\ p bj = true.
Proof.
  induction l as [|a l IH]; simpl; [lia|].
  destruct (p a) eqn:E; simpl; intro H.
  - destruct (filter p l) as [|c f] eqn:Ef; [simpl in H; lia|].
    assert (Hc : In c (filter p l)) by (rewrite Ef; now left).
    apply filter_In in Hc. destruct Hc as [Hc Hpc].
    destruct (In_nth_error _ _ Hc) as (j & Hj).
    exists 0%nat, (Datatypes.S j), a, c. simpl. repeat split; auto; lia.
  - destruct (IH H) as (i & j & bi & bj & Hlt & Hi & Hj & Hpi & Hpj).
    exists (Datatypes.S i), (Datatypes.S j), bi, bj. simpl.
    repeat split; auto; lia.
Qed.

Lemma two_positions_filter {X} (p : X -> bool) l i j bi bj :
  (i < j)%nat -> nth_error l i = Some bi -> nth_error l j = Some bj ->
  p bi = true -> p bj = true ->
  (2 <= List.length (filter p l))%nat.
Proof.
  revert i j; induction l as [|a l IH]; intros [|i] [|j] Hlt Hi Hj Hpi Hpj;
    simpl in *; try discriminate; try lia.
  - inversion Hi; subst. rewrite Hpi. simpl.
    assert (1 <= List.length (filter p l))%nat; [|lia].
    apply (filter_length_pos p l bj); auto. eapply nth_error_In; eauto.
  - assert (2 <= List.length (filter p l))%nat
      by (apply (IH i j); auto; lia).
    destruct (p a); simpl; lia.
Qed.

Section Value.

Variable mo we : Row -> option Z.
Variable cohort : cohort_t.
Variable S : list Row.
Variable k k' : list Z.
Variable x y : Z.

Hypothesis distinct : k <> k'.
Hypothesis followed : followed_within mo we cohort S k k'.
Hypothesis first_k : cohort_group_first_weight mo we cohort S k = Some x.
Hypothesis first_k' : cohort_group_first_weight mo we cohort S k' = Some y.
Hypothesis inhabited :
  exists i b, nth_error S i = Some b /\ key_cohort mo we cohort b = Some k.

(** No two neighbouring rows in the group: the maximum is [x - y]. *)
Lemma grouped_max_single :
  (forall i b b', nth_error S i = Some b -> nth_error S (i + 1) = Some b' ->
                  key_cohort mo we cohort b = Some k ->
                  key_cohort mo we cohort b' <> Some k) ->
  pd.max (pd.group_values k (map (key_cohort mo we cohort) S)
                          (wgt_diff_col mo we cohort S))
  = Some (x - y).
Proof.
  intro Hno.
  destruct (grouped_wgt_diff_values mo we cohort S k k' x y distinct followed
              first_k first_k' inhabited) as [Hin _].
  destruct (max_defined _ _ Hin) as [m Hm]. rewrite Hm. f_equal.
  destruct (max_Some _ _ Hm) as [Hmin _].
  apply group_values_In in Hmin. destruct Hmin as (j & Hkj & Hv).
  rewrite nth_error_map in Hkj.
  destruct (nth_error S j) as [bj|] eqn:Hj; [|discriminate].
  simpl in Hkj. inversion Hkj as [Hkj'].
  destruct (wgt_diff_in_group mo we cohort S k k' x y followed first_k
                              first_k' j bj Hj Hkj')
    as (b2 & Hb2 & [[E _]|[_ D]]).
  - exfalso. exact (Hno j bj b2 Hj Hb2 Hkj' E).
  - rewrite D in Hv. now inversion Hv.
Qed.

(** Two neighbouring rows in the group: the maximum is [max 0 (x - y)]. *)
Lemma grouped_max_several i b b' :
  nth_error S i = Some b -> nth_error S (i + 1) = Some b' ->
  key_cohort mo we cohort b = Some k ->
  key_cohort mo we cohort b' = Some k ->
  pd.max (pd.group_values k (map (key_cohort mo we cohort) S)
                          (wgt_diff_col mo we cohort S))
  = Some (Z.max 0 (x - y)).
Proof.
  intros Hi Hi' Hk Hk'.
  destruct (grouped_wgt_diff_max mo we cohort S k k' x y distinct followed
              first_k first_k' inhabited) as (m & Hm & Hcase).
  rewrite Hm. f_equal.
  destruct (max_Some _ _ Hm) as [_ Hle].
  assert (H0 : 0 <= m).
  { apply Hle. apply group_values_In. exists i. split.
    - rewrite nth_error_map, Hi. simpl. now rewrite Hk.
    - destruct (wgt_diff_in_group mo we cohort S k k' x y followed first_k
                                  first_k' i b Hi Hk)
        as (b2 & Hb2 & [[_ D]|[E _]]); [exact D|].
      exfalso. rewrite Hi' in Hb2. inversion Hb2; subst.
      rewrite Hk' in E. inversion E. now apply distinct. }
  lia.
Qed.

End Value.

(** X16. The value of patient_TBWL on a cohort group that has a next one in
    its episode (patient keys being unique), with x the first weight of the
    group and y the first weight of the next group: y - x when the group
    has a single row, and min(0, y - x) when it has several rows.  A cohort
    with several weigh-ins never shows a gain: it shows 0. *)
Theorem patient_TBWL_value
        us ws ts cohort gender min_age max_age clinic out r
        uid ty st cv cv' x y :
  analytics_data_model.data_pipeline us ws ts cohort gender min_age max_age
                                     clinic = inr out ->
  NoDup (map users.UID us) ->
  In r out ->
  pd.group_key (by_cohort cohort r) = Some [uid; ty; st; cv] ->
  next_cohort_group month1 week1 cohort (sorted_frame us ws ts)
                    uid ty st cv cv' ->
  cohort_group_first_weight month1 week1 cohort (sorted_frame us ws ts)
                            [uid; ty; st; cv] = Some x ->
  cohort_group_first_weight month1 week1 cohort (sorted_frame us ws ts)
                            [uid; ty; st; cv'] = Some y ->
  let n := List.length (group_rows (sorted_frame us ws ts)
                                   (key_cohort month1 week1 cohort)
                                   [uid; ty; st; cv]) in
  (n = 1%nat -> patient_TBWL r = Some (y - x))
  /\ ((2 <= n)%nat -> patient_TBWL r = Some (Z.min 0 (y - x))).
Proof.
  intros H ND Hr Hk Hnext Hx Hy n.
  destruct (analytics_row _ _ _ _ _ _ _ _ _ _ H Hr) as (Hb & E & HF).
  set (S := sorted_frame us ws ts) in *.
  assert (Hk' : key_cohort month1 week1 cohort (base r) = Some [uid; ty; st; cv]).
  { rewrite <- (by_cohort_row_metrics pd.neg cohort S (base r)).
    now rewrite <- E. }
  assert (EP : patient_TBWL r
               = pd.neg (pd.max (pd.group_values
                                   [uid; ty; st; cv] (map (key_cohort month1 week1 cohort) S)
                                   (wgt_diff_col month1 week1 cohort S)))).
  { rewrite E at 1. cbn [patient_TBWL row_metrics]. now rewrite Hk'. }
  assert (Hd : [uid; ty; st; cv] <> [uid; ty; st; cv']).
  { destruct Hnext as [Hlt' _]. intro Heq. inversion Heq. lia. }
  pose proof (next_cohort_group_followed us ws ts cohort uid ty st cv cv'
                                         ND HF Hnext) as Hfol.
  destruct (In_nth_error _ _ Hb) as (i0 & Hi0).
  assert (Hex : exists i b, nth_error S i = Some b
                            /\ key_cohort month1 week1 cohort b = Some [uid; ty; st; cv])
    by (now exists i0, (base r)).
  split; intro Hn.
  - rewrite EP.
    rewrite (grouped_max_single month1 week1 cohort S _ _ x y Hd Hfol
                                Hx Hy Hex).
    + simpl. f_equal. lia.
    + intros i b b' Hi Hi' Hkb Hkb'.
      assert (2 <= n)%nat; [|lia].
      apply (two_positions_filter _ S i (i + 1) b b'); auto; try lia;
        now apply in_group_true.
  - destruct (filter_two_positions _ S Hn)
      as (i & l & bi & bl & Hil & Hi & Hl & Hpi & Hpl).
    apply in_group_true in Hpi, Hpl.
    assert (Hlen : (i + 1 < List.length S)%nat).
    { assert (l < List.length S)%nat by (apply nth_error_Some; congruence).
      lia. }
    destruct (nth_error S (i + 1)) as [b'|] eqn:Hi';
      [|apply nth_error_Some in Hlen; congruence].
    assert (Hkb' : key_cohort month1 week1 cohort b' = Some [uid; ty; st; cv]).
    { destruct (Nat.eq_dec (i + 1) l) as [El|Hne].
      - subst l. congruence.
      - apply (cohort_group_contiguous us ws ts cohort ND HF i (i + 1) l
                                       bi b' bl); auto. lia. }
    rewrite EP.
    rewrite (grouped_max_several month1 week1 cohort S _ _ x y Hd Hfol
                                 Hx Hy Hex i bi b' Hi Hi' Hpi Hkb').
    simpl. f_equal. lia.
Qed.

Lemma patient_TBWL_value_witness :
  run_analytics [alice] loss_weights = inr loss_out
  /\ NoDup (map users.UID [alice])
  /\ In loss_first loss_out
  /\ pd.group_key (by_cohort week_c loss_first) = Some [1; 1; 0; 1]
  /\ next_cohort_group month1 week1 week_c
       (sorted_frame [alice] loss_weights [episode_alice; episode_bob])
       1 1 0 1 2
  /\ patient_TBWL loss_first = Some (68 - 70).
Proof.
  assert (H1 : run_analytics [alice] loss_weights = inr loss_out)
    by (vm_compute; reflexivity).
  assert (H2 : NoDup (map users.UID [alice]))
    by (repeat constructor; simpl; tauto).
  assert (H3 : In loss_first loss_out) by (left; reflexivity).
  assert (H4 : pd.group_key (by_cohort week_c loss_first) = Some [1; 1; 0; 1])
    by reflexivity.
  assert (H5 : next_cohort_group month1 week1 week_c
                 (sorted_frame [alice] loss_weights
                               [episode_alice; episode_bob]) 1 1 0 1 2).
  { split; [lia|]. split.
    - eexists. split; [right; left; reflexivity | reflexivity].
    - intros b c [<-|[<-|[]]] Hc; vm_compute in Hc; inversion Hc; lia. }
  split; [exact H1|]. split; [exact H2|]. split; [exact H3|].
  split; [exact H4|]. split; [exact H5|].
  apply (proj1 (patient_TBWL_value
                  _ _ _ _ _ _ _ _ _ _ _ _ _ _ _ 70 68 H1 H2 H3 H4 H5
                  eq_refl eq_refl)).
  reflexivity.
Defined.

(** Alice weighs 70 and 71 in week 1 and 75 at the start of week 2: the
    gain of week 1 is shown as 0. *)
Example gain_in_a_cohort_of_two_rows :
  exists out,
    run_analytics [alice]
      [weigh_ 1 (Some 70) 1; weigh_ 1 (Some 71) 2; weigh_ 1 (Some 75) 9]
    = inr out
    /\ map (fun r => (week r, Weight (base r), patient_TBWL r)) out
       = [(Some 1, Some 70, Some 0); (Some 1, Some 71, Some 0);
          (Some 2, Some 75, None)].
Proof. eexists. split; vm_compute; reflexivity. Qed.

(** ** The two pandas files on weekly cohorts *)

Lemma week1_week0 b :
  week1 b = match week0 b with Some w => Some (w + 1) | None => None end.
Proof.
  unfold week1, week0. destruct (dt_days (datediff b)) as [d|]; [|reflexivity].
  change (7 # 1)%Q with (inject_Z 7). now rewrite Qfloor_div_pos.
Qed.

Lemma weekly_keys b uid ty st c :
  key_cohort month1 week1 week_c b = Some [uid; ty; st; c + 1]
  <-> key_cohort month0 week0 week_c b = Some [uid; ty; st; c].
Proof.
  rewrite !key_cohort_Some. unfold cohort_of. rewrite week1_week0.
  destruct (week0 b) as [w|]; split; intros (Hu & Hty & Hst & Hc);
    repeat split; auto; try discriminate.
  - inversion Hc. f_equal. lia.
  - inversion Hc. reflexivity.
Qed.

Lemma weekly_in_group b uid ty st c :
  pd.in_group [uid; ty; st; c + 1] (key_cohort month1 week1 week_c b)
  = pd.in_group [uid; ty; st; c] (key_cohort month0 week0 week_c b).
Proof.
  apply eq_true_iff_eq. rewrite !in_group_true. apply weekly_keys.
Qed.

Lemma weekly_broadcast {V W} S (agg : list V -> option W) (col : Row -> V) b :
  broadcast S (key_cohort month1 week1 week_c) agg col b
  = broadcast S (key_cohort month0 week0 week_c) agg col b.
Proof.
  unfold broadcast, group_rows.
  destruct (key_cohort month0 week0 week_c b) as [k0|] eqn:E0.
  - destruct (key_cohort_shape _ _ _ _ _ E0) as (uid & ty & st & c & ->).
    apply weekly_keys in E0. rewrite E0.
    do 2 f_equal. apply filter_ext. intro b'. apply weekly_in_group.
  - destruct (key_cohort month1 week1 week_c b) as [k1|] eqn:E1;
      [|reflexivity].
    destruct (key_cohort_shape _ _ _ _ _ E1) as (uid & ty & st & c & ->).
    replace c with (c - 1 + 1) in E1 by lia.
    apply weekly_keys in E1. congruence.
Qed.

Lemma group_values_ext {V} k1 k0 (key1 key0 : Row -> option (list Z)) S
      (col : list V) :
  (forall b, pd.in_group k1 (key1 b) = pd.in_group k0 (key0 b)) ->
  pd.group_values k1 (map key1 S) col = pd.group_values k0 (map key0 S) col.
Proof.
  intro H. unfold pd.group_values. revert col.
  induction S as [|b S IH]; intros [|c col]; simpl; try reflexivity.
  rewrite H. destruct (pd.in_group k0 (key0 b)); simpl; now rewrite IH.
Qed.

Lemma weekly_wgt_diff S :
  wgt_diff_col month1 week1 week_c S = wgt_diff_col month0 week0 week_c S.
Proof.
  unfold wgt_diff_col, cohort_first_weight. f_equal.
  apply map_ext. intro b. apply weekly_broadcast.
Qed.

Lemma weekly_grouped_max S b :
  match key_cohort month1 week1 week_c b with
  | Some k => pd.max (pd.group_values
                        k (map (key_cohort month1 week1 week_c) S)
                        (wgt_diff_col month1 week1 week_c S))
  | None => None
  end
  = match key_cohort month0 week0 week_c b with
    | Some k => pd.max (pd.group_values
                          k (map (key_cohort month0 week0 week_c) S)
                          (wgt_diff_col month0 week0 week_c S))
    | None => None
    end.
Proof.
  rewrite weekly_wgt_diff.
  destruct (key_cohort month0 week0 week_c b) as [k0|] eqn:E0.
  - destruct (key_cohort_shape _ _ _ _ _ E0) as (uid & ty & st & c & ->).
    apply weekly_keys in E0. rewrite E0. f_equal.
    apply group_values_ext. intro b'. apply weekly_in_group.
  - destruct (key_cohort month1 week1 week_c b) as [k1|] eqn:E1;
      [|reflexivity].
    destruct (key_cohort_shape _ _ _ _ _ E1) as (uid & ty & st & c & ->).
    replace c with (c - 1 + 1) in E1 by lia.
    apply weekly_keys in E1. congruence.
Qed.

(** X17. On weekly cohorts the two pandas files compute the same frame up
    to two columns: row by row, the merged columns, weigh_in_rate,
    patient_starting_weight, treatment_starting_weight and treatment_TBWL
    are equal, the week index of [analytics_data_model.py] is that of
    [pandas_DataModel.py] plus 1, and patient_TBWL has the opposite
    sign. *)
Theorem pandas_files_on_weekly_cohorts us ws ts T1 T0 :
  analytics_data_model.metrics us ws ts week_c = inr T1 ->
  pandas_DataModel.metrics us ws ts week_c = inr T0 ->
  Forall2 (fun r1 r0 =>
             base r1 = base r0
             /\ week r1 = match week r0 with
                          | Some w => Some (w + 1)
                          | None => None
                          end
             /\ weigh_in_rate r1 = weigh_in_rate r0
             /\ patient_starting_weight r1 = patient_starting_weight r0
             /\ treatment_starting_weight r1 = treatment_starting_weight r0
             /\ treatment_TBWL r1 = treatment_TBWL r0
             /\ patient_TBWL r1 = pd.neg (patient_TBWL r0))
          T1 T0.
Proof.
  intros H1 H0.
  apply analytics_metrics_rows in H1. destruct H1 as [-> _].
  apply pandas_metrics_rows in H0. destruct H0 as [-> _].
  induction (sorted_frame us ws ts) as [|b S' IH] at 2 4;
    simpl; constructor; [|exact IH].
  cbn [base week weigh_in_rate patient_starting_weight
       treatment_starting_weight treatment_TBWL patient_TBWL row_metrics].
  split; [reflexivity|]. split; [apply week1_week0|].
  split; [apply weekly_broadcast|].
  split; [reflexivity|]. split; [reflexivity|]. split; [reflexivity|].
  f_equal. apply weekly_grouped_max.
Qed.

Lemma pandas_files_on_weekly_cohorts_witness :
  exists T0,
    analytics_data_model.metrics [alice] loss_weights
                                 [episode_alice; episode_bob] week_c
    = inr loss_out
    /\ pandas_DataModel.metrics [alice] loss_weights
                                [episode_alice; episode_bob] week_c = inr T0
    /\ map patient_TBWL T0 = [Some 2; None]
    /\ List.length T0 = List.length loss_out.
Proof.
  assert (H1 : analytics_data_model.metrics [alice] loss_weights
                 [episode_alice; episode_bob] week_c = inr loss_out)
    by (vm_compute; reflexivity).
  assert (H0 : exists T0,
             pandas_DataModel.metrics [alice] loss_weights
               [episode_alice; episode_bob] week_c = inr T0
             /\ map patient_TBWL T0 = [Some 2; None])
    by (eexists; split; vm_compute; reflexivity).
  destruct H0 as (T0 & H0 & E0).
  exists T0. split; [exact H1|]. split; [exact H0|]. split; [exact E0|].
  symmetry.
  exact (Forall2_length (pandas_files_on_weekly_cohorts _ _ _ _ _ H1 H0)).
Defined.

(** ** The cohort indices of [pandas_DataModel.py] *)

Lemma pandas_row us ws ts cohort gender min_age max_age clinic out r :
  pandas_DataModel.data_pipeline us ws ts cohort gender min_age max_age
                                 clinic = inr out ->
  In r out ->
  In (base r) (sorted_frame us ws ts)
  /\ r = row_metrics month0 week0 (fun v => v) cohort
                     (sorted_frame us ws ts) (base r)
  /\ Forall (fun b => datediff b <> None) (sorted_frame us ws ts).
Proof.
  intros H Hr. apply pandas_pipeline_rows in H.
  destruct H as (T & HT & Hin). apply Hin in Hr.
  apply pandas_metrics_rows in HT. destruct HT as [-> HF].
  apply in_map_iff in Hr. destruct Hr as (b & <- & Hb).
  simpl. auto.
Qed.

(** X20. [pandas_DataModel.py] numbers the cohorts from 0, on whole days:
    on every row of the output, with [d] the whole number of days (rounded
    down) from the episode start to the weigh-in, week = floor(d / 7) and
    month = floor(d / 30.417).  The code takes the two quotients in
    float64; for every timedelta of the int64 range the floor of the
    float64 quotient is the floor of the exact one, so that, unlike the
    month of [analytics_data_model.py], these indices are never moved by
    the rounding. *)
Theorem pandas_cohort_indices_are_exact
        us ws ts cohort gender min_age max_age clinic out r :
  pandas_DataModel.data_pipeline us ws ts cohort gender min_age max_age
                                 clinic = inr out ->
  In r out ->
  exists wc st,
    Weights_CreatedDate (base r) = Some wc
    /\ Treatment_StartDate (base r) = Some st
    /\ week r = Some ((wc - st) / day / 7)
    /\ month r = Some ((wc - st) / day * 1000 / 30417)
    /\ (Z.abs (wc - st) <= 2 ^ 63 ->
        week r
        = Some (Qfloor (float64.div (float64.of_int ((wc - st) / day))
                                    (float64.of_int 7)))
        /\ month r
           = Some (Qfloor (float64.div (float64.of_int ((wc - st) / day))
                                       (float64.round (30417 # 1000))))).
Proof.
  intros H Hr.
  destruct (pandas_row _ _ _ _ _ _ _ _ _ _ H Hr) as (Hb & E & HF).
  rewrite Forall_forall in HF.
  destruct (datediff_Some _ (HF _ Hb)) as (wc & st & Hwc & Hst & Hd).
  exists wc, st. split; [assumption|]. split; [assumption|].
  assert (EW : week r = week0 (base r)) by (rewrite E at 1; reflexivity).
  assert (EM : month r = month0 (base r)) by (rewrite E at 1; reflexivity).
  split; [|split].
  - rewrite EW. unfold week0, dt_days. rewrite Hd.
    change (7 # 1)%Q with (inject_Z 7). now rewrite Qfloor_div_pos.
  - rewrite EM. unfold month0, dt_days. now rewrite Hd.
  - intro B. rewrite EW, EM.
    destruct (days_div_is_the_float64_quotient _ _ Hd B) as [M W].
    split; assumption.
Qed.

Lemma pandas_cohort_indices_are_exact_witness :
  exists out r,
    pandas_DataModel.data_pipeline [alice] loss_weights [episode_alice]
                                   week_c "all" 18 72 5066 = inr out
    /\ In r out
    /\ week r = Some 0 /\ month r = Some 0.
Proof.
  assert (H : exists out r,
             pandas_DataModel.data_pipeline
               [alice] loss_weights [episode_alice] week_c "all" 18 72 5066
             = inr out
             /\ hd_error out = Some r)
    by (do 2 eexists; split; vm_compute; reflexivity).
  destruct H as (out & r & H1 & H2).
  exists out, r. split; [exact H1|].
  assert (Hr : In r out) by (now apply hd_error_In).
  split; [exact Hr|].
  destruct (pandas_cohort_indices_are_exact
              _ _ _ _ _ _ _ _ out r H1 Hr)
    as (wc & st & Hwc & Hst & HW & HM & _).
  assert (V : Weights_CreatedDate (base r) = day_ 1
              /\ Treatment_StartDate (base r) = day_ 0).
  { revert H2. vm_compute in H1. inversion H1; subst out. simpl.
    intro H2. inversion H2; subst r. split; reflexivity. }
  destruct V as [V1 V2]. rewrite V1 in Hwc. rewrite V2 in Hst.
  inversion Hwc; inversion Hst; subst wc st.
  split; [exact HW | exact HM].
Defined.
